(** * Menengai routing logistics: order aggregation and route building

    A shallow embedding of [app2.py]: the text helpers
    ([normalize_plate], [extract_truck_number_from_text],
    [extract_coordinates]), the spreadsheet readers
    ([read_excel_to_df], [read_asset_id_from_excel],
    [process_multiple_excels]) and the route builder
    ([send_orders_and_create_route]), followed by the properties
    established for them.

    Conventions of the embedding.
    - Text is ASCII: a Python [str] is a [string]; case mapping and the
      character classes of [re] are the ASCII ones.
    - A Python [float] is a [pyfloat]: an exact rational, an infinity or
      NaN.  Rounding to binary64 and overflow are not represented, nor
      are the bounds of an integer column: products and the sums of a
      column are exact.
    - A cell of an order sheet is empty or carries the text that [str]
      gives for its value; the keys of a grouping are compared and
      ordered as texts.  A cell of the asset workbook keeps the type of
      its value.
    - A raised exception is a value [Raise e] of the error monad [exn];
      a computation that calls the remote services threads the list of
      the calls made so far ([io]).
    - The great-circle distances, the sort by distance and the clock are
      parameters of the route builder. *)

From Stdlib Require Import Ascii String QArith Qround.
From stdpp Require Import gmap strings list fin_maps sorting pretty.

Local Open Scope Z_scope.
Local Open Scope string_scope.

(** ** Characters and Python string methods *)

Module Py.

Definition code (c : ascii) : N := N_of_ascii c.

Definition between (lo hi : N) (c : ascii) : bool :=
  ((lo <=? code c) && (code c <=? hi))%N.

Definition is_digit : ascii → bool := between 48 57.
Definition is_upper : ascii → bool := between 65 90.
Definition is_lower : ascii → bool := between 97 122.
Definition is_alpha (c : ascii) : bool := is_upper c || is_lower c.
Definition is_alnum (c : ascii) : bool := is_alpha c || is_digit c.

(** [\w] of [re]: letters, digits and the underscore. *)
Definition is_word (c : ascii) : bool := is_alnum c || (code c =? 95)%N.

(** [str.isspace] and [\s] on ASCII: TAB, LF, VT, FF, CR, FS, GS, RS, US
    and the space. *)
Definition is_space (c : ascii) : bool :=
  between 9 13 c || between 28 31 c || (code c =? 32)%N.

Definition eqc (a b : ascii) : bool := (code a =? code b)%N.

Definition upper_char (c : ascii) : ascii :=
  if is_lower c then ascii_of_N (code c - 32) else c.

Definition lower_char (c : ascii) : ascii :=
  if is_upper c then ascii_of_N (code c + 32) else c.

Definition digit_val (c : ascii) : N := (code c - 48)%N.

Fixpoint map_str (f : ascii → ascii) (s : string) : string :=
  match s with
  | EmptyString => EmptyString
  | String c s' => String (f c) (map_str f s')
  end.

Fixpoint filter_str (p : ascii → bool) (s : string) : string :=
  match s with
  | EmptyString => EmptyString
  | String c s' => if p c then String c (filter_str p s') else filter_str p s'
  end.

Fixpoint all_str (p : ascii → bool) (s : string) : bool :=
  match s with
  | EmptyString => true
  | String c s' => p c && all_str p s'
  end.

(** [s.upper()], [s.lower()] *)
Definition upper : string → string := map_str upper_char.
Definition lower : string → string := map_str lower_char.

Definition eqs (a b : string) : bool := bool_decide (a = b).

(** [s.startswith(p)] *)
Fixpoint startswith (p s : string) : bool :=
  match p, s with
  | EmptyString, _ => true
  | String a p', String b s' => eqc a b && startswith p' s'
  | String _ _, EmptyString => false
  end.

(** [sub in s] *)
Fixpoint contains (sub s : string) : bool :=
  startswith sub s ||
  match s with
  | EmptyString => false
  | String _ s' => contains sub s'
  end.

(** [s.replace(old, new)] for a non-empty [old]: occurrences are replaced
    from the left and do not overlap; [skip] counts the characters of a
    replaced occurrence still to be passed over. *)
Fixpoint replace_go (old new : string) (skip : nat) (s : string) : string :=
  match s with
  | EmptyString => EmptyString
  | String c s' =>
      match skip with
      | S k => replace_go old new k s'
      | O =>
          if startswith old s
          then new ++ replace_go old new (Nat.pred (String.length old)) s'
          else String c (replace_go old new 0 s')
      end
  end.

Definition replace (old new s : string) : string := replace_go old new 0 s.

(** [s.split(sep)] for a non-empty [sep], as the first piece and the
    pieces after it. *)
Fixpoint split_go (sep : string) (skip : nat) (s : string) : string * list string :=
  match s with
  | EmptyString => (EmptyString, [])
  | String c s' =>
      match skip with
      | S k => split_go sep k s'
      | O =>
          if startswith sep s
          then (EmptyString,
                let '(p, ps) := split_go sep (Nat.pred (String.length sep)) s' in p :: ps)
          else let '(p, ps) := split_go sep 0 s' in (String c p, ps)
      end
  end.

Definition split (sep s : string) : list string :=
  let '(p, ps) := split_go sep 0 s in p :: ps.

Fixpoint lstrip (s : string) : string :=
  match s with
  | EmptyString => EmptyString
  | String c s' => if is_space c then lstrip s' else s
  end.

Fixpoint rstrip (s : string) : string :=
  match s with
  | EmptyString => EmptyString
  | String c s' =>
      match rstrip s' with
      | EmptyString => if is_space c then EmptyString else String c EmptyString
      | r => String c r
      end
  end.

(** [s.strip()] *)
Definition strip (s : string) : string := rstrip (lstrip s).

(** [sep.join(l)] *)
Fixpoint join (sep : string) (l : list string) : string :=
  match l with
  | [] => EmptyString
  | [x] => x
  | x :: l' => x ++ sep ++ join sep l'
  end.

End Py.

(** ** Numbers

    A Python [float]: the finite values are exact rationals kept in
    lowest terms. *)

Inductive pyfloat :=
| PFin (q : Q)
| PInf (neg : bool)
| PNaN.

Definition pf_zero : pyfloat := PFin 0.

Definition pf_is_nan (x : pyfloat) : bool :=
  match x with PNaN => true | _ => false end.

(** [x + y] on floats *)
Definition pf_add (x y : pyfloat) : pyfloat :=
  match x, y with
  | PNaN, _ | _, PNaN => PNaN
  | PInf a, PInf b => if Bool.eqb a b then PInf a else PNaN
  | PInf a, PFin _ | PFin _, PInf a => PInf a
  | PFin a, PFin b => PFin (Qred (a + b))
  end.

(** The sum of a column, from the left, starting at zero. *)
Definition pf_sum (l : list pyfloat) : pyfloat := foldl pf_add pf_zero l.

(** [int(x)]: truncation towards zero; raises on an infinity
    ([OverflowError]) and on NaN ([ValueError]). *)
Definition pf_int (x : pyfloat) : option Z :=
  match x with
  | PFin q => Some (Z.quot (Qnum q) (Z.pos (Qden q)))
  | _ => None
  end.

(** [x * 1000] *)
Definition pf_mul1000 (x : pyfloat) : pyfloat :=
  match x with
  | PFin q => PFin (Qred (q * 1000))
  | _ => x
  end.

(** The value [m * 10^e] of a decimal literal, negated when [neg]. *)
Definition dec_value (neg : bool) (m : N) (e : Z) : Q :=
  let n := if neg then Z.opp (Z.of_N m) else Z.of_N m in
  Qred (if (0 <=? e)%Z then (n * 10 ^ e)%Z # 1
        else n # Z.to_pos (10 ^ (- e))).

(** *** Reading a number from text

    [float(s)] and [pandas.to_numeric] accept an optional sign followed
    by [inf], [infinity] or [nan] in any case, or by a decimal literal:
    digits with an optional point and an optional exponent; surrounding
    white space is ignored.  [float] also accepts single underscores
    between digits ([us = true]). *)

Fixpoint digits_go (us : bool) (acc : N) (cnt : nat) (s : string) : N * nat * string :=
  match s with
  | String c s' =>
      if Py.is_digit c then digits_go us (acc * 10 + Py.digit_val c)%N (S cnt) s'
      else if us && Py.eqc c "_" then
        match s' with
        | String c2 s'' =>
            if Py.is_digit c2
            then digits_go us (acc * 10 + Py.digit_val c2)%N (S cnt) s''
            else (acc, cnt, s)
        | EmptyString => (acc, cnt, s)
        end
      else (acc, cnt, s)
  | EmptyString => (acc, cnt, s)
  end.

(** A digit part continuing the number [acc]: the number read, how many
    digits were read, and the rest of the text. *)
Definition digitpart (us : bool) (acc : N) (s : string) : option (N * nat * string) :=
  match s with
  | String c s' =>
      if Py.is_digit c then Some (digits_go us (acc * 10 + Py.digit_val c)%N 1 s')
      else None
  | EmptyString => None
  end.

Definition parse_sign (s : string) : bool * string :=
  match s with
  | String c s' =>
      if Py.eqc c "-" then (true, s')
      else if Py.eqc c "+" then (false, s')
      else (false, s)
  | EmptyString => (false, s)
  end.

(** Mantissa, number of digits after the point, rest. *)
Definition parse_number (us : bool) (s : string) : option (N * nat * string) :=
  match digitpart us 0 s with
  | Some (i, _, r) =>
      match r with
      | String c r' =>
          if Py.eqc c "." then
            match digitpart us i r' with
            | Some (m, n, r'') => Some (m, n, r'')
            | None => Some (i, O, r')
            end
          else Some (i, O, r)
      | EmptyString => Some (i, O, r)
      end
  | None =>
      match s with
      | String c r' => if Py.eqc c "." then digitpart us 0 r' else None
      | EmptyString => None
      end
  end.

Definition parse_exponent (us : bool) (s : string) : option (Z * string) :=
  match s with
  | String c r =>
      if Py.eqc (Py.upper_char c) "E" then
        let '(neg, r') := parse_sign r in
        '(e, _, r'') ← digitpart us 0 r';
        Some (if neg then Z.opp (Z.of_N e) else Z.of_N e, r'')
      else Some (0, s)
  | EmptyString => Some (0, s)
  end.

Definition parse_float (us : bool) (s : string) : option pyfloat :=
  let '(neg, b) := parse_sign (Py.strip s) in
  let w := Py.lower b in
  if Py.eqs w "inf" || Py.eqs w "infinity" then Some (PInf neg)
  else if Py.eqs w "nan" then Some PNaN
  else
    '(m, n, r) ← parse_number us b;
    '(e, r') ← parse_exponent us r;
    if Py.eqs r' "" then Some (PFin (dec_value neg m (e - Z.of_nat n))) else None.

(** [float(s)] for a string [s]; [None] is [ValueError]. *)
Definition float_of_str : string → option pyfloat := parse_float true.

(** [pandas.to_numeric(s, errors="coerce")] on one text: what does not
    read as a number becomes NaN. *)
Definition to_numeric (s : string) : pyfloat := default PNaN (parse_float false s).

(** A spreadsheet cell as pandas hands it over: empty (NaN), or a value.
    The aggregator reaches a cell only through [astype(str)], [notna]
    and equality, so a cell is kept as the text [str] gives for it. *)
Definition cell : Type := option string.

(** [str(x)] for a cell: an empty cell prints as nan. *)
Definition str_of_cell (c : cell) : string := default "nan" c.

(** [int(b)] for a truth value *)
Definition Z_of_bool (b : bool) : Z := if b then 1 else 0.

(** ** Normalization and parsing *)

(** [normalize_plate] on a [str]; on any other value it returns the empty
    string (the [None] case of [normalized_group] below). *)
Definition normalize_plate (s : string) : string :=
  Py.filter_str (λ c, Py.is_upper c || Py.is_digit c) (Py.upper s).

(** *** Regular expressions

    The fragment of [re] that the patterns of
    [extract_truck_number_from_text] use, with the backtracking
    semantics of [re]: repetitions and options are greedy, alternatives
    are tried in order.  [Rep p lo hi] repeats a character class. *)

Inductive regex :=
| Chr (p : ascii → bool)
| Seq (r1 r2 : regex)
| Alt (r1 r2 : regex)
| Opt (r : regex)
| Rep (p : ascii → bool) (lo : nat) (hi : option nat)
| Grp (r : regex)
| WordB.

(** What a match attempt yields: [None] when it fails, else the text of
    group 1 if that group took part. *)
Definition outcome : Type := option (option string).

(** A continuation receives the character before the position reached,
    the text from that position on, and group 1 so far. *)
Definition cont : Type := option ascii → string → option string → outcome.

Definition may_take (hi : option nat) : bool :=
  match hi with Some O => false | _ => true end.

Fixpoint rep (p : ascii → bool) (lo : nat) (hi : option nat)
    (prev : option ascii) (s : string) (k : option ascii → string → outcome) : outcome :=
  let stop := match lo with O => k prev s | S _ => None end in
  match s with
  | String c s' =>
      if p c && may_take hi then
        match rep p (Nat.pred lo) (Nat.pred <$> hi) (Some c) s' k with
        | Some o => Some o
        | None => stop
        end
      else stop
  | EmptyString => stop
  end.

(** The text between position [s] and the later position [s']. *)
Definition consumed (s s' : string) : string :=
  substring 0 (String.length s - String.length s') s.

Definition word_before (prev : option ascii) : bool :=
  match prev with Some c => Py.is_word c | None => false end.

Definition word_after (s : string) : bool :=
  match s with String c _ => Py.is_word c | EmptyString => false end.

Fixpoint run (r : regex) (prev : option ascii) (s : string) (g : option string)
    (k : cont) : outcome :=
  match r with
  | Chr p =>
      match s with
      | String c s' => if p c then k (Some c) s' g else None
      | EmptyString => None
      end
  | Seq r1 r2 => run r1 prev s g (λ prev' s' g', run r2 prev' s' g' k)
  | Alt r1 r2 =>
      match run r1 prev s g k with
      | Some o => Some o
      | None => run r2 prev s g k
      end
  | Opt r1 =>
      match run r1 prev s g k with
      | Some o => Some o
      | None => k prev s g
      end
  | Rep p lo hi => rep p lo hi prev s (λ prev' s', k prev' s' g)
  | Grp r1 => run r1 prev s g (λ prev' s' _, k prev' s' (Some (consumed s s')))
  | WordB => if xorb (word_before prev) (word_after s) then k prev s g else None
  end.

(** [re.search]: the first position, from the left, where the pattern
    matches. *)
Fixpoint search_from (r : regex) (prev : option ascii) (s : string) : outcome :=
  match run r prev s None (λ _ _ g, Some g) with
  | Some o => Some o
  | None =>
      match s with
      | String c s' => search_from r (Some c) s'
      | EmptyString => None
      end
  end.

Definition search (r : regex) (s : string) : outcome := search_from r None s.

(** One literal character under [re.IGNORECASE]. *)
Definition ci (c : ascii) : regex := Chr (λ x, Py.eqc (Py.upper_char x) (Py.upper_char c)).

(** A non-empty literal word under [re.IGNORECASE]. *)
Fixpoint lit_from (c : ascii) (w : string) : regex :=
  match w with
  | EmptyString => ci c
  | String c' w' => Seq (ci c) (lit_from c' w')
  end.

Definition lit (w : string) : regex :=
  match w with
  | String c w' => lit_from c w'
  | EmptyString => Rep (λ _, false) 0 None
  end.

Definition ws : regex := Rep Py.is_space 0 None.

(** [[A-Z0-9\- ]] under [re.IGNORECASE] *)
Definition plate_char (c : ascii) : bool :=
  Py.is_alpha c || Py.is_digit c || Py.eqc c "-" || Py.eqc c " ".

(** [Truck\s*(?:Number|No\.?|#)?\s*[:\-]?\s*([A-Z0-9\- ]{4,})] *)
Definition labelled_pattern : regex :=
  Seq (lit "Truck")
   (Seq ws
   (Seq (Opt (Alt (lit "Number")
             (Alt (Seq (lit "No") (Opt (Chr (λ c, Py.eqc c "."))))
                  (Chr (λ c, Py.eqc c "#")))))
   (Seq ws
   (Seq (Opt (Chr (λ c, Py.eqc c ":" || Py.eqc c "-")))
   (Seq ws
        (Grp (Rep plate_char 4 None))))))).

(** [\b([A-Z]{2,3}\s*\d{3,4}\s*[A-Z])\b] *)
Definition bare_pattern : regex :=
  Seq WordB
   (Seq (Grp (Seq (Rep Py.is_alpha 2 (Some 3%nat))
             (Seq ws
             (Seq (Rep Py.is_digit 3 (Some 4%nat))
             (Seq ws
                  (Chr Py.is_alpha))))))
        WordB).

Definition patterns : list regex := [labelled_pattern; bare_pattern].

(** [m.group(1)] normalized; a group that took no part is [None], which
    [normalize_plate] maps to the empty string. *)
Definition normalized_group (g : option string) : string :=
  match g with Some t => normalize_plate t | None => "" end.

Fixpoint first_match (pats : list regex) (text : string) : option string :=
  match pats with
  | [] => None
  | pat :: rest =>
      match search pat text with
      | Some g => Some (normalized_group g)
      | None => first_match rest text
      end
  end.

Definition extract_truck_number_from_text (text : string) : option string :=
  first_match patterns text.

(** ** Excel readers *)

(** [part.strip().replace(" ", "")] *)
Definition coordinate_text (part : string) : string :=
  Py.replace " " "" (Py.strip part).

(** [extract_coordinates]: a pair of floats, or [(None, None)] when the
    cell is not text, lacks a marker, or [float] raises. *)
Definition extract_coordinates (coord_str : cell) : option pyfloat * option pyfloat :=
  match coord_str with
  | Some s =>
      if Py.contains "LAT:" s && Py.contains "LONG:" s then
        let parts := Py.split "LONG:" s in
        match parts !! 0%nat, parts !! 1%nat with
        | Some p0, Some p1 =>
            match float_of_str (coordinate_text (Py.replace "LAT:" "" p0)),
                  float_of_str (coordinate_text p1) with
            | Some latitude, Some longitude => (Some latitude, Some longitude)
            | _, _ => (None, None)
            end
        | _, _ => (None, None)
        end
      else (None, None)
  | None => (None, None)
  end.

(** *** Exceptions *)

Inductive exception :=
| ValueError (msg : string)
| KeyError (msg : string)
| TypeError (msg : string)
| AttributeError (msg : string)
| IndexError (msg : string)
| OverflowError (msg : string)
| RequestException (msg : string).

Inductive exn (A : Type) :=
| Ok (a : A)
| Raise (e : exception).
Arguments Ok {A} a.
Arguments Raise {A} e.

#[global] Instance exn_ret : MRet exn := λ A, Ok.
#[global] Instance exn_bind : MBind exn := λ A B f m,
  match m with Ok a => f a | Raise e => Raise e end.

#[global] Instance exn_fmap : FMap exn := λ A B f m,
  match m with Ok a => Ok (f a) | Raise e => Raise e end.

Definition is_ok {A} (m : exn A) : bool :=
  match m with Ok _ => true | Raise _ => false end.

(** *** Sheets and frames

    A sheet read with [header=None] is its rows of cells.  A frame is a
    sheet whose columns carry labels.  Several columns may carry one
    label: [df[label]] is then a frame and no column, and what the
    readers do with it raises. *)

Definition sheet : Type := list (list cell).

Definition nth_cell {A} (row : list (option A)) (i : nat) : option A :=
  default None (row !! i).

Record frame (A : Type) := {
  columns : list (string * nat);   (* label, position of the cell in a row *)
  data : list (list (option A))
}.
Arguments columns {A} _.
Arguments data {A} _.

Fixpoint find_col (name : string) (cols : list (string * nat)) : option nat :=
  match cols with
  | [] => None
  | (n, i) :: rest => if Py.eqs n name then Some i else find_col name rest
  end.

Definition has_col {A} (df : frame A) (name : string) : bool :=
  bool_decide (is_Some (find_col name (columns df))).

(** More than one column carries the label. *)
Definition repeated {A} (df : frame A) (name : string) : bool :=
  bool_decide (1 < length (filter (λ c, c.1 = name) (columns df)))%nat.

(** [df[col]] where a column is needed: with the label repeated, what
    is done with it raises [e]. *)
Definition column {A} (df : frame A) (col : string) (e : exception) : exn unit :=
  if repeated df col then Raise e else Ok ().

(** [re.sub(r"\s+", " ", s)] *)
Fixpoint collapse_ws (in_run : bool) (s : string) : string :=
  match s with
  | EmptyString => EmptyString
  | String c s' =>
      if Py.is_space c
      then if in_run then collapse_ws true s' else String " " (collapse_ws true s')
      else String c (collapse_ws false s')
  end.

(** The label of a header cell: a blank one is named by its position. *)
Definition header_label (i : nat) (c : cell) : string :=
  match c with Some t => t | None => "Unnamed: " ++ pretty i end.

(** [read_excel] keeps the names of the columns apart: a header text
    that an earlier cell of the row carries is numbered, [X.1], [X.2]
    and so on, and only the first cell keeps the text.  (Where a name
    so numbered is itself a text of the row, pandas numbers on; no name
    with such an ending is a label that the readers look up.) *)
Fixpoint mangle_dupe_cols (seen names : list string) : list string :=
  match names with
  | [] => []
  | n :: rest =>
      match length (filter (λ x, x = n) seen) with
      | O => n
      | k => n ++ "." ++ pretty k
      end :: mangle_dupe_cols (n :: seen) rest
  end.

(** The names [read_excel] gives to the columns under a header row. *)
Definition column_names (header : list cell) : list string :=
  mangle_dupe_cols [] (imap header_label header).

(** Header normalization (the replacement of U+00A0 has nothing to do on
    ASCII text). *)
Definition normalize_header (label : string) : string :=
  Py.upper (Py.strip (collapse_ws false label)).

Definition is_header_row (row : list cell) : bool :=
  existsb (λ c, Py.eqs (Py.upper (Py.strip (str_of_cell c))) "NO.") row.

Fixpoint find_header_row (raw : sheet) : option (list cell * sheet) :=
  match raw with
  | [] => None
  | row :: rest => if is_header_row row then Some (row, rest) else find_header_row rest
  end.

(** [if truck_number_norm:] *)
Definition truthy_str (t : option string) : bool :=
  match t with Some (String _ _) => true | _ => false end.

(** The truck number: the first cell of the first column whose
    extraction is truthy; failing that, what the last cell gave. *)
Fixpoint scan_truck_number (last : option string) (col : list string) : option string :=
  match col with
  | [] => last
  | row :: rest =>
      let t := extract_truck_number_from_text row in
      if truthy_str t then t else scan_truck_number t rest
  end.

Definition required_cols : list string :=
  ["CUSTOMER ID"; "CUSTOMER NAME"; "LOCATION"; "LOCATION COORDINATES"].

Definition set_repr (l : list string) : string :=
  "{" ++ Py.join ", " ((λ x, "'" ++ x ++ "'") <$> l) ++ "}".

(** The value of [df[col]] in a row; [col] is known to be the label
    of one column. *)
Definition at_col {A} (df : frame A) (col : string) (row : list (option A)) : option A :=
  match find_col col (columns df) with
  | Some i => nth_cell row i
  | None => None
  end.

(** The numeric columns: thousands separators removed, unreadable
    values and NaN replaced by zero; an absent column is all zeros. *)
Definition fillna0 (x : pyfloat) : pyfloat := if pf_is_nan x then pf_zero else x.

Definition numeric (df : frame string) (col : string) (row : list cell) : pyfloat :=
  if has_col df col
  then fillna0 (to_numeric (Py.strip (Py.replace "," "" (str_of_cell (at_col df col row)))))
  else pf_zero.

(** *** Grouping *)

Record group_key := {
  k_customer_id : string;
  k_customer_name : string;
  k_location : string;
  k_coordinates : string;
  k_rep : string
}.

#[global] Instance group_key_eq_dec : EqDecision group_key.
Proof. solve_decision. Defined.

(** The key of a row; a row with an empty key cell belongs to no group. *)
Definition row_key (df : frame string) (row : list cell) : option group_key :=
  a ← at_col df "CUSTOMER ID" row;
  b ← at_col df "CUSTOMER NAME" row;
  c ← at_col df "LOCATION" row;
  d ← at_col df "LOCATION COORDINATES" row;
  e ← at_col df "REP" row;
  Some {| k_customer_id := a; k_customer_name := b; k_location := c;
          k_coordinates := d; k_rep := e |}.

Definition then_cmp (c d : comparison) : comparison :=
  match c with Eq => d | _ => c end.

Definition key_compare (a b : group_key) : comparison :=
  then_cmp (String.compare (k_customer_id a) (k_customer_id b))
  (then_cmp (String.compare (k_customer_name a) (k_customer_name b))
  (then_cmp (String.compare (k_location a) (k_location b))
  (then_cmp (String.compare (k_coordinates a) (k_coordinates b))
            (String.compare (k_rep a) (k_rep b))))).

Definition key_le (a b : group_key) : Prop :=
  Is_true (match key_compare a b with Gt => false | _ => true end).

#[global] Instance key_le_dec : RelDecision key_le.
Proof. intros a b. unfold key_le. apply _. Defined.

(** A row of the grouped frame. *)
Record grouped_row := {
  g_key : group_key;
  g_tonnage : pyfloat;
  g_amount : pyfloat;
  g_invoice_no : string
}.

Definition members (df : frame string) (rows : list (list cell)) (k : group_key) : list (list cell) :=
  filter (λ r, row_key df r = Some k) rows.

(** The keys that occur, in ascending order. *)
Definition group_keys (df : frame string) (rows : list (list cell)) : list group_key :=
  merge_sort key_le (remove_dups (omap (row_key df) rows)).

Definition aggregate (df : frame string) (rows : list (list cell)) (k : group_key)
    : grouped_row :=
  let ms := members df rows k in
  {| g_key := k;
     g_tonnage := pf_sum (numeric df "TONNAGE" <$> ms);
     g_amount := pf_sum (numeric df "AMOUNT" <$> ms);
     g_invoice_no := Py.join ", " (omap (at_col df "INVOICE NO") ms) |}.

Definition grouping_labels : list string :=
  ["CUSTOMER ID"; "CUSTOMER NAME"; "LOCATION"; "LOCATION COORDINATES"; "REP"].

(** [groupby] takes its keys one after the other: a key that is no
    label raises [KeyError], a key that several columns carry raises
    [ValueError]. *)
Fixpoint get_grouper {A} (df : frame A) (keys : list string) : exn unit :=
  match keys with
  | [] => Ok ()
  | key :: rest =>
      if negb (has_col df key) then Raise (KeyError key)
      else if repeated df key
      then Raise (ValueError ("Grouper for '" ++ key ++ "' not 1-dimensional"))
      else get_grouper df rest
  end.

(** [groupby(...).agg(...)]: one row for each key that occurs, the keys
    in ascending order; tonnage and amount are summed, the invoice
    numbers that are present are joined. *)
Definition groupby_agg (df : frame string) (rows : list (list cell))
    : exn (list grouped_row) :=
  _ ← get_grouper df grouping_labels;
  if negb (has_col df "INVOICE NO")
  then Raise (KeyError "Column(s) ['INVOICE NO'] do not exist")
  else
    _ ← column df "INVOICE NO" (AttributeError "'DataFrame' object has no attribute 'dtype'");
    Ok (aggregate df rows <$> group_keys df rows).

(** A row of the aggregated table. *)
Record order_row := {
  CUSTOMER_ID : string;
  CUSTOMER_NAME : string;
  LOCATION : string;
  LOCATION_COORDINATES : string;
  REP : string;
  TONNAGE : pyfloat;
  AMOUNT : pyfloat;
  INVOICE_NO : string;
  LAT : pyfloat;
  LONG : pyfloat
}.

(** [dropna(subset=["LAT", "LONG"])] on one row: it stays when both
    coordinates are there and neither is NaN. *)
Definition present (x : option pyfloat) : option pyfloat :=
  match x with
  | Some v => if pf_is_nan v then None else Some v
  | None => None
  end.

Definition with_coordinates (g : grouped_row) : option order_row :=
  let '(lat, long) := extract_coordinates (Some (k_coordinates (g_key g))) in
  la ← present lat;
  lo ← present long;
  Some {| CUSTOMER_ID := k_customer_id (g_key g);
          CUSTOMER_NAME := k_customer_name (g_key g);
          LOCATION := k_location (g_key g);
          LOCATION_COORDINATES := k_coordinates (g_key g);
          REP := k_rep (g_key g);
          TONNAGE := g_tonnage g;
          AMOUNT := g_amount g;
          INVOICE_NO := g_invoice_no g;
          LAT := la; LONG := lo |}.

(** The frame read with the header row as labels: the names of the
    columns normalized, [UNNAMED] columns dropped. *)
Definition labelled_frame (header : list cell) (rows : sheet) : frame string :=
  {| columns :=
       filter (λ c, negb (Py.startswith "UNNAMED" c.1))
              (imap (λ i name, (normalize_header name, i)) (column_names header));
     data := rows |}.

Definition keep_row (df : frame string) (row : list cell) : bool :=
  bool_decide (is_Some (at_col df "CUSTOMER ID" row)) &&
  negb (Py.contains "TOTAL" (Py.upper (str_of_cell (at_col df "CUSTOMER NAME" row)))).

(** The rows left once the empty and the total rows are filtered out. *)
Definition filtered (df : frame string) : list (list cell) :=
  filter (λ r, keep_row df r = true) (data df).

(** The filters and the numeric columns need CUSTOMER ID, CUSTOMER
    NAME, TONNAGE and AMOUNT to be columns: the mask built from a
    repeated CUSTOMER ID cannot be aligned, and a frame has no [.str]. *)
Definition filter_columns (df : frame string) : exn unit :=
  _ ← column df "CUSTOMER ID" (ValueError "cannot reindex on an axis with duplicate labels");
  _ ← column df "CUSTOMER NAME" (AttributeError "'DataFrame' object has no attribute 'str'");
  _ ← column df "TONNAGE" (AttributeError "'DataFrame' object has no attribute 'str'");
  column df "AMOUNT" (AttributeError "'DataFrame' object has no attribute 'str'").

(** [read_excel_to_df]: the aggregated table and the truck number.  The
    message for missing columns prints a Python set, whose order is not
    fixed; the columns are listed here in the order of [required_cols].
    When no group is left, the two coordinate columns cannot be set from
    the empty result of [apply], and the assignment raises. *)
Definition read_excel_to_df (raw : sheet) : exn (list order_row * option string) :=
  let truck_number_norm :=
    scan_truck_number None ((λ r, str_of_cell (nth_cell r 0)) <$> raw) in
  '(header, rows) ← match find_header_row raw with
                    | Some hr => Ok hr
                    | None => Raise (ValueError "Could not locate header row (cell 'NO.' not found).")
                    end;
  let df := labelled_frame header rows in
  let missing := filter (λ c, negb (has_col df c)) required_cols in
  if negb (bool_decide (missing = [])) then
    Raise (ValueError ("Missing required columns in orders Excel: " ++ set_repr missing))
  else
    _ ← filter_columns df;
    df_grouped ← groupby_agg df (filtered df);
    if bool_decide (df_grouped = []) then
      Raise (ValueError "Columns must be same length as key")
    else
      Ok (omap with_coordinates (df_grouped : list grouped_row), truck_number_norm).

(** *** The asset workbook

    The unit id of an asset goes through [int], which tells a number
    from a text; so a value of the asset workbook keeps its type.  A
    float comes with the text that [str] gives for it. *)

Inductive value :=
| VStr (s : string)
| VInt (z : Z)
| VFloat (x : pyfloat) (repr : string)
| VBool (b : bool).

(** [str(v)] *)
Definition str_of_value (v : value) : string :=
  match v with
  | VStr s => s
  | VInt z => pretty z
  | VFloat _ repr => repr
  | VBool b => if b then "True" else "False"
  end.

(** [str(x)] for a cell of the asset workbook: an empty cell prints as
    nan. *)
Definition str_of (c : option value) : string :=
  match c with Some v => str_of_value v | None => "nan" end.

(** The asset workbook read with its first row as header: the texts of
    the header row, and the rows below it. *)
Record workbook := {
  header : list string;
  body : list (list (option value))
}.

Definition name_candidates : list string := ["reportname"; "name"; "unit"; "unitname"].

Definition asset_frame (excel_file : workbook) : frame value :=
  {| columns := imap (λ i name, (Py.lower (Py.strip name), i))
                     (mangle_dupe_cols [] (header excel_file));
     data := body excel_file |}.

Definition find_name_col {A} (df : frame A) : option string :=
  head (filter (λ c, has_col df c = true) name_candidates).

(** [int(s)] for a text: an optional sign and digits, single underscores
    allowed between them. *)
Definition int_of_str (s : string) : exn Z :=
  let '(neg, b) := parse_sign (Py.strip s) in
  match digitpart true 0 b with
  | Some (n, _, EmptyString) => Ok (if neg then Z.opp (Z.of_N n) else Z.of_N n)
  | _ => Raise (ValueError "invalid literal for int() with base 10")
  end.

(** [int(x)] for a cell: an integer is itself, a float is truncated, a
    text is read as an integer literal; an empty cell is NaN. *)
Definition int_of_cell (c : option value) : exn Z :=
  match c with
  | None => Raise (ValueError "cannot convert float NaN to integer")
  | Some (VStr s) => int_of_str s
  | Some (VInt z) => Ok z
  | Some (VBool b) => Ok (Z_of_bool b)
  | Some (VFloat x _) =>
      match pf_int x, x with
      | Some z, _ => Ok z
      | None, PNaN => Raise (ValueError "cannot convert float NaN to integer")
      | None, _ => Raise (OverflowError "cannot convert float infinity to integer")
      end
  end.

Definition normalized_name (df : frame value) (name_col : string)
    (row : list (option value)) : string :=
  normalize_plate (str_of (at_col df name_col row)).

(** [read_asset_id_from_excel]: the unit id and display name of the
    first matching asset, or [(None, None)].  When several columns carry
    the label of the name column, the normalized names cannot be set as
    a column of a frame that has rows; when several carry the label
    itemid, what a matching row holds under it is no number. *)
Definition read_asset_id_from_excel (excel_file : workbook) (truck_number_norm : option string)
    : exn (option Z * option string) :=
  let df := asset_frame excel_file in
  match find_name_col df with
  | Some name_col =>
      if negb (has_col df "itemid") then
        Raise (ValueError "Assets Excel must contain columns like 'ReportName' (or 'Name') and 'itemId'.")
      else if repeated df name_col && negb (bool_decide (data df = [])) then
        Raise (ValueError "cannot reindex on an axis with duplicate labels")
      else
        match truck_number_norm with
        | Some (String _ _ as truck) =>
            let exact := filter (λ r, normalized_name df name_col r = truck) (data df) in
            let matched :=
              if bool_decide (exact = [])
              then filter (λ r, Py.contains truck (normalized_name df name_col r) = true) (data df)
              else exact in
            match matched with
            | row :: _ =>
                _ ← column df "itemid" (TypeError "cannot convert the series to <class 'int'>");
                itemid ← int_of_cell (at_col df "itemid" row);
                Ok (Some itemid, Some (str_of (at_col df name_col row)))
            | [] => Ok (None, None)
            end
        | _ => Ok (None, None)
        end
  | None =>
      Raise (ValueError "Assets Excel must contain columns like 'ReportName' (or 'Name') and 'itemId'.")
  end.

(** ** Orchestration *)

Fixpoint read_all (excel_files : list sheet) (all_gdfs : list (list order_row))
    (truck_numbers : gset string) : exn (list (list order_row) * gset string) :=
  match excel_files with
  | [] => Ok (all_gdfs, truck_numbers)
  | excel_file :: rest =>
      '(gdf_joined, truck_number) ← read_excel_to_df excel_file;
      let all_gdfs' :=
        if bool_decide (gdf_joined = []) then all_gdfs else (all_gdfs ++ [gdf_joined])%list in
      let truck_numbers' :=
        match truck_number with
        | Some (String _ _ as t) => {[ t ]} ∪ truck_numbers
        | _ => truck_numbers
        end in
      read_all rest all_gdfs' truck_numbers'
  end.

(** [sorted(truck_numbers)] *)
Definition sorted_names (truck_numbers : gset string) : list string :=
  merge_sort String.le (elements truck_numbers).

(** [drop_duplicates(subset=["CUSTOMER ID", "LOCATION"], keep="first")] *)
Fixpoint drop_duplicates (seen : list (string * string)) (rows : list order_row) : list order_row :=
  match rows with
  | [] => []
  | r :: rest =>
      let k := (CUSTOMER_ID r, LOCATION r) in
      if bool_decide (k ∈ seen) then drop_duplicates seen rest
      else r :: drop_duplicates (k :: seen) rest
  end.

Definition multiple_trucks_message (truck_numbers : gset string) : string :=
  "Multiple truck numbers found (after normalization): "
  ++ Py.join ", " (sorted_names truck_numbers).

Definition process_multiple_excels (excel_files : list sheet)
    : exn (list order_row * option string) :=
  '(all_gdfs, truck_numbers) ← read_all excel_files [] ∅;
  if bool_decide (all_gdfs = []) then
    Raise (ValueError "No valid data found in any of the Excel files.")
  else if bool_decide (1 < size truck_numbers)%nat then
    Raise (ValueError (multiple_trucks_message truck_numbers))
  else
    let combined_gdf := drop_duplicates [] (concat all_gdfs) in
    let sole_truck := head (elements truck_numbers) in
    Ok (combined_gdf, sole_truck).

(** ** The remote interface

    What [response.json()] returns.  An object keeps its members in a
    list with distinct keys. *)

Set Warnings "-register-all".

Inductive json :=
| JNull
| JBool (b : bool)
| JInt (z : Z)
| JFloat (x : pyfloat)
| JStr (s : string)
| JList (l : list json)
| JDict (d : list (string * json)).

Fixpoint assoc (key : string) (d : list (string * json)) : option json :=
  match d with
  | [] => None
  | (k, v) :: rest => if Py.eqs k key then Some v else assoc key rest
  end.

(** [x.get(key)] when [x] is a dict *)
Definition dict_get (x : json) (key : string) : option json :=
  match x with JDict d => assoc key d | _ => None end.

Definition is_dict (x : json) : bool :=
  match x with JDict _ => true | _ => false end.

Definition q_is_zero (q : Q) : bool := (Qnum q =? 0)%Z.

(** Truth value of an object. *)
Definition truthy (x : json) : bool :=
  match x with
  | JNull => false
  | JBool b => b
  | JInt z => negb (z =? 0)%Z
  | JFloat (PFin q) => negb (q_is_zero q)
  | JFloat _ => true
  | JStr s => negb (Py.eqs s "")
  | JList l => match l with [] => false | _ => true end
  | JDict d => match d with [] => false | _ => true end
  end.

Definition truthy_opt (x : option json) : bool :=
  match x with Some v => truthy v | None => false end.

(** The integer an object compares equal to, if any: an [int], a
    [bool], or a [float] with an integral value. *)
Definition int_value (x : json) : option Z :=
  match x with
  | JInt z => Some z
  | JBool b => Some (Z_of_bool b)
  | JFloat (PFin q) =>
      if (Z.rem (Qnum q) (Z.pos (Qden q)) =? 0)%Z
      then Some (Z.quot (Qnum q) (Z.pos (Qden q))) else None
  | _ => None
  end.

(** [x == n] for an integer [n] *)
Definition eq_int (x : json) (n : Z) : bool :=
  match int_value x with Some z => (z =? n)%Z | None => false end.

(** [isinstance(x, int)]: the integers and the booleans. *)
Definition as_int (x : json) : option Z :=
  match x with
  | JInt z => Some z
  | JBool b => Some (Z_of_bool b)
  | _ => None
  end.

Definition hashable (x : json) : bool :=
  match x with JList _ | JDict _ => false | _ => true end.

Fixpoint chars (s : string) : list json :=
  match s with
  | EmptyString => []
  | String c s' => JStr (String c EmptyString) :: chars s'
  end.

(** What iterating over an object yields: the items of a list, the
    characters of a string, the keys of a dict. *)
Definition iterate (x : json) : exn (list json) :=
  match x with
  | JList l => Ok l
  | JStr s => Ok (chars s)
  | JDict d => Ok ((λ kv, JStr kv.1) <$> d)
  | _ => Raise (TypeError "object is not iterable")
  end.

(** [x[0]] *)
Definition first_item (x : json) : exn json :=
  match x with
  | JList (v :: _) => Ok v
  | JList [] => Raise (IndexError "list index out of range")
  | JStr (String c _) => Ok (JStr (String c EmptyString))
  | JStr EmptyString => Raise (IndexError "string index out of range")
  | JDict _ => Raise (KeyError "0")
  | _ => Raise (TypeError "object is not subscriptable")
  end.

(** [x.get(key)] for any object: only a dict has the method. *)
Definition get_member (x : json) (key : string) : exn (option json) :=
  match x with
  | JDict d => Ok (assoc key d)
  | _ => Raise (AttributeError "object has no attribute 'get'")
  end.

Record coords := { y : pyfloat; x : pyfloat }.

(** An order of the optimization request (the constant members and the
    address text are left out). *)
Record opt_order := {
  o_y : pyfloat;
  o_x : pyfloat;
  o_n : string;
  o_id : Z;
  o_w : Z;
  o_pr : Z
}.

(** A stop of the route plan: its members [uid], [id], [n], [f], [r],
    [y], [x], [rp] and, from [p], [ut], [w], [c] and the members [vt],
    [i], [m] of [p.r]. *)
Record stop := {
  s_uid : Z;
  s_id : json;
  s_n : string;
  s_f : Z;
  s_r : Z;
  s_y : pyfloat;
  s_x : pyfloat;
  s_ut : Z;
  s_w : Z;
  s_c : Z;
  s_vt : Z;
  s_i : Z;
  s_m : Z;
  s_rp : option json
}.

Record summary := {
  countOrders : nat;
  duration : json;
  mileage : Z;
  priceTotal : Z;
  weight : Z
}.

(** The remote calls, with what they carry. *)
Inductive call :=
| TokenLogin (token : string)
| OrderOptimize (item_id : Z) (orders : list opt_order) (unit : Z)
| OsrmRoute (src dst : coords)
| RouteUpdate (item_id : Z) (route_orders : list stop) (uid : Z) (sum : summary).

(** The answers of the services: what [.json()] returns for each call,
    or the exception the request raises. *)
Record remote := {
  login_response : exn json;
  optimize_response : exn json;
  osrm_response : coords → coords → exn json;
  route_response : exn json
}.

(** Computations that issue remote calls and may raise: the calls
    issued so far are threaded through. *)
Definition io (A : Type) : Type := list call → exn A * list call.

#[global] Instance io_ret : MRet io := λ A a t, (Ok a, t).
#[global] Instance io_bind : MBind io := λ A B f m t,
  match m t with
  | (Ok a, t') => f a t'
  | (Raise e, t') => (Raise e, t')
  end.

Definition lift {A} (m : exn A) : io A := λ t, (m, t).

Definition request (c : call) (response : exn json) : io json :=
  λ t, (response, (t ++ [c])%list).

(** [try: m except Exception: pass], the value being [d] when [m] raised *)
Definition swallow {A} (d : A) (m : io A) : io A := λ t,
  match m t with
  | (Ok a, t') => (Ok a, t')
  | (Raise _, t') => (Ok d, t')
  end.

Fixpoint foldM {A S} (f : S → A → io S) (st : S) (l : list A) : io S :=
  match l with
  | [] => mret st
  | a :: l' => st' ← f st a; foldM f st' l'
  end.

Fixpoint mapM_exn {A B} (f : A → exn B) (l : list A) : exn (list B) :=
  match l with
  | [] => Ok []
  | a :: l' => b ← f a; bs ← mapM_exn f l'; Ok (b :: bs)
  end.

(** The message of a result. *)
Inductive message :=
| LoginFailed (login_result : json)
| Reason (reason : json)
| Text (s : string)
| UnexpectedError (e : exception)
| UnexpectedResponse (route_result : json).

Record result := {
  error : json;
  msg : message;
  planning_url : option json   (* the session id of the link *)
}.

Definition failure (code : json) (m : message) : result :=
  {| error := code; msg := m; planning_url := None |}.

(** ** The route builder *)

(** The MORL warehouse. *)
Definition morl_lat : pyfloat := PFin (dec_value true 28802969095623043 (-17)).
Definition morl_lon : pyfloat := PFin (dec_value false 3604494759379902 (-14)).
Definition morl : coords := {| y := morl_lat; x := morl_lon |}.

(** The state of the loop over the optimized orders. *)
Record loop_state := {
  route_orders : list stop;
  prev_coords : coords;
  last_visit_time : Z;
  sequence_index : Z
}.

(** [int(float(t) * 1000)] *)
Definition kilograms (tonnage : pyfloat) : exn Z :=
  match pf_int (pf_mul1000 tonnage) with
  | Some z => Ok z
  | None => Raise (ValueError "cannot convert float to integer")
  end.

(** [int(v)] for a float *)
Definition int_of_float (v : pyfloat) : exn Z :=
  match pf_int v with
  | Some z => Ok z
  | None => Raise (OverflowError "cannot convert float to integer")
  end.

(** [order_id_to_name]: the orders are numbered from 1 in the order of
    the sorted table. *)
Definition order_ids (df_grouped : list order_row) : gmap Z string :=
  list_to_map (imap (λ idx row, (Z.of_nat idx + 1, CUSTOMER_NAME row)) df_grouped).

(** [coord_map]: a later row replaces an earlier one of the same name,
    and the warehouse replaces a customer called MORL. *)
Definition coord_map_of (df_grouped : list order_row) : gmap string coords :=
  <["MORL" := morl]>
    (foldl (λ m row, <[CUSTOMER_NAME row := {| y := LAT row; x := LONG row |}]> m)
           ∅ df_grouped).

(** [order_id in order_id_to_name] and the name found; a list or a dict
    is not hashable and makes the test raise. *)
Definition lookup_order (order_id_to_name : gmap Z string) (order_id : json)
    : exn (option string) :=
  if hashable order_id
  then Ok (z ← int_value order_id; order_id_to_name !! z)
  else Raise (TypeError "unhashable type").

(** [resp.get('id') if isinstance(resp, dict) else None]: a missing
    member and [null] are both [None]. *)
Definition order_id_of (resp : json) : option json :=
  match dict_get resp "id" with
  | Some JNull => None
  | o => o
  end.

(** [a or b] on optional members. *)
Definition or_else (a b : option json) : option json :=
  if truthy_opt a then a else b.

(** The planned time of a stop. *)
Definition plan_time (order_tm : option json) (last_visit_time tf : Z) : Z :=
  match order_tm ≫= as_int with
  | Some tm =>
      if (tm <=? 0)%Z then last_visit_time + 600
      else Z.max (Z.max tm (last_visit_time + 60)) tf
  | None => last_visit_time + 600
  end.

(** What the polyline becomes after the answer of the road-routing
    service has been looked at; [None] when it is left as it was. *)
Definition osrm_geometry (osrm_json : json) : exn (option json) :=
  match dict_get osrm_json "routes" with
  | Some routes =>
      if truthy routes then
        leg ← first_item routes;
        geometry ← get_member leg "geometry";
        Ok (Some (default JNull geometry))
      else Ok None
  | None => Ok None
  end.

Definition id_of (s : stop) : Z := default 0 (int_value (s_id s)).

(** [max(ids)]: the first of the greatest. *)
Fixpoint max_from (best : json) (ids : list json) : json :=
  match ids with
  | [] => best
  | j :: rest =>
      if (default 0 (int_value best) <? default 0 (int_value j))%Z
      then max_from j rest else max_from best rest
  end.

Definition max_id (ids : list json) : json :=
  match ids with
  | j :: rest => max_from j rest
  | [] => JInt 0   (* not reached: the start stop is always there *)
  end.

(** [v + 1] *)
Definition succ_id (v : json) : json :=
  match v with
  | JFloat (PFin q) => JFloat (PFin (Qred (q + 1)))
  | _ => JInt (default 0 (int_value v) + 1)
  end.

Section RouteBuilder.

(** The great-circle distances are floating-point trigonometry and are
    taken as given: [calculate_distance] (kilometres from the
    warehouse), [calc_dist] (kilometres of a leg; [calc_dist_pts] has
    the same body), and the table sorted by the first.  [now] is
    [int(time.time())]. *)
Variable calculate_distance : pyfloat → pyfloat → pyfloat → pyfloat → exn pyfloat.
Variable sort_values : list (order_row * pyfloat) → list (order_row * pyfloat).
Variable calc_dist : coords → coords → exn pyfloat.
Variable now : Z.
Variable net : remote.

Definition leg_mileage (a b : coords) : exn Z :=
  d ← calc_dist a b;
  int_of_float (pf_mul1000 d).

(** The table with its distance column, sorted. *)
Definition sorted_by_distance (df_grouped : list order_row) : exn (list order_row) :=
  ds ← mapM_exn (λ row, d ← calculate_distance morl_lat morl_lon (LAT row) (LONG row);
                        Ok (row, d)) df_grouped;
  Ok (fst <$> sort_values ds).

Definition build_orders (df_grouped : list order_row) : list opt_order :=
  imap (λ idx row,
          {| o_y := LAT row; o_x := LONG row; o_n := CUSTOMER_NAME row;
             o_id := Z.of_nat idx + 1;
             o_w := match kilograms (TONNAGE row) with Ok w => w | Raise _ => 0 end;
             o_pr := Z.of_nat idx + 1 |})
       df_grouped.

(** The polyline of a leg that has none: one call to the road-routing
    service, nothing of which can raise further. *)
Definition osrm_fallback (src dst : coords) : io (option json) :=
  swallow None
    (osrm_json ← request (OsrmRoute src dst) (osrm_response net src dst);
     lift (osrm_geometry osrm_json)).

Definition resolve_polyline (rp : option json) (src dst : coords) : io (option json) :=
  if truthy_opt rp then mret rp
  else found ← osrm_fallback src dst;
       mret (if truthy_opt found then found else None).

Definition depot_stop (unit_id : Z) (id : json) (flag vt i m : Z) (rp : option json) : stop :=
  {| s_uid := unit_id; s_id := id; s_n := "MORL"; s_f := flag; s_r := 100;
     s_y := morl_lat; s_x := morl_lon; s_ut := 0; s_w := 0; s_c := 0;
     s_vt := vt; s_i := i; s_m := m; s_rp := rp |}.

(** One turn of the loop over the optimized orders. *)
Definition add_order (unit_id tf : Z) (df_grouped : list order_row)
    (order_id_to_name : gmap Z string) (coord_map : gmap string coords)
    (st : loop_state) (resp : json) : io loop_state :=
  match order_id_of resp with
  | None => mret st
  | Some order_id =>
      found ← lift (lookup_order order_id_to_name order_id);
      match found with
      | None => mret st
      | Some order_name =>
          let coords := default morl (coord_map !! order_name) in
          let cust_rows := filter (λ row, CUSTOMER_NAME row = order_name) df_grouped in
          weight_kg ← lift (match cust_rows with
                            | row :: _ => kilograms (TONNAGE row)
                            | [] => Ok 0
                            end);
          let cost_val := match cust_rows with
                          | row :: _ => AMOUNT row
                          | [] => pf_zero
                          end in
          let order_tm := plan_time (dict_get resp "tm") (last_visit_time st) tf in
          let order_rp := or_else (dict_get resp "rp") (dict_get resp "p") in
          mileage ← lift (leg_mileage (prev_coords st) coords);
          order_rp ← resolve_polyline order_rp (prev_coords st) coords;
          let sequence_index := sequence_index st + 1 in
          cost ← lift (int_of_float cost_val);
          mret {| route_orders :=
                    (route_orders st ++
                     [{| s_uid := unit_id; s_id := order_id; s_n := order_name;
                         s_f := 0; s_r := 20; s_y := y coords; s_x := x coords;
                         s_ut := 900; s_w := weight_kg; s_c := cost;
                         s_vt := order_tm; s_i := sequence_index; s_m := mileage;
                         s_rp := order_rp |}])%list;
                  prev_coords := coords;
                  last_visit_time := order_tm;
                  sequence_index := sequence_index |}
      end
  end.

(** The last entry flagged 264, from which the polyline of the way
    back is taken. *)
Definition flagged_end (o : json) : bool :=
  match dict_get o "f" with Some f => eq_int f 264 | None => false end.

Definition end_warehouse_rp (optimized_orders : list json) : option json :=
  match filter (λ o, flagged_end o = true) (reverse optimized_orders) with
  | o :: _ => or_else (dict_get o "rp") (dict_get o "p")
  | [] => None
  end.

(** Route build: the start at MORL, the optimized customer orders,
    the close at MORL. *)
Definition build_route (unit_id tf : Z) (df_grouped : list order_row)
    (optimized_orders : list json) (end_rp : option json) : io (list stop) :=
  let order_id_to_name := order_ids df_grouped in
  let coord_map := coord_map_of df_grouped in
  let start :=
    {| route_orders := [depot_stop unit_id (JInt 0) 260 tf 0 0 None];
       prev_coords := morl; last_visit_time := tf; sequence_index := 0 |} in
  st ← foldM (add_order unit_id tf df_grouped order_id_to_name coord_map)
             start optimized_orders;
  mileage_back ← lift (leg_mileage (prev_coords st) morl);
  let final_id := succ_id (max_id (s_id <$> route_orders st)) in
  let sequence_index := sequence_index st + 1 in
  end_rp ← resolve_polyline end_rp (prev_coords st) morl;
  mret (route_orders st ++
        [depot_stop unit_id final_id 264 (last_visit_time st + 600)
                    sequence_index mileage_back end_rp])%list.

Definition sum_Z (l : list Z) : Z := foldr Z.add 0 l.

Definition summarize (route_orders : list stop) (route_summary : option json) : summary :=
  let customers := filter (λ o, s_f o = 0) route_orders in
  {| countOrders := length route_orders;
     duration := match route_summary with
                 | Some (JDict d) => default (JInt 0) (assoc "duration" d)
                 | _ => JInt 0
                 end;
     mileage := sum_Z (s_m <$> route_orders);
     priceTotal := sum_Z (s_c <$> customers);
     weight := sum_Z (s_w <$> customers) |}.

(** The reading of the answer to the batch call. *)
Definition item_failed (item : json) : bool :=
  is_dict item && negb (eq_int (default (JInt 0) (dict_get item "error")) 0).

Definition created (session_id : json) : result :=
  {| error := JInt 0; msg := Text "Route created successfully";
     planning_url := Some session_id |}.

Definition read_route_result (session_id route_result : json) : result :=
  match route_result with
  | JList items =>
      match filter (λ item, item_failed item = true) items with
      | [] => created session_id
      | error_item :: _ =>
          failure (default (JInt 1) (dict_get error_item "error"))
                  (Reason (default (JStr "Unknown error in batch response")
                                   (dict_get error_item "reason")))
      end
  | JDict d =>
      if eq_int (default (JInt 1) (assoc "error" d)) 0 then created session_id
      else failure (JInt 1) (UnexpectedResponse route_result)
  | _ => failure (JInt 1) (UnexpectedResponse route_result)
  end.

(** What the answer of the optimizer holds for the unit: the order
    list as returned, the first route summary, the polyline of the
    way back. *)
Definition read_optimize_result (unit_id : Z) (optimize_result : json)
    : exn (json * option json * option json) :=
  match dict_get optimize_result (pretty unit_id) with
  | Some unit_obj =>
      orders ← get_member unit_obj "orders";
      let optimized_orders := default (JList []) orders in
      routes ← get_member unit_obj "routes";
      route_summary ← (if truthy_opt routes
                       then Some <$> first_item (default JNull routes)
                       else Ok None);
      entries ← (if truthy optimized_orders then iterate optimized_orders else Ok []);
      Ok (optimized_orders, route_summary, end_warehouse_rp entries)
  | None => Ok (JList [], None, None)
  end.

Definition send_orders_body (token : string) (resource_id unit_id : Z)
    (vehicle_name : string) (df_grouped : list order_row) (tf tt : Z) : io result :=
  login_result ← request (TokenLogin (Py.strip token)) (login_response net);
  match dict_get login_result "eid" with
  | None => mret (failure (JInt 1) (LoginFailed login_result))
  | Some session_id =>
      df_grouped ← lift (sorted_by_distance df_grouped);
      let orders := build_orders df_grouped in
      optimize_result ← request (OrderOptimize resource_id orders unit_id)
                                (optimize_response net);
      if is_dict optimize_result &&
         negb (eq_int (default (JInt 0) (dict_get optimize_result "error")) 0)
      then mret (failure (default (JInt 1) (dict_get optimize_result "error"))
                         (Reason (default (JStr "Optimization failed")
                                          (dict_get optimize_result "reason"))))
      else
        '(optimized_orders, route_summary, end_rp) ←
            lift (read_optimize_result unit_id optimize_result);
        if negb (truthy optimized_orders)
        then mret (failure (JInt 1) (Text "No optimized orders in response"))
        else
          entries ← lift (iterate optimized_orders);
          route_orders ← build_route unit_id tf df_grouped entries end_rp;
          route_result ← request (RouteUpdate resource_id route_orders now
                                    (summarize route_orders route_summary))
                                 (route_response net);
          mret (read_route_result session_id route_result)
  end.

(** [send_orders_and_create_route]: whatever is raised on the way is
    turned into a failure. *)
Definition send_orders_and_create_route (token : string) (resource_id unit_id : Z)
    (vehicle_name : string) (df_grouped : list order_row) (tf tt : Z)
    : result * list call :=
  match send_orders_body token resource_id unit_id vehicle_name df_grouped tf tt [] with
  | (Ok r, t) => (r, t)
  | (Raise e, t) => (failure (JInt 1) (UnexpectedError e), t)
  end.

End RouteBuilder.

(** ** The submission *)

(** What the page shows in the end. *)
Inductive shown :=
| PleaseUpload
| NoDeliveryRows
| UnitNotFound (truck_number_norm : option string)
| RouteCreated (planning_url : option json)
| Failed (m : message)
| ErrorShown (e : exception).

Section Uploader.

Variable calculate_distance : pyfloat → pyfloat → pyfloat → pyfloat → exn pyfloat.
Variable sort_values : list (order_row * pyfloat) → list (order_row * pyfloat).
Variable calc_dist : coords → coords → exn pyfloat.
Variable now : Z.
Variable net : remote.

Definition dispatch (excel_files : list sheet) (assets_file : workbook)
    (token resource_id : string) (tf tt : Z) : exn (shown * list call) :=
  '(gdf_joined, truck_number_norm) ← process_multiple_excels excel_files;
  match gdf_joined with
  | [] => Ok (NoDeliveryRows, [])
  | _ =>
      '(unit_id, vehicle_name) ← read_asset_id_from_excel assets_file truck_number_norm;
      match unit_id with
      | None | Some 0 => Ok (UnitNotFound truck_number_norm, [])
      | Some unit_id =>
          resource ← int_of_str resource_id;
          let '(result, calls) :=
            send_orders_and_create_route calculate_distance sort_values calc_dist now net
              token resource unit_id (default "" vehicle_name) gdf_joined tf tt in
          Ok (if eq_int (error result) 0
              then RouteCreated (planning_url result)
              else Failed (msg result), calls)
      end
  end.

(** [run_wialon_uploader] once the form is submitted: what is shown
    and the remote calls that were made. *)
Definition run_wialon_uploader (excel_files : list sheet) (assets_file : option workbook)
    (token resource_id : string) (tf tt : Z) : shown * list call :=
  match excel_files, assets_file, token, resource_id with
  | _ :: _, Some assets, String _ _, String _ _ =>
      match dispatch excel_files assets token resource_id tf tt with
      | Ok r => r
      | Raise e => (ErrorShown e, [])
      end
  | _, _, _, _ => (PleaseUpload, [])
  end.

End Uploader.

(** ** Vocabulary of the statements *)

(** The first character of a text satisfies [p]. *)
Definition head_is (p : ascii → bool) (s : string) : bool :=
  match s with String c _ => p c | EmptyString => false end.

(** The character before the end of [d], [prev] if [d] is empty. *)
Fixpoint last_char (prev : option ascii) (d : string) : option ascii :=
  match d with
  | EmptyString => prev
  | String c d' => last_char (Some c) d'
  end.

(** A plate as written after a label: letters, digits, spaces and
    hyphens, four characters or more, the first a letter or a digit. *)
Definition plate_body (d : string) : bool :=
  head_is Py.is_alnum d && Py.all_str plate_char d && (4 <=? String.length d)%nat.

Fixpoint skip_str (n : nat) (s : string) : string :=
  match n, s with
  | S n', String _ s' => skip_str n' s'
  | _, _ => s
  end.

(** The form [LAT:<num>LONG:<num>] of the specification, white space
    allowed anywhere: with the white space removed, the text is [LAT:],
    a number, [LONG:] and a number, a number being what [float]
    accepts. *)
Definition exact_form (s : string) : bool :=
  let t := Py.filter_str (λ c, negb (Py.is_space c)) s in
  Py.startswith "LAT:" t &&
  match Py.split "LONG:" (skip_str 4 t) with
  | [a; b] => bool_decide (is_Some (float_of_str a)) && bool_decide (is_Some (float_of_str b))
  | _ => false
  end.

(** What [extract_coordinates] hands to [float]: the text before the
    first [LONG:] without its [LAT:] markers, and the text between the
    first [LONG:] and the next, both without spaces. *)
Definition latitude_text (s : string) : option string :=
  (λ p, coordinate_text (Py.replace "LAT:" "" p)) <$> Py.split "LONG:" s !! 0%nat.

Definition longitude_text (s : string) : option string :=
  coordinate_text <$> Py.split "LONG:" s !! 1%nat.

(** Both markers occur and both texts read as numbers. *)
Definition parses (s : string) : bool :=
  Py.contains "LAT:" s && Py.contains "LONG:" s &&
  bool_decide (is_Some (latitude_text s ≫= float_of_str)) &&
  bool_decide (is_Some (longitude_text s ≫= float_of_str)).

(** The grouping tuple of a row of the aggregated table. *)
Definition order_key (r : order_row) : group_key :=
  {| k_customer_id := CUSTOMER_ID r; k_customer_name := CUSTOMER_NAME r;
     k_location := LOCATION r; k_coordinates := LOCATION_COORDINATES r;
     k_rep := REP r |}.

(** ** Sample workbooks *)

Definition full_header : list cell :=
  [Some "NO."; Some "CUSTOMER ID"; Some "CUSTOMER NAME"; Some "LOCATION";
   Some "LOCATION COORDINATES"; Some "REP"; Some "TONNAGE"; Some "AMOUNT";
   Some "INVOICE NO"].

(** Two deliveries to one customer, 2.0 and 3.5 tonnes, under a title
    row and the truck line. *)
Definition sheet_same_customer : sheet :=
  [ [Some "DISPATCH SHEET"];
    [Some "Truck No. KBX-123 Z"];
    full_header;
    [Some "1"; Some "C001"; Some "Alpha Stores"; Some "Nakuru";
     Some "LAT:-0.3031LONG:36.0800"; Some "Jane"; Some "2.0"; Some "1,000"; Some "INV-1"];
    [Some "2"; Some "C001"; Some "Alpha Stores"; Some "Nakuru";
     Some "LAT:-0.3031LONG:36.0800"; Some "Jane"; Some "3.5"; Some "2,500.50"; Some "INV-2"];
    [None; None; Some "Total"; None; None; None; Some "5.5"; Some "3,500.50"; None] ].

(** The same two deliveries and a third, 1.25 tonnes to another
    customer. *)
Definition sheet_three_deliveries : sheet :=
  [ [Some "Truck No. KBX-123 Z"];
    full_header;
    [Some "1"; Some "C001"; Some "Alpha Stores"; Some "Nakuru";
     Some "LAT:-0.3031LONG:36.0800"; Some "Jane"; Some "2.0"; Some "1,000"; Some "INV-1"];
    [Some "2"; Some "C002"; Some "Beta Mart"; Some "Njoro";
     Some "LAT:-0.33LONG:35.94"; Some "Jane"; Some "1.25"; Some "500"; Some "INV-2"];
    [Some "3"; Some "C001"; Some "Alpha Stores"; Some "Nakuru";
     Some "LAT:-0.3031LONG:36.0800"; Some "Jane"; Some "3.5"; Some "2,500.50"; Some "INV-3"];
    [None; None; Some "Total"; None; None; None; Some "6.75"; Some "4,000.50"; None] ].

(** The rows of a sheet after the first [n]. *)
Definition skip_sheet (n : nat) (sh : sheet) : sheet := drop n sh.

(** The required columns only. *)
Definition sheet_required_only : sheet :=
  [ [Some "Truck: KBX 123Z"];
    [Some "NO."; Some "CUSTOMER ID"; Some "CUSTOMER NAME"; Some "LOCATION";
     Some "LOCATION COORDINATES"];
    [Some "1"; Some "C001"; Some "Alpha Stores"; Some "Nakuru";
     Some "LAT:-0.3031LONG:36.0800"] ].

(** The required columns and the representative, no invoice column. *)
Definition sheet_without_invoice : sheet :=
  [ [Some "Truck: KBX 123Z"];
    [Some "NO."; Some "CUSTOMER ID"; Some "CUSTOMER NAME"; Some "LOCATION";
     Some "LOCATION COORDINATES"; Some "REP"; Some "TONNAGE"; Some "AMOUNT"];
    [Some "1"; Some "C001"; Some "Alpha Stores"; Some "Nakuru";
     Some "LAT:-0.3031LONG:36.0800"; Some "Jane"; Some "2.0"; Some "1000"] ].

(** One delivery with coordinates that read, one without. *)
Definition sheet_one_bad_coordinate : sheet :=
  [ [Some "Truck: KBX 123Z"];
    full_header;
    [Some "1"; Some "C001"; Some "Alpha Stores"; Some "Nakuru";
     Some "LAT:-0.3031LONG:36.0800"; Some "Jane"; Some "2.0"; Some "1000"; Some "INV-1"];
    [Some "2"; Some "C002"; Some "Beta Mart"; Some "Njoro";
     Some "-0.33, 35.94"; Some "Jane"; Some "1.0"; Some "500"; Some "INV-2"] ].

(** The asset table of the specification: the names KBX 123Z-TRUCK and
    KAA999Y with the unit ids 101 and 102. *)
Definition assets_sample : workbook :=
  {| header := ["ReportName"; "itemId"];
     body := [ [Some (VStr "KBX 123Z-TRUCK"); Some (VInt 101)];
               [Some (VStr "KAA999Y"); Some (VInt 102)] ] |}.


(** [x] is the first element of [l] that satisfies [P]. *)
Definition first_such {A} (P : A → Prop) (l : list A) (x : A) : Prop :=
  ∃ pre post, l = (pre ++ x :: post)%list ∧ P x ∧ Forall (λ y, ¬ P y) pre.


(** The identifiers a submission yields: the non-empty truck numbers
    that [read_excel_to_df] returns for its files. *)
Fixpoint identifiers (excel_files : list sheet) : gset string :=
  match excel_files with
  | [] => ∅
  | f :: rest =>
      match read_excel_to_df f with
      | Ok (_, Some (String _ _ as t)) => {[ t ]} ∪ identifiers rest
      | _ => identifiers rest
      end
  end.

(** A file is read without error; it yields rows. *)
Definition reads (f : sheet) : bool := is_ok (read_excel_to_df f).

Definition yields_rows (f : sheet) : bool :=
  match read_excel_to_df f with Ok (_ :: _, _) => true | _ => false end.

(** Two workbooks for different trucks, neither with coordinates that
    read. *)
Definition sheet_truck_a : sheet :=
  [ [Some "Truck No. KBX 123Z"];
    full_header;
    [Some "1"; Some "C001"; Some "Alpha Stores"; Some "Nakuru";
     Some "-0.3031, 36.0800"; Some "Jane"; Some "2.0"; Some "1000"; Some "INV-1"] ].

Definition sheet_truck_b : sheet :=
  [ [Some "Truck No. KCA 456B"];
    full_header;
    [Some "1"; Some "C002"; Some "Beta Mart"; Some "Njoro";
     Some "-0.33, 35.94"; Some "Jane"; Some "1.0"; Some "500"; Some "INV-2"] ].

(** The same two trucks with coordinates that read. *)
Definition sheet_truck_c : sheet :=
  [ [Some "Truck No. KBX 123Z"];
    full_header;
    [Some "1"; Some "C001"; Some "Alpha Stores"; Some "Nakuru";
     Some "LAT:-0.3031LONG:36.0800"; Some "Jane"; Some "2.0"; Some "1000"; Some "INV-1"] ].

Definition sheet_truck_d : sheet :=
  [ [Some "Truck No. KCA 456B"];
    full_header;
    [Some "1"; Some "C002"; Some "Beta Mart"; Some "Njoro";
     Some "LAT:-0.33LONG:35.94"; Some "Jane"; Some "1.0"; Some "500"; Some "INV-2"] ].

(** A second workbook for the truck KBX123Z with the delivery of
    [sheet_truck_c] again, 3.5 tonnes this time. *)
Definition sheet_second_load : sheet :=
  [ [Some "Truck No. KBX 123Z"];
    full_header;
    [Some "1"; Some "C001"; Some "Alpha Stores"; Some "Nakuru";
     Some "LAT:-0.3031LONG:36.0800"; Some "Jane"; Some "3.5"; Some "2500"; Some "INV-7"] ].

(** Two deliveries to one customer at one location, booked by two
    representatives. *)
Definition sheet_two_reps : sheet :=
  [ [Some "Truck No. KBX 123Z"];
    full_header;
    [Some "1"; Some "C001"; Some "Alpha Stores"; Some "Nakuru";
     Some "LAT:-0.3031LONG:36.0800"; Some "Jane"; Some "2.0"; Some "1000"; Some "INV-1"];
    [Some "2"; Some "C001"; Some "Alpha Stores"; Some "Nakuru";
     Some "LAT:-0.3031LONG:36.0800"; Some "John"; Some "3.5"; Some "2500"; Some "INV-2"] ].

(** A row of a sheet carries the grouping tuple of a row of the table:
    its cells under the five grouping labels hold the five values. *)
Definition in_group (df : frame string) (r : order_row) (row : list cell) : Prop :=
  at_col df "CUSTOMER ID" row = Some (CUSTOMER_ID r) ∧
  at_col df "CUSTOMER NAME" row = Some (CUSTOMER_NAME r) ∧
  at_col df "LOCATION" row = Some (LOCATION r) ∧
  at_col df "LOCATION COORDINATES" row = Some (LOCATION_COORDINATES r) ∧
  at_col df "REP" row = Some (REP r).

#[global] Instance in_group_dec df r row : Decision (in_group df r row).
Proof. unfold in_group. apply _. Defined.

(** The rows of a frame that the filter keeps and that carry the
    grouping tuple of [r]. *)
Definition rows_of (df : frame string) (r : order_row) : list (list cell) :=
  filter (λ row, keep_row df row = true ∧ in_group df r row) (data df).

(** ** Vocabulary of the route plan *)

(** The calls of each kind among those made. *)
Definition is_update (c : call) : bool :=
  match c with RouteUpdate _ _ _ _ => true | _ => false end.

Definition is_optimize (c : call) : bool :=
  match c with OrderOptimize _ _ _ => true | _ => false end.

Definition is_osrm (c : call) : bool :=
  match c with OsrmRoute _ _ => true | _ => false end.

(** A computation that calls nothing but the road-routing service. *)
Definition only_osrm {A} (m : io A) : Prop :=
  ∀ t, ∃ ext, (m t).2 = (t ++ ext)%list ∧ forallb is_osrm ext = true.

(** The id of an entry equals the id of a submitted order. *)
Definition submitted (orders : list opt_order) (order_id : json) : Prop :=
  ∃ o, o ∈ orders ∧ int_value order_id = Some (o_id o).

(** An entry of the answer that the loop turns into a stop. *)
Definition recognized (order_id_to_name : gmap Z string) (resp : json) : bool :=
  match dict_get resp "id" with
  | Some order_id =>
      hashable order_id &&
      bool_decide (is_Some (int_value order_id ≫= (order_id_to_name !!.)))
  | None => false
  end.

(** The optimizer supplied a usable time: a positive integer. *)
Definition usable (tm : option json) : bool :=
  match tm ≫= as_int with
  | Some z => (0 <? z)%Z
  | None => false
  end.

(** The customer stops [stops] are those of the entries [entries], in
    order, after a stop visited at [vt] with index [i]. *)
Fixpoint follows (tf vt i : Z) (entries : list json) (stops : list stop) : Prop :=
  match entries, stops with
  | [], [] => True
  | e :: es, s :: ss =>
      s_f s = 0 ∧ order_id_of e = Some (s_id s) ∧ s_i s = i + 1 ∧
      s_vt s = plan_time (dict_get e "tm") vt tf ∧
      follows tf (s_vt s) (s_i s) es ss
  | _, _ => False
  end.

(** Visit time and index of the last of [stops], or those given. *)
Fixpoint ends (vt i : Z) (stops : list stop) : Z * Z :=
  match stops with
  | [] => (vt, i)
  | s :: ss => ends (s_vt s) (s_i s) ss
  end.

(** ** Sample route *)

(** Two deliveries, 1.0 and 2.0 tonnes, for the truck of the asset
    table. *)
Definition sheet_two_customers : sheet :=
  [ [Some "Truck No. KBX 123Z"];
    full_header;
    [Some "1"; Some "C001"; Some "Alpha Stores"; Some "Nakuru";
     Some "LAT:-0.3031LONG:36.0800"; Some "Jane"; Some "1.0"; Some "1000"; Some "INV-1"];
    [Some "2"; Some "C002"; Some "Beta Mart"; Some "Njoro";
     Some "LAT:-0.33LONG:35.94"; Some "Jane"; Some "2.0"; Some "500"; Some "INV-2"] ].

Definition two_customers : list order_row :=
  [ {| CUSTOMER_ID := "C001"; CUSTOMER_NAME := "Alpha Stores"; LOCATION := "Nakuru";
       LOCATION_COORDINATES := "LAT:-0.3031LONG:36.0800"; REP := "Jane";
       TONNAGE := PFin 1; AMOUNT := PFin 1000; INVOICE_NO := "INV-1";
       LAT := PFin (-3031 # 10000); LONG := PFin (902 # 25) |};
    {| CUSTOMER_ID := "C002"; CUSTOMER_NAME := "Beta Mart"; LOCATION := "Njoro";
       LOCATION_COORDINATES := "LAT:-0.33LONG:35.94"; REP := "Jane";
       TONNAGE := PFin 2; AMOUNT := PFin 500; INVOICE_NO := "INV-2";
       LAT := PFin (-33 # 100); LONG := PFin (1797 # 50) |} ].

(** The answer of the optimizer for unit 101: the second order first with
    a planned time, an entry with an id nobody submitted, an entry that
    is no object, the first order without a time, and the end marker
    with its polyline. *)
Definition sample_entries : list json :=
  [ JDict [("id", JInt 2); ("tm", JInt 1700000500)];
    JDict [("id", JInt 5)];
    JStr "x";
    JDict [("id", JInt 1)];
    JDict [("id", JInt 99999); ("f", JInt 264); ("rp", JStr "ab_c")] ].

Definition sample_net : remote :=
  {| login_response := Ok (JDict [("eid", JStr "5f1c")]);
     optimize_response := Ok (JDict [("101", JDict [("orders", JList sample_entries)])]);
     osrm_response := λ _ _, Raise (RequestException "timed out");
     route_response := Ok (JList [JDict [("error", JInt 0)]]) |}.

(** Every leg 1.5 km, every customer 1 km from the warehouse. *)
Definition flat_leg : coords → coords → exn pyfloat := λ _ _, Ok (PFin (3 # 2)).
Definition flat_distance : pyfloat → pyfloat → pyfloat → pyfloat → exn pyfloat :=
  λ _ _ _ _, Ok (PFin 1).
Definition keep_order : list (order_row * pyfloat) → list (order_row * pyfloat) := λ l, l.

Definition sample_plan : list stop :=
  Eval vm_compute in
    match build_route flat_leg sample_net 101 1700000000 two_customers sample_entries
                      (Some (JStr "ab_c")) [] with
    | (Ok plan, _) => plan
    | _ => []
    end.

(** The state of the loop before its first turn. *)
Definition sample_state : loop_state :=
  {| route_orders := [depot_stop 101 (JInt 0) 260 1700000000 0 0 None];
     prev_coords := morl; last_visit_time := 1700000000; sequence_index := 0 |}.

Definition sample_calls : list call :=
  Eval vm_compute in
    (build_route flat_leg sample_net 101 1700000000 two_customers sample_entries
                 (Some (JStr "ab_c")) []).2.

(** An entry whose id is a list, and an optimizer that returns it
    between the two orders. *)
Definition entry_with_list_id : json := JDict [("id", JList [JInt 7])].

Definition unhashable_net : remote :=
  {| login_response := Ok (JDict [("eid", JStr "5f1c")]);
     optimize_response :=
       Ok (JDict [("101", JDict [("orders",
             JList [JDict [("id", JInt 2)]; entry_with_list_id; JDict [("id", JInt 1)]])])]);
     osrm_response := λ _ _, Raise (RequestException "timed out");
     route_response := Ok (JList [JDict [("error", JInt 0)]]) |}.

(** The order list that the answer holds for the unit is missing or
    empty: there is no entry for the unit, or the entry has no usable
    [orders] member. *)
Definition orders_missing_or_empty (unit_id : Z) (optimize_result : json) : bool :=
  match dict_get optimize_result (pretty unit_id) with
  | Some unit_obj => negb (truthy_opt (dict_get unit_obj "orders"))
  | None => true
  end.

(** The entry of the unit, if there is one, can be read: it is an object
    whose [routes] member, if it counts as true, can be indexed. *)
Definition entry_readable (unit_id : Z) (optimize_result : json) : bool :=
  match dict_get optimize_result (pretty unit_id) with
  | None => true
  | Some (JDict d) =>
      match assoc "routes" d with
      | Some routes => negb (truthy routes) || is_ok (first_item routes)
      | None => true
      end
  | Some _ => false
  end.

(** An optimizer that answers with an error. *)
Definition refusing_net : remote :=
  {| login_response := Ok (JDict [("eid", JStr "5f1c")]);
     optimize_response := Ok (JDict [("error", JInt 4); ("reason", JStr "VALIDATE_PARAMS_ERROR")]);
     osrm_response := λ _ _, Raise (RequestException "timed out");
     route_response := Ok (JList [JDict [("error", JInt 0)]]) |}.

(** An optimizer that returns no order for the unit; one whose answer
    holds null for the unit; one whose entry for the unit holds a number
    where the routes are expected. *)
Definition answering (optimize_result : json) : remote :=
  {| login_response := Ok (JDict [("eid", JStr "5f1c")]);
     optimize_response := Ok optimize_result;
     osrm_response := λ _ _, Raise (RequestException "timed out");
     route_response := Ok (JList [JDict [("error", JInt 0)]]) |}.

Definition no_orders : json := JDict [("101", JDict [("orders", JList [])])].
Definition null_entry : json := JDict [("101", JNull)].
Definition odd_routes : json :=
  JDict [("101", JDict [("orders", JList []); ("routes", JInt 5)])].

(** ** Vocabulary of the further properties *)

(** A character of a normalized plate: [A-Z0-9]. *)
Definition plate_symbol (c : ascii) : bool := Py.is_upper c || Py.is_digit c.

(** The word TRUCK does not occur in a text, in whatever case. *)
Definition no_truck_word (s : string) : Prop := Py.contains "TRUCK" (Py.upper s) = false.

(** The number of letters of a text. *)
Fixpoint count_alpha (s : string) : nat :=
  match s with
  | EmptyString => O
  | String c s' => ((if Py.is_alpha c then 1 else 0) + count_alpha s')%nat
  end.

(** A text without a colon. *)
Definition no_colon (s : string) : bool := Py.all_str (λ c, negb (Py.eqc c ":")) s.

(** A text that is empty or starts with the letter L. *)
Definition starts_L (s : string) : Prop :=
  match s with
  | EmptyString => True
  | String c _ => c = "L"%char
  end.

(** What the first cell of a row yields as a truck number. *)
Definition truck_of_row (row : list cell) : option string :=
  extract_truck_number_from_text (str_of_cell (nth_cell row 0)).

(** A coordinate text from which [extract_coordinates] reads a latitude
    and a longitude that are numbers. *)
Definition located (s : string) : bool :=
  match extract_coordinates (Some s) with
  | (Some latitude, Some longitude) => negb (pf_is_nan latitude) && negb (pf_is_nan longitude)
  | _ => false
  end.

(** A row with its texts in lower case. *)
Definition lower_cell (c : cell) : cell :=
  match c with Some t => Some (Py.lower t) | None => None end.

Definition lower_row (row : list cell) : list cell := lower_cell <$> row.

(** Two names of columns give the same label, or are both dropped as
    unnamed. *)
Definition same_label (a b : string) : Prop :=
  normalize_header a = normalize_header b ∨
  (Py.startswith "UNNAMED" (normalize_header a) = true ∧
   Py.startswith "UNNAMED" (normalize_header b) = true).

(** The tables of the workbooks that are read without error, in order. *)
Definition tables (excel_files : list sheet) : list (list order_row) :=
  omap (λ f, match read_excel_to_df f with Ok (rows, _) => Some rows | Raise _ => None end)
       excel_files.

(** What [drop_duplicates] compares: customer id and location. *)
Definition duplicate_key (r : order_row) : string * string := (CUSTOMER_ID r, LOCATION r).

(** A result that reports a failure: its error code is not zero and it
    carries no link. *)
Definition failed (r : result) : Prop :=
  eq_int (error r) 0 = false ∧ planning_url r = None.

(** The answer to the batch call reports no error: a list none of whose
    objects has a nonzero error code, or an object whose error code is
    zero. *)
Definition accepted (route_result : json) : bool :=
  match route_result with
  | JList items => forallb (λ item, negb (item_failed item)) items
  | JDict d => eq_int (default (JInt 1) (assoc "error" d)) 0
  | _ => false
  end.

(** The rows of a customer name, in the order of the table. *)
Definition named (name : string) (df_grouped : list order_row) : list order_row :=
  filter (λ row, CUSTOMER_NAME row = name) df_grouped.

(** The coordinates of a row. *)
Definition coords_of (row : order_row) : coords := {| y := LAT row; x := LONG row |}.

(** A customer stop and the rows it is built from: the row of its order
    id gives the name; the first row of that name gives weight and cost;
    the last row of that name gives the coordinates, unless the name is
    MORL, which gives those of the warehouse. *)
Definition carries (df_grouped : list order_row) (s : stop) : Prop :=
  ∃ (idx : nat) (row first final : order_row),
    df_grouped !! idx = Some row ∧
    int_value (s_id s) = Some (Z.of_nat idx + 1) ∧
    s_f s = 0 ∧ s_n s = CUSTOMER_NAME row ∧
    head (named (s_n s) df_grouped) = Some first ∧
    last (named (s_n s) df_grouped) = Some final ∧
    kilograms (TONNAGE first) = Ok (s_w s) ∧
    int_of_float (AMOUNT first) = Ok (s_c s) ∧
    {| y := s_y s; x := s_x s |} = (if decide (s_n s = "MORL") then morl else coords_of final).

(** The entry comes with a polyline: its [rp] member or, failing that,
    its [p] member counts as true. *)
Definition supplied (resp : json) : bool :=
  truthy_opt (or_else (dict_get resp "rp") (dict_get resp "p")).

(** A computation that makes at most [n] calls, all of them to the
    road-routing service. *)
Definition osrm_calls {A} (n : nat) (m : io A) : Prop :=
  ∀ t, ∃ ext, (m t).2 = (t ++ ext)%list ∧ forallb is_osrm ext = true ∧ (length ext ≤ n)%nat.

(** An entry that the loop turns into a stop and that comes without a
    polyline. *)
Definition lacks_polyline (order_id_to_name : gmap Z string) (resp : json) : bool :=
  recognized order_id_to_name resp && negb (supplied resp).

(** * Properties *)

(** ** Text *)

Lemma startswith_refl s : Py.startswith s s = true.
Proof.
  induction s as [|c s IH]; simpl; [done|].
  unfold Py.eqc. by rewrite N.eqb_refl, IH.
Qed.

Lemma contains_refl s : Py.contains s s = true.
Proof. destruct s; simpl; [done|]. unfold Py.eqc. by rewrite N.eqb_refl, startswith_refl. Qed.

Lemma alnum_starts_plate c :
  Py.is_alnum c = true →
  Py.is_space c = false ∧ (Py.eqc c ":" || Py.eqc c "-") = false.
Proof. destruct c as [[] [] [] [] [] [] [] []]; vm_compute; intuition congruence. Qed.

(** *** The matcher *)

Lemma rep_stop_head p hi prev s k :
  head_is p s = false → rep p 0 hi prev s k = k prev s.
Proof. destruct s; simpl; [done|]. by intros ->. Qed.

Lemma chr_fail p prev s g k :
  head_is p s = false → run (Chr p) prev s g k = None.
Proof. destruct s; simpl; [done|]. by intros ->. Qed.

(** A repetition without upper bound takes a whole text of its class;
    when the continuation accepts there, nothing is given back. *)
Lemma rep_greedy_all p d : ∀ lo prev k o,
  Py.all_str p d = true → (lo ≤ String.length d)%nat →
  k (last_char prev d) "" = Some o →
  rep p lo None prev d k = Some o.
Proof.
  induction d as [|c d IH]; intros lo prev k o Hall Hlen Hk; simpl in *.
  - destruct lo; [done | lia].
  - apply andb_prop in Hall as [Hc Hall]. rewrite Hc. simpl.
    rewrite (IH (Nat.pred lo) (Some c) k o); auto. lia.
Qed.

Lemma consumed_all d : consumed d "" = d.
Proof.
  unfold consumed. simpl. rewrite Nat.sub_0_r.
  induction d as [|c d IH]; simpl; [done|]. by rewrite IH.
Qed.

Lemma search_hit r prev s o :
  run r prev s None (λ _ _ g, Some g) = Some o → search_from r prev s = Some o.
Proof. intros H. destruct s; simpl; by rewrite H. Qed.

Lemma chr_ok p prev c s g k o :
  p c = true → k (Some c) s g = Some o → run (Chr p) prev (String c s) g k = Some o.
Proof. intros Hp Hk. simpl. by rewrite Hp. Qed.

Lemma seq_ok r1 r2 prev s g k o :
  run r1 prev s g (λ prev' s' g', run r2 prev' s' g' k) = Some o →
  run (Seq r1 r2) prev s g k = Some o.
Proof. done. Qed.

Lemma opt_take r prev s g k o :
  run r prev s g k = Some o → run (Opt r) prev s g k = Some o.
Proof. intros H. simpl. by rewrite H. Qed.

Lemma opt_skip r prev s g k o :
  run r prev s g k = None → k prev s g = Some o → run (Opt r) prev s g k = Some o.
Proof. intros H Hk. simpl. by rewrite H. Qed.

Lemma alt_left r1 r2 prev s g k o :
  run r1 prev s g k = Some o → run (Alt r1 r2) prev s g k = Some o.
Proof. intros H. simpl. by rewrite H. Qed.

Lemma alt_right r1 r2 prev s g k o :
  run r1 prev s g k = None → run r2 prev s g k = Some o →
  run (Alt r1 r2) prev s g k = Some o.
Proof. intros H Hk. simpl. by rewrite H. Qed.

Lemma ws_take prev c s g k o :
  Py.is_space c = true →
  run ws (Some c) s g k = Some o → run ws prev (String c s) g k = Some o.
Proof. intros Hc H. unfold ws in *. simpl in *. rewrite Hc. simpl. by rewrite H. Qed.

Lemma ws_stop prev s g k o :
  head_is Py.is_space s = false → k prev s g = Some o → run ws prev s g k = Some o.
Proof. intros Hs H. unfold ws. simpl. by rewrite rep_stop_head. Qed.

Lemma grp_rest p lo prev d g k o :
  Py.all_str p d = true → (lo ≤ String.length d)%nat →
  k (last_char prev d) "" (Some d) = Some o →
  run (Grp (Rep p lo None)) prev d g k = Some o.
Proof.
  intros Hall Hlen Hk. simpl. apply rep_greedy_all; auto. by rewrite consumed_all.
Qed.

Ltac sq :=
  cbv beta;
  repeat (lazymatch goal with |- run (Seq _ _) _ _ _ _ = Some _ => apply seq_ok end;
          cbv beta).

Ltac re_lit :=
  sq;
  repeat (lazymatch goal with
          | |- run (Chr _) _ (String _ _) _ _ = Some _ =>
              apply chr_ok; [vm_compute; reflexivity | sq]
          end).

Lemma plate_body_inv d :
  plate_body d = true →
  head_is Py.is_space d = false ∧
  head_is (λ c, Py.eqc c ":" || Py.eqc c "-") d = false ∧
  Py.all_str plate_char d = true ∧ (4 ≤ String.length d)%nat.
Proof.
  unfold plate_body. intros H.
  apply andb_prop in H as [H Hlen]. apply andb_prop in H as [Hhd Hall].
  apply Nat.leb_le in Hlen. destruct d as [|c d]; [done|]. simpl in Hhd.
  destruct (alnum_starts_plate c Hhd) as [? ?]. done.
Qed.

(** After the label [Truck No. ], the plate is read to the end of the
    text. *)
Lemma extract_truck_no d :
  plate_body d = true →
  extract_truck_number_from_text ("Truck No. " ++ d) = Some (normalize_plate d).
Proof.
  intros (Hsp & Hcol & Hall & Hlen)%plate_body_inv.
  unfold extract_truck_number_from_text, patterns, first_match, search.
  rewrite (search_hit _ _ _ (Some d)); [reflexivity|].
  cbv [String.append labelled_pattern lit lit_from ci].
  re_lit.
  apply ws_take; [reflexivity|]. apply ws_stop; [reflexivity|]. sq.
  apply opt_take, alt_right; [reflexivity|].
  apply alt_left. re_lit. apply opt_take. re_lit.
  apply ws_take; [reflexivity|]. apply ws_stop; [assumption|]. sq.
  apply opt_skip; [by apply chr_fail|]. sq.
  apply ws_stop; [assumption|]. sq.
  by apply grp_rest.
Qed.

(** The same after the label [Truck:]. *)
Lemma extract_truck_colon d :
  plate_body d = true →
  extract_truck_number_from_text ("Truck:" ++ d) = Some (normalize_plate d).
Proof.
  intros (Hsp & Hcol & Hall & Hlen)%plate_body_inv.
  unfold extract_truck_number_from_text, patterns, first_match, search.
  rewrite (search_hit _ _ _ (Some d)); [reflexivity|].
  cbv [String.append labelled_pattern lit lit_from ci].
  re_lit.
  apply ws_stop; [reflexivity|]. sq.
  apply opt_skip; [reflexivity|]. sq.
  apply ws_stop; [reflexivity|]. sq.
  apply opt_take. re_lit.
  apply ws_stop; [assumption|]. sq.
  by apply grp_rest.
Qed.

(** Spaces and hyphens leave no trace in the normalized plate. *)
Lemma normalize_plate_separators d :
  normalize_plate (Py.filter_str (λ c, negb (Py.eqc c " " || Py.eqc c "-")) d)
  = normalize_plate d.
Proof.
  unfold normalize_plate, Py.upper.
  induction d as [|c d IH]; simpl; [done|].
  destruct (Py.eqc c " " || Py.eqc c "-") eqn:Hsep; simpl; rewrite IH.
  - replace (Py.is_upper (Py.upper_char c) || Py.is_digit (Py.upper_char c)) with false; [done|].
    revert Hsep. destruct c as [[] [] [] [] [] [] [] []]; vm_compute; congruence.
  - done.
Qed.

(** C9 (counterexample): written bare, the plate KBX123Z is found when
    it is spaced before the digits, is missed when hyphenated, and loses
    its first letter when spaced after it. *)
Lemma C9_bare_plate_counterexample :
  normalize_plate "KBX 123Z" = "KBX123Z" ∧
  normalize_plate "KBX-123Z" = "KBX123Z" ∧
  normalize_plate "K BX123Z" = "KBX123Z" ∧
  extract_truck_number_from_text "KBX 123Z" = Some "KBX123Z" ∧
  extract_truck_number_from_text "KBX-123Z" = None ∧
  extract_truck_number_from_text "K BX123Z" = Some "BX123Z".
Proof. repeat split; vm_compute; reflexivity. Qed.

(** C9 (amended): a text made of the label [Truck No. ] or [Truck:] and
    a plate written with letters, digits, spaces and hyphens yields the
    letters and digits of the plate in upper case, so that plates which
    differ in spacing or hyphenation only yield the same identifier; the
    two texts of the specification yield KBX123Z. *)
Theorem C9_labelled_plate_normalized :
  extract_truck_number_from_text "Truck No. KBX-123 Z" = Some "KBX123Z" ∧
  extract_truck_number_from_text "Truck:KBX123Z" = Some "KBX123Z" ∧
  ∀ d d' : string,
    plate_body d = true → plate_body d' = true →
    normalize_plate d = normalize_plate d' →
    extract_truck_number_from_text ("Truck No. " ++ d) = Some (normalize_plate d) ∧
    extract_truck_number_from_text ("Truck:" ++ d) = Some (normalize_plate d) ∧
    extract_truck_number_from_text ("Truck No. " ++ d)
      = extract_truck_number_from_text ("Truck:" ++ d').
Proof.
  split; [by vm_compute|]. split; [by vm_compute|].
  intros d d' Hd Hd' Heq.
  rewrite (extract_truck_no d Hd), (extract_truck_colon d Hd), (extract_truck_colon d' Hd').
  by rewrite Heq.
Qed.

Lemma C9_labelled_plate_normalized_witness :
  extract_truck_number_from_text ("Truck No. " ++ "KBX-123 Z")
  = extract_truck_number_from_text ("Truck:" ++ "kbx 123z").
Proof.
  apply (proj2 (proj2 C9_labelled_plate_normalized) "KBX-123 Z" "kbx 123z");
    vm_compute; reflexivity.
Defined.


(** ** Coordinates *)

Lemma extract_coordinates_spec s :
  extract_coordinates (Some s) =
  if parses s
  then (latitude_text s ≫= float_of_str, longitude_text s ≫= float_of_str)
  else (None, None).
Proof.
  unfold extract_coordinates, parses, latitude_text, longitude_text.
  destruct (Py.contains "LAT:" s), (Py.contains "LONG:" s); simpl; try done.
  destruct (Py.split "LONG:" s !! 0%nat) as [p0|], (Py.split "LONG:" s !! 1%nat) as [p1|];
    simpl; try done.
  - destruct (float_of_str (coordinate_text (Py.replace "LAT:" "" p0))) as [la|],
             (float_of_str (coordinate_text p1)) as [lo|]; simpl; try done.
  - by destruct (float_of_str (coordinate_text (Py.replace "LAT:" "" p0))).
Qed.

Lemma extract_coordinates_none s :
  extract_coordinates (Some s) = (None, None) ↔ parses s = false.
Proof.
  rewrite extract_coordinates_spec. unfold parses.
  destruct (Py.contains "LAT:" s && Py.contains "LONG:" s); simpl; [|done].
  destruct (latitude_text s ≫= float_of_str) as [la|]; simpl; [|done].
  destruct (longitude_text s ≫= float_of_str) as [lo|]; simpl; done.
Qed.

(** What [read_excel_to_df] has gone through when it returns. *)
Lemma read_excel_to_df_ok raw rows truck :
  read_excel_to_df raw = Ok (rows, truck) →
  ∃ header body grouped,
    find_header_row raw = Some (header, body) ∧
    groupby_agg (labelled_frame header body) (filtered (labelled_frame header body))
      = Ok grouped ∧
    rows = omap with_coordinates grouped.
Proof.
  unfold read_excel_to_df.
  destruct (find_header_row raw) as [[header body]|]; simpl; [|done].
  case_bool_decide; simpl; [|done].
  destruct (filter_columns _) as [[]|]; simpl; [|done].
  destruct (groupby_agg _ _) as [grouped|] eqn:Hg; simpl; [|done].
  case_bool_decide; [done|].
  intros [= <- _]. by exists header, body, grouped.
Qed.

Lemma with_coordinates_some g r :
  with_coordinates g = Some r →
  order_key r = g_key g ∧ TONNAGE r = g_tonnage g ∧ AMOUNT r = g_amount g ∧
  extract_coordinates (Some (LOCATION_COORDINATES r)) = (Some (LAT r), Some (LONG r)) ∧
  pf_is_nan (LAT r) = false ∧ pf_is_nan (LONG r) = false.
Proof.
  unfold with_coordinates, present.
  destruct (extract_coordinates _) as [[la|] [lo|]] eqn:Hc; simpl; try done.
  - destruct (pf_is_nan la) eqn:Hla; simpl; [done|].
    destruct (pf_is_nan lo) eqn:Hlo; simpl; [done|].
    intros [= <-]. simpl. destruct (g_key g); done.
  - by destruct (pf_is_nan la).
Qed.

(** C2 (counterexample): two texts that are not of the form
    LAT:<num>LONG:<num> and yet are read as coordinates. *)
Lemma C2_not_exact_form_counterexample :
  exact_form "LAT:1LONG:2LONG:3" = false ∧
  extract_coordinates (Some "LAT:1LONG:2LONG:3") = (Some (PFin 1), Some (PFin 2)) ∧
  exact_form "1.5LAT:LONG:2" = false ∧
  extract_coordinates (Some "1.5LAT:LONG:2") = (Some (PFin (3 # 2)), Some (PFin 2)).
Proof. repeat split; vm_compute; reflexivity. Qed.

(** C2 (amended): [extract_coordinates] returns [(None, None)] exactly
    for a cell that is not text and for a text that lacks [LAT:] or
    [LONG:] or in which the text before the first [LONG:] (its [LAT:]
    markers and spaces removed) or the text after it (up to a further
    [LONG:]) does not read as a number; and every row of the aggregated
    table has a coordinate text that reads as a latitude and a longitude
    which are numbers, so that rows failing this are excluded. *)
Theorem C2_unparsed_coordinates_dropped :
  extract_coordinates None = (None, None) ∧
  (∀ s, parses s = false → extract_coordinates (Some s) = (None, None)) ∧
  (∀ raw rows truck r,
     read_excel_to_df raw = Ok (rows, truck) → r ∈ rows →
     parses (LOCATION_COORDINATES r) = true ∧
     extract_coordinates (Some (LOCATION_COORDINATES r)) = (Some (LAT r), Some (LONG r)) ∧
     pf_is_nan (LAT r) = false ∧ pf_is_nan (LONG r) = false).
Proof.
  split; [done|]. split; [intros s; apply extract_coordinates_none|].
  intros raw rows truck r (header & body & grouped & _ & _ & ->)%read_excel_to_df_ok Hr.
  apply list_elem_of_omap in Hr as (g & _ & Hg).
  apply with_coordinates_some in Hg as (_ & _ & _ & Hc & Hla & Hlo).
  repeat split; try done.
  destruct (parses (LOCATION_COORDINATES r)) eqn:Hp; [done|].
  apply extract_coordinates_none in Hp. congruence.
Qed.

Lemma C2_unparsed_coordinates_dropped_witness :
  extract_coordinates (Some "-0.33, 35.94") = (None, None) ∧
  ∃ rows, read_excel_to_df sheet_one_bad_coordinate = Ok (rows, Some "KBX123Z") ∧
          ∀ r, r ∈ rows → parses (LOCATION_COORDINATES r) = true.
Proof.
  destruct C2_unparsed_coordinates_dropped as (_ & Hnone & Hrows).
  split; [apply Hnone; vm_compute; reflexivity|].
  eexists. split; [vm_compute; reflexivity|].
  intros r Hr.
  refine (proj1 (Hrows sheet_one_bad_coordinate _ (Some "KBX123Z") r _ Hr)).
  vm_compute. reflexivity.
Defined.

(** ** Optional columns *)

(** C3 (the code fails): a workbook with the required columns and
    without REP makes [read_excel_to_df] raise at the grouping; with REP
    and without INVOICE NO it raises at the aggregation. *)
Theorem C3_optional_columns_absent_raise :
  read_excel_to_df sheet_required_only = Raise (KeyError "REP") ∧
  read_excel_to_df sheet_without_invoice
    = Raise (KeyError "Column(s) ['INVOICE NO'] do not exist").
Proof. split; vm_compute; reflexivity. Qed.

(** ** Aggregation *)

Lemma groupby_agg_ok df rows out :
  groupby_agg df rows = Ok out → out = aggregate df rows <$> group_keys df rows.
Proof.
  unfold groupby_agg.
  destruct (get_grouper df grouping_labels) as [[]|]; simpl; [|done].
  destruct (has_col df "INVOICE NO"); simpl; [|done].
  destruct (column df "INVOICE NO" _) as [[]|]; simpl; [|done].
  by intros [= <-].
Qed.

Lemma group_keys_perm df rows :
  group_keys df rows ≡ₚ remove_dups (omap (row_key df) rows).
Proof. apply merge_sort_Permutation. Qed.

Lemma group_keys_NoDup df rows : NoDup (group_keys df rows).
Proof. rewrite group_keys_perm. apply NoDup_remove_dups. Qed.

Lemma elem_of_group_keys df rows k :
  k ∈ group_keys df rows ↔ ∃ r, r ∈ rows ∧ row_key df r = Some k.
Proof. rewrite group_keys_perm, elem_of_remove_dups. apply list_elem_of_omap. Qed.

Lemma aggregate_keys df rows (ks : list group_key) :
  g_key <$> (aggregate df rows <$> ks) = ks.
Proof. induction ks as [|k ks IH]; [done|]. rewrite !fmap_cons. by f_equal. Qed.

(** Dropping rows keeps the keys apart. *)
Lemma NoDup_with_coordinates (grouped : list grouped_row) :
  NoDup (g_key <$> grouped) → NoDup (order_key <$> omap with_coordinates grouped).
Proof.
  induction grouped as [|g grouped IH]; [constructor|].
  rewrite fmap_cons. intros [Hg Hnd]%NoDup_cons. cbn [omap list_omap].
  destruct (with_coordinates g) as [r|] eqn:Hr; [|by apply IH].
  rewrite fmap_cons. apply NoDup_cons. split; [|by apply IH].
  apply with_coordinates_some in Hr as [Hk _]. rewrite Hk.
  intros (r' & Hk' & (g' & Hg' & Hr')%list_elem_of_omap)%list_elem_of_fmap.
  apply with_coordinates_some in Hr' as [Hk'' _].
  apply Hg, list_elem_of_fmap. exists g'. split; [congruence|done].
Qed.

(** The grouping step: one row for each tuple that occurs, carrying the
    sums over the rows of that tuple. *)
Lemma groupby_agg_spec df rows out :
  groupby_agg df rows = Ok out →
  NoDup (g_key <$> out) ∧
  (∀ k, k ∈ (g_key <$> out) ↔ ∃ r, r ∈ rows ∧ row_key df r = Some k) ∧
  (∀ g, g ∈ out →
     g_tonnage g = pf_sum (numeric df "TONNAGE" <$> members df rows (g_key g)) ∧
     g_amount g = pf_sum (numeric df "AMOUNT" <$> members df rows (g_key g))).
Proof.
  intros ->%groupby_agg_ok. rewrite aggregate_keys.
  split; [apply group_keys_NoDup|]. split; [apply elem_of_group_keys|].
  by intros g (k & -> & _)%list_elem_of_fmap.
Qed.

Lemma with_coordinates_is_Some g :
  is_Some (with_coordinates g) ↔ located (k_coordinates (g_key g)) = true.
Proof.
  unfold with_coordinates, located, present.
  destruct (extract_coordinates _) as [[la|] [lo|]]; simpl;
    try (split; [by intros [? [=]]|done]).
  - destruct (pf_is_nan la); simpl; [split; [by intros [? [=]]|done]|].
    destruct (pf_is_nan lo); simpl; [split; [by intros [? [=]]|done]|].
    split; [done|eauto].
  - destruct (pf_is_nan la); simpl; split; try done; by intros [? [=]].
Qed.

Lemma elem_of_filtered df row :
  row ∈ filtered df ↔ row ∈ data df ∧ keep_row df row = true.
Proof. unfold filtered. rewrite list_elem_of_filter. tauto. Qed.

(** The rows of a grouping tuple, read off the sheet. *)
Lemma row_key_in_group df r row :
  row_key df row = Some (order_key r) ↔ in_group df r row.
Proof.
  unfold row_key, in_group, order_key.
  destruct (at_col df "CUSTOMER ID" row) as [a|]; simpl; [|split; [done|by intros [[=] _]]].
  destruct (at_col df "CUSTOMER NAME" row) as [b|]; simpl;
    [|split; [done|by intros (_ & [=] & _)]].
  destruct (at_col df "LOCATION" row) as [c|]; simpl;
    [|split; [done|by intros (_ & _ & [=] & _)]].
  destruct (at_col df "LOCATION COORDINATES" row) as [d|]; simpl;
    [|split; [done|by intros (_ & _ & _ & [=] & _)]].
  destruct (at_col df "REP" row) as [e|]; simpl;
    [|split; [done|by intros (_ & _ & _ & _ & [=])]].
  split.
  - by intros [= -> -> -> -> ->].
  - by intros ([= ->] & [= ->] & [= ->] & [= ->] & [= ->]).
Qed.

Lemma members_rows_of df r :
  members df (filtered df) (order_key r) = rows_of df r.
Proof.
  unfold members, filtered, rows_of. rewrite list_filter_filter.
  apply list_filter_iff. intros row. rewrite row_key_in_group. tauto.
Qed.

(** ** Asset resolution *)


Lemma filter_none {A} (P : A → Prop) `{∀ x, Decision (P x)} (l : list A) :
  (∀ x, x ∈ l → ¬ P x) → filter P l = [].
Proof.
  intros Hl. induction l as [|y l IH]; [done|].
  rewrite filter_cons_False; [|apply Hl; left].
  apply IH. intros x Hx. apply Hl. by right.
Qed.





(** ** Several workbooks *)

Lemma append_cons c a b : String c a ++ b = String c (a ++ b).
Proof. reflexivity. Qed.

Lemma append_nil b : "" ++ b = b.
Proof. reflexivity. Qed.

Lemma startswith_app t a b : Py.startswith t a = true → Py.startswith t (a ++ b) = true.
Proof.
  revert a. induction t as [|c t IH]; intros [|c' a]; try done.
  rewrite append_cons. simpl. intros [-> H]%andb_prop. simpl. by apply IH.
Qed.

Lemma contains_app_l t a b : Py.contains t a = true → Py.contains t (a ++ b) = true.
Proof.
  induction a as [|c a IH].
  - simpl. rewrite orb_false_r. intros H. destruct t; [|done]. by destruct b.
  - intros H. pose proof (startswith_app t (String c a) b) as Hs.
    rewrite append_cons in *. simpl in *.
    apply orb_prop in H as [H|H]; [by rewrite Hs|].
    rewrite (IH H). apply orb_true_r.
Qed.

Lemma contains_app_r t a b : Py.contains t b = true → Py.contains t (a ++ b) = true.
Proof.
  intros H. induction a as [|c a IH]; [done|].
  rewrite append_cons. simpl. rewrite IH. apply orb_true_r.
Qed.

Lemma contains_join sep t (l : list string) :
  t ∈ l → Py.contains t (Py.join sep l) = true.
Proof.
  induction l as [|x l IH]; [by intros ?%elem_of_nil|].
  intros [->|Hin]%elem_of_cons.
  - destruct l; simpl; [apply contains_refl|]. apply contains_app_l, contains_refl.
  - destruct l as [|x' l]; [by apply elem_of_nil in Hin|].
    change (Py.join sep (x :: x' :: l)) with (x ++ sep ++ Py.join sep (x' :: l)).
    by apply contains_app_r, contains_app_r, IH.
Qed.

Lemma multiple_trucks_message_names (truck_numbers : gset string) t :
  t ∈ truck_numbers → Py.contains t (multiple_trucks_message truck_numbers) = true.
Proof.
  intros Ht. unfold multiple_trucks_message. apply contains_app_r, contains_join.
  unfold sorted_names. rewrite merge_sort_Permutation. by apply elem_of_elements.
Qed.

Lemma read_all_reads excel_files : ∀ all_gdfs truck_numbers,
  forallb reads excel_files = true →
  ∃ more,
    read_all excel_files all_gdfs truck_numbers
      = Ok ((all_gdfs ++ more)%list, identifiers excel_files ∪ truck_numbers) ∧
    (existsb yields_rows excel_files = true → more ≠ []).
Proof.
  induction excel_files as [|f rest IH]; intros all_gdfs truck_numbers Hok.
  - exists []. simpl. rewrite app_nil_r, union_empty_l_L. done.
  - simpl in Hok. apply andb_prop in Hok as [Hf Hrest].
    unfold reads in Hf. simpl. unfold yields_rows.
    destruct (read_excel_to_df f) as [[gdf truck]|] eqn:Hread; [|done]. simpl.
    set (gdfs' := if bool_decide (gdf = []) then all_gdfs else (all_gdfs ++ [gdf])%list).
    set (trucks' := match truck with
                    | Some (String _ _ as t) => {[ t ]} ∪ truck_numbers
                    | _ => truck_numbers
                    end).
    destruct (IH gdfs' trucks' Hrest) as (more & -> & Hmore).
    exists ((if bool_decide (gdf = []) then [] else [gdf]) ++ more)%list. split.
    + f_equal. f_equal.
      * unfold gdfs'. case_bool_decide; simpl; [done|]. by rewrite <- app_assoc.
      * unfold trucks'. destruct truck as [[|c t]|].
        -- done.
        -- by rewrite (assoc_L (∪)), (comm_L (∪) (identifiers rest)), <- (assoc_L (∪)).
        -- done.
    + destruct gdf as [|r gdf].
      * rewrite bool_decide_eq_true_2 by done. exact Hmore.
      * intros _. by rewrite bool_decide_eq_false_2.
Qed.

(** C5 (counterexample): two workbooks for the trucks KBX123Z and
    KCA456B, neither with a row whose coordinates read, are refused
    with the failure for missing data, which names no truck. *)
Lemma C5_no_valid_data_counterexample :
  read_excel_to_df sheet_truck_a = Ok ([], Some "KBX123Z") ∧
  read_excel_to_df sheet_truck_b = Ok ([], Some "KCA456B") ∧
  process_multiple_excels [sheet_truck_a; sheet_truck_b]
    = Raise (ValueError "No valid data found in any of the Excel files.").
Proof. repeat split; vm_compute; reflexivity. Qed.

Lemma process_multiple_excels_reads excel_files :
  forallb reads excel_files = true → existsb yields_rows excel_files = true →
  process_multiple_excels excel_files =
  if bool_decide (1 < size (identifiers excel_files))%nat
  then Raise (ValueError (multiple_trucks_message (identifiers excel_files)))
  else match process_multiple_excels excel_files with
       | Ok r => Ok r
       | Raise _ => Ok ([], None)
       end.
Proof.
  intros Hok Hrows. unfold process_multiple_excels.
  destruct (read_all_reads excel_files [] ∅ Hok) as (more & -> & Hmore).
  specialize (Hmore Hrows). simpl. rewrite union_empty_r_L.
  rewrite bool_decide_eq_false_2 by done.
  by case_bool_decide.
Qed.

(** C5 (amended): when every workbook of a submission is read without
    error and one of them yields a row, two or more distinct identifiers
    make [process_multiple_excels] raise the failure whose message names
    each of them, and the submission ends with no remote call made; with
    one identifier or none it raises nothing. *)
Theorem C5_several_trucks_refused :
  ∀ excel_files : list sheet,
    forallb reads excel_files = true →
    existsb yields_rows excel_files = true →
    ((1 < size (identifiers excel_files))%nat →
       process_multiple_excels excel_files
         = Raise (ValueError (multiple_trucks_message (identifiers excel_files))) ∧
       (∀ t, t ∈ identifiers excel_files →
          Py.contains t (multiple_trucks_message (identifiers excel_files)) = true) ∧
       (∀ calculate_distance sort_values calc_dist now net assets_file token resource_id tf tt,
          (run_wialon_uploader calculate_distance sort_values calc_dist now net
             excel_files assets_file token resource_id tf tt).2 = [])) ∧
    ((size (identifiers excel_files) ≤ 1)%nat →
       is_ok (process_multiple_excels excel_files) = true).
Proof.
  intros excel_files Hok Hrows.
  pose proof (process_multiple_excels_reads excel_files Hok Hrows) as Hp.
  split.
  - intros Hmany. rewrite bool_decide_eq_true_2 in Hp by done.
    split; [done|]. split; [apply multiple_trucks_message_names|].
    intros. unfold run_wialon_uploader, dispatch. rewrite Hp.
    destruct excel_files, assets_file, token, resource_id; done.
  - intros Hfew. rewrite bool_decide_eq_false_2 in Hp by lia.
    rewrite Hp. by destruct (process_multiple_excels excel_files).
Qed.

Lemma C5_several_trucks_refused_witness :
  process_multiple_excels [sheet_truck_c; sheet_truck_d]
  = Raise (ValueError "Multiple truck numbers found (after normalization): KBX123Z, KCA456B").
Proof.
  refine (eq_trans
            (proj1 (proj1 (C5_several_trucks_refused [sheet_truck_c; sheet_truck_d] _ _) _)) _).
  - vm_compute. reflexivity.
  - vm_compute. reflexivity.
  - vm_compute. lia.
  - vm_compute. reflexivity.
Defined.

(** *** The combined table *)

Lemma read_all_ok excel_files : ∀ all_gdfs truck_numbers r,
  read_all excel_files all_gdfs truck_numbers = Ok r → forallb reads excel_files = true.
Proof.
  induction excel_files as [|f rest IH]; intros all_gdfs truck_numbers r; simpl; [done|].
  unfold reads at 1. destruct (read_excel_to_df f) as [[gdf truck]|]; simpl; [|done].
  apply IH.
Qed.

Lemma read_all_tables excel_files : ∀ all_gdfs truck_numbers,
  forallb reads excel_files = true →
  read_all excel_files all_gdfs truck_numbers
  = Ok ((all_gdfs ++ filter (λ l, l ≠ []) (tables excel_files))%list,
        identifiers excel_files ∪ truck_numbers).
Proof.
  induction excel_files as [|f rest IH]; intros all_gdfs truck_numbers Hok.
  - simpl. by rewrite app_nil_r, union_empty_l_L.
  - simpl in Hok. apply andb_prop in Hok as [Hf Hrest]. unfold reads in Hf.
    unfold tables. simpl.
    destruct (read_excel_to_df f) as [[gdf truck]|]; [|done]. simpl.
    rewrite IH by done. fold (tables rest). f_equal. f_equal.
    + case_bool_decide as Hg.
      * by rewrite filter_cons_False by (by intros ?).
      * rewrite filter_cons_True by done. by rewrite <- app_assoc.
    + destruct truck as [[|c t]|]; [done| |done].
      by rewrite (assoc_L (∪)), (comm_L (∪) (identifiers rest)), <- (assoc_L (∪)).
Qed.

Lemma drop_duplicates_elem rows : ∀ seen r,
  r ∈ drop_duplicates seen rows → r ∈ rows ∧ duplicate_key r ∉ seen.
Proof.
  induction rows as [|x rows IH]; intros seen r; simpl; [by intros ?%elem_of_nil|].
  fold (duplicate_key x). case_bool_decide as Hx.
  - intros [? ?]%IH. split; [by right|done].
  - intros [->|[? Hs]%IH]%elem_of_cons; [split; [left|done]|].
    split; [by right|]. intros ?. apply Hs. by right.
Qed.

Lemma drop_duplicates_NoDup rows : ∀ seen,
  NoDup (duplicate_key <$> drop_duplicates seen rows).
Proof.
  induction rows as [|x rows IH]; intros seen; simpl; [constructor|].
  fold (duplicate_key x). case_bool_decide as Hx; [apply IH|].
  rewrite fmap_cons. apply NoDup_cons. split; [|apply IH].
  intros (r & Hk & [_ Hs]%drop_duplicates_elem)%list_elem_of_fmap.
  apply Hs. rewrite <- Hk. left.
Qed.

Lemma drop_duplicates_keys rows : ∀ seen r,
  r ∈ rows → duplicate_key r ∈ seen ∨ duplicate_key r ∈ (duplicate_key <$> drop_duplicates seen rows).
Proof.
  induction rows as [|x rows IH]; intros seen r; [by intros ?%elem_of_nil|]. simpl.
  fold (duplicate_key x). intros [->|Hr]%elem_of_cons.
  - case_bool_decide; [by left|right]. rewrite fmap_cons. left.
  - case_bool_decide as Hx; [by apply IH|].
    destruct (IH (duplicate_key x :: seen) r Hr) as [[->|?]%elem_of_cons|?].
    + right. rewrite fmap_cons. left.
    + by left.
    + right. rewrite fmap_cons. by right.
Qed.

Lemma concat_nonempty {A} (ls : list (list A)) :
  concat (filter (λ l, l ≠ []) ls) = concat ls.
Proof.
  induction ls as [|l ls IH]; [done|]. destruct l as [|a l].
  - rewrite filter_cons_False by (by intros ?). simpl. exact IH.
  - rewrite filter_cons_True by done. simpl. by rewrite IH.
Qed.

(** What [process_multiple_excels] has gone through when it returns. *)
Lemma process_multiple_excels_ok excel_files rows truck :
  process_multiple_excels excel_files = Ok (rows, truck) →
  forallb reads excel_files = true ∧
  concat (tables excel_files) ≠ [] ∧
  (size (identifiers excel_files) ≤ 1)%nat ∧
  rows = drop_duplicates [] (concat (tables excel_files)) ∧
  truck = head (elements (identifiers excel_files)).
Proof.
  unfold process_multiple_excels.
  destruct (read_all excel_files [] ∅) as [[gdfs tns]|] eqn:Hall; simpl; [|done].
  pose proof (read_all_ok _ _ _ _ Hall) as Hok.
  rewrite read_all_tables in Hall by done. injection Hall as <- <-.
  rewrite union_empty_r_L. simpl.
  case_bool_decide as Hempty; [done|]. case_bool_decide as Hmany; [done|].
  rewrite concat_nonempty. intros [= <- <-]. repeat split; try done; [|lia].
  intros Hc. apply Hempty.
  destruct (filter _ (tables excel_files)) as [|l ls] eqn:Hf; [done|]. exfalso.
  assert (l ∈ filter (λ l, l ≠ []) (tables excel_files)) as [Hl _]%list_elem_of_filter
    by (rewrite Hf; left).
  rewrite <- concat_nonempty, Hf in Hc. simpl in Hc. by apply app_eq_nil in Hc as [? _].
Qed.

(** *** One row for a tuple, one row for a customer and location *)

(** A row that [drop_duplicates] keeps is the first of its key. *)
Lemma drop_duplicates_is_first rows : ∀ seen r,
  r ∈ drop_duplicates seen rows →
  first_such (λ x, duplicate_key x = duplicate_key r) rows r.
Proof.
  induction rows as [|x rows IH]; intros seen r; simpl; [by intros ?%elem_of_nil|].
  fold (duplicate_key x). case_bool_decide as Hx.
  - intros Hr. pose proof (drop_duplicates_elem _ _ _ Hr) as [_ Hs].
    destruct (IH _ _ Hr) as (pre & post & -> & _ & Hpre).
    exists (x :: pre), post. split; [done|]. split; [done|].
    constructor; [|done]. intros Hk. apply Hs. by rewrite <- Hk.
  - intros [->|Hr]%elem_of_cons.
    + exists [], rows. by repeat split.
    + pose proof (drop_duplicates_elem _ _ _ Hr) as [_ Hs].
      destruct (IH _ _ Hr) as (pre & post & -> & _ & Hpre).
      exists (x :: pre), post. split; [done|]. split; [done|].
      constructor; [|done]. intros Hk. apply Hs. rewrite <- Hk. left.
Qed.

(** C4 (counterexample): a delivery met in two workbooks comes out with
    the tonnage of the first workbook, 2.0, and not with the sum 5.5;
    and the two grouping tuples of a workbook that differ in the
    representative only, which its table keeps apart, come out as the
    one row of the first. *)
Lemma C4_first_row_kept_counterexample :
  (∃ r, process_multiple_excels [sheet_truck_c; sheet_second_load]
          = Ok ([r], Some "KBX123Z") ∧
        TONNAGE r = PFin 2) ∧
  (∃ r1 r2, read_excel_to_df sheet_two_reps = Ok ([r1; r2], Some "KBX123Z") ∧
            order_key r1 ≠ order_key r2 ∧
            process_multiple_excels [sheet_two_reps] = Ok ([r1], Some "KBX123Z")).
Proof.
  split.
  - eexists. split; vm_compute; reflexivity.
  - eexists _, _. split; [vm_compute; reflexivity|]. split; [|vm_compute; reflexivity].
    discriminate.
Qed.

(** C4 (amended): the two rows of the sample workbook that carry one
    grouping tuple, of 2.0 and 3.5 tonnes, come out as one row of 5.5
    tonnes.  The table that [read_excel_to_df] returns for a workbook
    has no two rows of one grouping tuple; it has a row for the tuple of
    every kept row of the sheet whose five key cells are filled and whose
    coordinates read; and each of its rows carries the sums of TONNAGE
    and AMOUNT over the kept rows of the sheet that carry its tuple.  Of
    the rows of the tables of a submission, taken in the order of the
    workbooks, [process_multiple_excels] returns those that are the
    first of their customer id and location. *)
Theorem C4_one_row_per_group_with_sums :
  (∃ r1 r2, read_excel_to_df sheet_three_deliveries = Ok ([r1; r2], Some "KBX123Z") ∧
            CUSTOMER_ID r1 = "C001" ∧ TONNAGE r1 = PFin (11 # 2) ∧
            AMOUNT r1 = PFin (7001 # 2) ∧
            CUSTOMER_ID r2 = "C002" ∧ TONNAGE r2 = PFin (5 # 4)) ∧
  (∀ raw header body rows truck,
     find_header_row raw = Some (header, body) →
     read_excel_to_df raw = Ok (rows, truck) →
     let df := labelled_frame header body in
     NoDup (order_key <$> rows) ∧
     (∀ row r0, row ∈ body → keep_row df row = true → in_group df r0 row →
                located (LOCATION_COORDINATES r0) = true →
                ∃ r, r ∈ rows ∧ order_key r = order_key r0) ∧
     (∀ r, r ∈ rows →
        rows_of df r ≠ [] ∧
        TONNAGE r = pf_sum (numeric df "TONNAGE" <$> rows_of df r) ∧
        AMOUNT r = pf_sum (numeric df "AMOUNT" <$> rows_of df r))) ∧
  (∀ (excel_files : list sheet) rows truck,
     process_multiple_excels excel_files = Ok (rows, truck) →
     NoDup (duplicate_key <$> rows) ∧
     (∀ r, r ∈ rows →
        first_such (λ x, duplicate_key x = duplicate_key r) (concat (tables excel_files)) r) ∧
     (∀ r, r ∈ concat (tables excel_files) →
        duplicate_key r ∈ (duplicate_key <$> rows))).
Proof.
  split; [eexists _, _; repeat split; vm_compute; reflexivity|]. split.
  - intros raw header body rows truck Hh
           (header' & body' & grouped & Hh' & Hg & ->)%read_excel_to_df_ok df.
    rewrite Hh in Hh'. injection Hh' as <- <-. fold df in Hg.
    pose proof (groupby_agg_spec _ _ _ Hg) as (Hnd & Hkeys & Hsum).
    split; [by apply NoDup_with_coordinates|]. split.
    + intros row r0 Hrow Hkeep Hin Hloc.
      assert (order_key r0 ∈ g_key <$> grouped) as (g & Hk & Hg')%list_elem_of_fmap.
      { apply Hkeys. exists row. split; [by apply elem_of_filtered|].
        by apply row_key_in_group. }
      destruct (proj2 (with_coordinates_is_Some g)) as [r Hr]; [by rewrite <- Hk|].
      exists r. split; [apply list_elem_of_omap; eauto|].
      apply with_coordinates_some in Hr as [-> _]. done.
    + intros r (g & Hin & Hr)%list_elem_of_omap.
      apply with_coordinates_some in Hr as (Hk & -> & -> & _).
      rewrite <- !members_rows_of, Hk. split; [|by apply Hsum].
      destruct (proj1 (Hkeys (g_key g))) as (row & Hrow & Hrk);
        [apply list_elem_of_fmap; eauto|].
      intros Hnil. assert (row ∈ members df (filtered df) (g_key g)) as Hm
        by (by apply list_elem_of_filter).
      rewrite Hnil in Hm. by apply elem_of_nil in Hm.
  - intros excel_files rows truck (_ & _ & _ & -> & _)%process_multiple_excels_ok.
    split; [apply drop_duplicates_NoDup|]. split.
    + intros r. apply drop_duplicates_is_first.
    + intros r Hr.
      by destruct (drop_duplicates_keys _ [] r Hr) as [?%elem_of_nil|?].
Qed.

Lemma C4_one_row_per_group_with_sums_witness :
  (∃ r, r ∈ two_customers ∧
        order_key r = {| k_customer_id := "C002"; k_customer_name := "Beta Mart";
                         k_location := "Njoro"; k_coordinates := "LAT:-0.33LONG:35.94";
                         k_rep := "Jane" |}) ∧
  NoDup (duplicate_key <$> two_customers).
Proof.
  destruct C4_one_row_per_group_with_sums as (_ & Hfile & Hall). split.
  - refine (proj1 (proj2 (Hfile sheet_two_customers full_header
                            (skip_sheet 2 sheet_two_customers) two_customers
                            (Some "KBX123Z") _ _))
                  [Some "2"; Some "C002"; Some "Beta Mart"; Some "Njoro";
                   Some "LAT:-0.33LONG:35.94"; Some "Jane"; Some "2.0"; Some "500";
                   Some "INV-2"]
                  {| CUSTOMER_ID := "C002"; CUSTOMER_NAME := "Beta Mart"; LOCATION := "Njoro";
                     LOCATION_COORDINATES := "LAT:-0.33LONG:35.94"; REP := "Jane";
                     TONNAGE := PFin 0; AMOUNT := PFin 0; INVOICE_NO := "";
                     LAT := PFin 0; LONG := PFin 0 |} _ _ _ _).
    + reflexivity.
    + vm_compute. reflexivity.
    + vm_compute. right. left.
    + vm_compute. reflexivity.
    + vm_compute. repeat split.
    + vm_compute. reflexivity.
  - refine (proj1 (Hall [sheet_two_customers; sheet_two_customers] two_customers
                     (Some "KBX123Z") _)).
    vm_compute. reflexivity.
Defined.

(** ** Computations with remote calls *)

Lemma io_bind_ok {A B} (m : io A) (f : A → io B) t b t' :
  (m ≫= f) t = (Ok b, t') → ∃ a t1, m t = (Ok a, t1) ∧ f a t1 = (Ok b, t').
Proof.
  unfold mbind, io_bind. destruct (m t) as [[a|e] t1]; [|done]. intros H. by exists a, t1.
Qed.

Lemma lift_ok {A} (m : exn A) t a t' : lift m t = (Ok a, t') → m = Ok a ∧ t' = t.
Proof. unfold lift. by intros [= -> ->]. Qed.

Lemma mret_ok {A} (a b : A) (t t' : list call) :
  (mret a : io A) t = (Ok b, t') → b = a ∧ t' = t.
Proof. by intros [= -> ->]. Qed.

Lemma only_osrm_ret {A} (a : A) : only_osrm (mret a).
Proof. intros t. exists []. by rewrite app_nil_r. Qed.

Lemma only_osrm_lift {A} (m : exn A) : only_osrm (lift m).
Proof. intros t. exists []. by rewrite app_nil_r. Qed.

Lemma only_osrm_bind {A B} (m : io A) (f : A → io B) :
  only_osrm m → (∀ a, only_osrm (f a)) → only_osrm (m ≫= f).
Proof.
  intros Hm Hf t. unfold mbind, io_bind.
  destruct (Hm t) as (e1 & H1 & F1). destruct (m t) as [[a|e] t1]; simpl in H1; subst t1.
  - destruct (Hf a (t ++ e1)%list) as (e2 & H2 & F2).
    exists (e1 ++ e2)%list. rewrite H2, app_assoc. split; [done|].
    rewrite forallb_app. by rewrite F1, F2.
  - by exists e1.
Qed.

Lemma only_osrm_swallow {A} (d : A) (m : io A) : only_osrm m → only_osrm (swallow d m).
Proof.
  intros Hm t. unfold swallow. destruct (Hm t) as (e1 & H1 & F1).
  destruct (m t) as [[a|e] t1]; simpl in *; by exists e1.
Qed.

Lemma only_osrm_request src dst response : only_osrm (request (OsrmRoute src dst) response).
Proof. intros t. by exists [OsrmRoute src dst]. Qed.

Lemma only_osrm_foldM {A S} (f : S → A → io S) (l : list A) :
  (∀ st a, only_osrm (f st a)) → ∀ st, only_osrm (foldM f st l).
Proof.
  intros Hf. induction l as [|a l IH]; intros st; simpl.
  - apply only_osrm_ret.
  - apply only_osrm_bind; [apply Hf|]. intros st'. apply IH.
Qed.

(** ** The route plan *)

(** An entry is recognized when the loop finds the name of its order. *)
Lemma recognized_lookup ids resp :
  recognized ids resp =
  match order_id_of resp with
  | Some order_id =>
      match lookup_order ids order_id with Ok (Some _) => true | _ => false end
  | None => false
  end.
Proof.
  unfold recognized, order_id_of, lookup_order.
  destruct (dict_get resp "id") as [order_id|]; [|done].
  destruct (hashable order_id) eqn:Hh; [|by destruct order_id].
  assert (bool_decide (is_Some (int_value order_id ≫= (ids !!.)))
          = match int_value order_id ≫= (ids !!.) with Some _ => true | None => false end) as ->.
  { destruct (int_value order_id ≫= (ids !!.)).
    - by rewrite bool_decide_eq_true_2 by eauto.
    - by rewrite bool_decide_eq_false_2 by (by intros [? ?]). }
  destruct order_id; try done; simpl; rewrite ?Hh; done.
Qed.

Section RoutePlan.

Variable calc_dist : coords → coords → exn pyfloat.
Variable net : remote.
Variables unit_id tf : Z.
Variable df_grouped : list order_row.

Let step := add_order calc_dist net unit_id tf df_grouped
              (order_ids df_grouped) (coord_map_of df_grouped).

Lemma only_osrm_resolve rp src dst : only_osrm (resolve_polyline net rp src dst).
Proof.
  unfold resolve_polyline. destruct (truthy_opt rp); [apply only_osrm_ret|].
  apply only_osrm_bind; [|intros; apply only_osrm_ret].
  apply only_osrm_swallow, only_osrm_bind; [apply only_osrm_request|].
  intros; apply only_osrm_lift.
Qed.

Lemma only_osrm_add_order ids cm st resp :
  only_osrm (add_order calc_dist net unit_id tf df_grouped ids cm st resp).
Proof.
  unfold add_order. destruct (order_id_of resp); [|apply only_osrm_ret].
  apply only_osrm_bind; [apply only_osrm_lift|]. intros [name|]; [|apply only_osrm_ret].
  apply only_osrm_bind; [apply only_osrm_lift|]. intros w.
  apply only_osrm_bind; [apply only_osrm_lift|]. intros m.
  apply only_osrm_bind; [apply only_osrm_resolve|]. intros rp.
  apply only_osrm_bind; [apply only_osrm_lift|]. intros c.
  apply only_osrm_ret.
Qed.

Lemma only_osrm_build_route entries end_rp :
  only_osrm (build_route calc_dist net unit_id tf df_grouped entries end_rp).
Proof.
  unfold build_route.
  apply only_osrm_bind; [apply only_osrm_foldM; intros; apply only_osrm_add_order|].
  intros st. apply only_osrm_bind; [apply only_osrm_lift|]. intros m.
  apply only_osrm_bind; [apply only_osrm_resolve|]. intros rp.
  apply only_osrm_ret.
Qed.

(** An entry that is not recognized leaves the state of the loop as it
    is and calls nothing. *)
Lemma add_order_skip st resp t :
  order_id_of resp = None ∨
  (∃ order_id, order_id_of resp = Some order_id ∧
               lookup_order (order_ids df_grouped) order_id = Ok None) →
  step st resp t = (Ok st, t).
Proof.
  unfold step, add_order. intros [->|(order_id & -> & Hl)]; [done|].
  unfold mbind, io_bind, lift. by rewrite Hl.
Qed.

(** A turn of the loop that does not raise either skips the entry or
    appends its stop. *)
Lemma add_order_ok st resp t st' t' :
  step st resp t = (Ok st', t') →
  (recognized (order_ids df_grouped) resp = false ∧ st' = st) ∨
  (recognized (order_ids df_grouped) resp = true ∧
   ∃ s, route_orders st' = (route_orders st ++ [s])%list ∧
        s_f s = 0 ∧ order_id_of resp = Some (s_id s) ∧
        s_i s = sequence_index st + 1 ∧
        s_vt s = plan_time (dict_get resp "tm") (last_visit_time st) tf ∧
        last_visit_time st' = s_vt s ∧ sequence_index st' = s_i s).
Proof.
  rewrite recognized_lookup. unfold step, add_order.
  destruct (order_id_of resp) as [order_id|]; [|intros [-> _]%mret_ok; by left].
  intros (found & t1 & [Hl ->]%lift_ok & H)%io_bind_ok. rewrite Hl.
  destruct found as [order_name|]; [|apply mret_ok in H as [-> _]; by left].
  right. split; [done|].
  apply io_bind_ok in H as (w & t2 & _ & H).
  apply io_bind_ok in H as (m & t3 & _ & H).
  apply io_bind_ok in H as (rp & t4 & _ & H).
  apply io_bind_ok in H as (c & t5 & _ & H).
  apply mret_ok in H as [-> _]. simpl. eexists. split; [reflexivity|]. done.
Qed.

Lemma ends_app vt i (cs : list stop) s : ends vt i (cs ++ [s]) = (s_vt s, s_i s).
Proof. revert vt i. induction cs as [|c cs IH]; intros vt i; simpl; [done|]. apply IH. Qed.

Lemma follows_app vt i es cs e s :
  follows tf vt i es cs →
  s_f s = 0 → order_id_of e = Some (s_id s) →
  s_i s = (ends vt i cs).2 + 1 →
  s_vt s = plan_time (dict_get e "tm") (ends vt i cs).1 tf →
  follows tf vt i (es ++ [e]) (cs ++ [s]).
Proof.
  revert vt i cs. induction es as [|e' es IH]; intros vt i [|c cs]; simpl; try done.
  intros (? & ? & ? & ? & Hf) ? ? ? ?. repeat split; try done. by apply IH.
Qed.

(** The loop appends the stops of the recognized entries, in order. *)
Lemma foldM_add_order entries : ∀ st t st' t',
  foldM step st entries t = (Ok st', t') →
  ∃ cs, route_orders st' = (route_orders st ++ cs)%list ∧
        follows tf (last_visit_time st) (sequence_index st)
                (filter (λ e, recognized (order_ids df_grouped) e = true) entries) cs ∧
        (last_visit_time st', sequence_index st')
          = ends (last_visit_time st) (sequence_index st) cs.
Proof.
  induction entries as [|e entries IH]; intros st t st' t'; simpl.
  - intros [-> _]%mret_ok. exists []. by rewrite app_nil_r.
  - intros (st1 & t1 & H1 & H)%io_bind_ok.
    apply IH in H as (cs & Hro & Hf & He).
    apply add_order_ok in H1 as [[Hr ->]|(Hr & s & Hs & ? & ? & Hi & Hv & Hlv & Hsi)].
    + exists cs. rewrite filter_cons_False by (by rewrite Hr). done.
    + exists (s :: cs). rewrite filter_cons_True by done.
      rewrite Hro, Hs, <- app_assoc. split; [done|]. simpl.
      rewrite Hlv, Hsi in *. rewrite <- Hi, <- Hv in *. done.
Qed.

(** What a route build that does not raise returns. *)
Lemma build_route_ok entries end_rp t plan t' :
  build_route calc_dist net unit_id tf df_grouped entries end_rp t = (Ok plan, t') →
  ∃ cs fin,
    plan = (depot_stop unit_id (JInt 0) 260 tf 0 0 None :: cs ++ [fin])%list ∧
    follows tf tf 0 (filter (λ e, recognized (order_ids df_grouped) e = true) entries) cs ∧
    s_f fin = 264 ∧
    s_vt fin = (ends tf 0 cs).1 + 600 ∧ s_i fin = (ends tf 0 cs).2 + 1.
Proof.
  unfold build_route. fold step.
  intros (st & t1 & (cs & Hro & Hf & He)%foldM_add_order & H)%io_bind_ok.
  apply io_bind_ok in H as (m & t2 & _ & H).
  apply io_bind_ok in H as (rp & t3 & _ & H).
  apply mret_ok in H as [-> _]. simpl in *.
  eexists cs, _. rewrite Hro. split; [reflexivity|]. simpl.
  by rewrite <- He.
Qed.

End RoutePlan.

Local Open Scope Z_scope.

(** *** Planned times *)

Lemma plan_time_usable tm vt tf :
  usable tm = true → vt + 60 ≤ plan_time tm vt tf ∧ tf ≤ plan_time tm vt tf.
Proof.
  unfold usable, plan_time. destruct (tm ≫= as_int) as [z|]; [|done].
  intros Hz%Z.ltb_lt. destruct (Z.leb_spec z 0); lia.
Qed.

Lemma plan_time_default tm vt tf :
  usable tm = false → plan_time tm vt tf = vt + 600.
Proof.
  unfold usable, plan_time. destruct (tm ≫= as_int) as [z|]; [|done].
  intros Hz%Z.ltb_ge. destruct (Z.leb_spec z 0); lia.
Qed.

Lemma plan_time_later tm vt tf : vt < plan_time tm vt tf.
Proof.
  destruct (usable tm) eqn:Hu.
  - destruct (plan_time_usable tm vt tf Hu). lia.
  - rewrite (plan_time_default tm vt tf Hu). lia.
Qed.

(** *** What follows from [follows] *)

Lemma follows_length tf vt i es cs : follows tf vt i es cs → length cs = length es.
Proof.
  revert vt i cs. induction es as [|e es IH]; intros vt i [|c cs]; simpl; try done.
  intros (_ & _ & _ & _ & H). f_equal. by eapply IH.
Qed.

Lemma follows_flags tf vt i es cs : follows tf vt i es cs → Forall (λ c, s_f c = 0) cs.
Proof.
  revert vt i cs. induction es as [|e es IH]; intros vt i [|c cs]; simpl; try done.
  intros (? & _ & _ & _ & H). constructor; [done|]. by eapply IH.
Qed.

Lemma follows_ids tf vt i es cs :
  follows tf vt i es cs → order_id_of <$> es = Some ∘ s_id <$> cs.
Proof.
  revert vt i cs. induction es as [|e es IH]; intros vt i [|c cs]; simpl; try done.
  intros (_ & He & _ & _ & H). f_equal; [done|]. by eapply IH.
Qed.

Lemma follows_index tf vt i es cs :
  follows tf vt i es cs →
  (∀ k s, cs !! k = Some s → s_i s = i + 1 + Z.of_nat k) ∧
  (ends vt i cs).2 = i + Z.of_nat (length cs).
Proof.
  revert vt i cs. induction es as [|e es IH]; intros vt i [|c cs]; simpl; try done.
  - intros _. split; [done|lia].
  - intros (_ & _ & Hi & _ & H). destruct (IH _ _ _ H) as [Hk He]. split.
    + intros [|k] s; simpl; [intros [= <-]; lia|].
      intros Hs. rewrite (Hk k s Hs). lia.
    + rewrite He. lia.
Qed.

Lemma follows_times tf vt i es cs :
  follows tf vt i es cs →
  ∀ p, s_vt p = vt →
  (∀ k prev cur e,
     (p :: cs) !! k = Some prev → cs !! k = Some cur → es !! k = Some e →
     s_vt cur = plan_time (dict_get e "tm") (s_vt prev) tf) ∧
  (∀ prev, last (p :: cs) = Some prev → (ends vt i cs).1 = s_vt prev).
Proof.
  revert vt i cs. induction es as [|e es IH]; intros vt i [|c cs]; simpl; try done.
  - intros _ p Hp. split; [done|]. by intros prev [= <-].
  - intros (_ & _ & _ & Hv & H) p Hp. destruct (IH _ _ _ H c eq_refl) as [Hk Hl]. split.
    + intros [|k] prev cur e'; simpl.
      * intros [= <-] [= <-] [= <-]. by rewrite Hp.
      * apply Hk.
    + intros prev Hprev. apply Hl. by destruct cs.
Qed.

(** C8: in a plan that [build_route] returns, the customer stops are as
    many as the recognized entries of the answer and, taken in order,
    each is visited at least 60 seconds after the stop before it and not
    before the window start when its entry has a usable time, and 600
    seconds after the stop before it when it has none; the end depot is
    visited 600 seconds after the last stop before it; and the visit
    times increase strictly along the plan. *)
Theorem C8_visit_times_increase :
  ∀ calc_dist net unit_id tf df_grouped entries end_rp t plan t',
    build_route calc_dist net unit_id tf df_grouped entries end_rp t = (Ok plan, t') →
    let es := filter (λ e, recognized (order_ids df_grouped) e = true) entries in
    ∃ start cs fin,
      plan = (start :: cs ++ [fin])%list ∧ s_vt start = tf ∧
      length cs = length es ∧
      (∀ k prev cur e,
         (start :: cs) !! k = Some prev → cs !! k = Some cur → es !! k = Some e →
         (usable (dict_get e "tm") = true →
            s_vt prev + 60 ≤ s_vt cur ∧ tf ≤ s_vt cur) ∧
         (usable (dict_get e "tm") = false → s_vt cur = s_vt prev + 600)) ∧
      (∀ prev, last (start :: cs) = Some prev → s_vt fin = s_vt prev + 600) ∧
      (∀ k a b, plan !! k = Some a → plan !! S k = Some b → s_vt a < s_vt b).
Proof.
  intros calc_dist net unit_id tf df_grouped entries end_rp t plan t'
         (cs & fin & -> & Hf & _ & Hvt & _)%build_route_ok es.
  set (start := depot_stop unit_id (JInt 0) 260 tf 0 0 None).
  destruct (follows_times _ _ _ _ _ Hf start eq_refl) as [Hk Hl].
  pose proof (follows_length _ _ _ _ _ Hf) as Hlen. fold es in Hk, Hlen.
  assert (Hfin : ∀ prev, last (start :: cs) = Some prev → s_vt fin = s_vt prev + 600).
  { intros prev Hprev. by rewrite Hvt, (Hl prev Hprev). }
  exists start, cs, fin.
  split; [done|]. split; [done|]. split; [done|]. split; [|split; [done|]].
  - intros k prev cur e Hprev Hcur He. rewrite (Hk k prev cur e) by done.
    split; [apply plan_time_usable|apply plan_time_default].
  - intros k a b Ha Hb.
    change (start :: cs ++ [fin])%list with ((start :: cs) ++ [fin])%list in Ha.
    change ((start :: cs ++ [fin])%list !! S k) with ((cs ++ [fin])%list !! k) in Hb.
    destruct (decide (k < length cs)%nat) as [Hlt|Hge].
    + rewrite lookup_app_l in Ha by (simpl; lia). rewrite lookup_app_l in Hb by done.
      destruct (lookup_lt_is_Some_2 es k) as [e He]; [lia|].
      rewrite (Hk k a b e) by done. apply plan_time_later.
    + assert (k = length cs) as ->.
      { apply lookup_lt_Some in Hb. rewrite length_app in Hb. simpl in Hb. lia. }
      rewrite list_lookup_middle in Hb by done. injection Hb as <-.
      rewrite lookup_app_l in Ha by (simpl; lia).
      rewrite (Hfin a); [lia|]. rewrite last_lookup. simpl. exact Ha.
Qed.

Lemma C8_visit_times_increase_witness :
  ∃ start cs fin,
    sample_plan = (start :: cs ++ [fin])%list ∧ s_vt start = 1700000000 ∧
    (∀ prev, last (start :: cs) = Some prev → s_vt fin = s_vt prev + 600) ∧
    (∀ k a b, sample_plan !! k = Some a → sample_plan !! S k = Some b → s_vt a < s_vt b).
Proof.
  destruct (C8_visit_times_increase flat_leg sample_net 101 1700000000 two_customers
              sample_entries (Some (JStr "ab_c")) [] sample_plan sample_calls)
    as (start & cs & fin & Hplan & Hstart & _ & _ & Hfin & Hinc).
  - vm_compute. reflexivity.
  - by exists start, cs, fin.
Defined.

(** *** Recognized entries *)

Lemma order_ids_keys (df_grouped : list order_row) :
  NoDup (imap (λ (idx : nat) row, (Z.of_nat idx + 1, CUSTOMER_NAME row)) df_grouped).*1.
Proof.
  apply NoDup_alt. intros i j z.
  rewrite !list_lookup_fmap, !list_lookup_imap.
  destruct (df_grouped !! i), (df_grouped !! j); simpl; try done.
  intros [= <-] [= H]. lia.
Qed.

Lemma order_ids_lookup (df_grouped : list order_row) z name :
  order_ids df_grouped !! z = Some name ↔
  ∃ idx row, df_grouped !! idx = Some row ∧ z = Z.of_nat idx + 1 ∧ name = CUSTOMER_NAME row.
Proof.
  unfold order_ids. rewrite <- elem_of_list_to_map by apply order_ids_keys.
  rewrite elem_of_lookup_imap. split.
  - intros (idx & row & [= -> ->] & H). by exists idx, row.
  - intros (idx & row & H & -> & ->). by exists idx, row.
Qed.

Lemma build_orders_ids (df_grouped : list order_row) z :
  (∃ o, o ∈ build_orders df_grouped ∧ o_id o = z) ↔
  ∃ idx row, df_grouped !! idx = Some row ∧ z = Z.of_nat idx + 1.
Proof.
  unfold build_orders. split.
  - intros (o & (idx & row & -> & H)%elem_of_lookup_imap & <-). by exists idx, row.
  - intros (idx & row & H & ->). eexists. split; [by eapply elem_of_lookup_imap_2|done].
Qed.

(** The dictionary knows exactly the ids of the orders sent to the
    optimizer. *)
Lemma order_ids_is_Some (df_grouped : list order_row) z :
  is_Some (order_ids df_grouped !! z) ↔ ∃ o, o ∈ build_orders df_grouped ∧ o_id o = z.
Proof.
  split.
  - intros [name (idx & row & H & -> & _)%order_ids_lookup].
    apply build_orders_ids. eauto.
  - intros (idx & row & H & ->)%build_orders_ids.
    exists (CUSTOMER_NAME row). apply order_ids_lookup. eauto.
Qed.

Lemma lookup_order_none (df_grouped : list order_row) order_id :
  hashable order_id = true →
  lookup_order (order_ids df_grouped) order_id = Ok None
    ↔ ¬ submitted (build_orders df_grouped) order_id.
Proof.
  intros Hh. unfold lookup_order, submitted. rewrite Hh.
  destruct (int_value order_id) as [z|]; simpl.
  - split.
    + intros [= Hn] (o & Ho & [= ->]).
      assert (is_Some (order_ids df_grouped !! o_id o)) as [name Hs]
        by (apply order_ids_is_Some; eauto).
      congruence.
    + intros Hns. destruct (order_ids df_grouped !! z) as [name|] eqn:Hl; [|done].
      exfalso. apply Hns.
      destruct (proj1 (order_ids_is_Some df_grouped z)) as (o & Ho & <-); eauto.
  - split; [by intros _ (o & _ & [=])|done].
Qed.

Lemma lookup_order_some (df_grouped : list order_row) order_id :
  (∃ name, lookup_order (order_ids df_grouped) order_id = Ok (Some name))
    ↔ hashable order_id = true ∧ submitted (build_orders df_grouped) order_id.
Proof.
  unfold lookup_order, submitted.
  destruct (hashable order_id); [|split; [by intros [? [=]]|by intros [[=] _]]].
  destruct (int_value order_id) as [z|]; simpl;
    [|split; [by intros [? [=]]|by intros (_ & o & _ & [=])]].
  split.
  - intros [name [= Hs]].
    destruct (proj1 (order_ids_is_Some df_grouped z)) as (o & Ho & <-); eauto.
  - intros (_ & o & Ho & [= ->]).
    destruct (proj2 (order_ids_is_Some df_grouped (o_id o))) as [name Hs]; [eauto|].
    exists name. by rewrite Hs.
Qed.

Lemma recognized_submitted (df_grouped : list order_row) resp :
  recognized (order_ids df_grouped) resp = true ↔
  ∃ order_id, dict_get resp "id" = Some order_id ∧ hashable order_id = true ∧
              submitted (build_orders df_grouped) order_id.
Proof.
  unfold recognized, submitted.
  destruct (dict_get resp "id") as [order_id|]; [|split; [done|by intros (? & [=] & _)]].
  rewrite andb_true_iff, bool_decide_eq_true. split.
  - intros [Hh Hs]. exists order_id. split; [done|]. split; [done|].
    destruct (int_value order_id) as [z|]; simpl in Hs; [|by destruct Hs].
    destruct (proj1 (order_ids_is_Some df_grouped z) Hs) as (o & Ho & <-). eauto.
  - intros (? & [= <-] & Hh & o & Ho & Hv). split; [done|].
    rewrite Hv. simpl. apply order_ids_is_Some. eauto.
Qed.

Lemma order_id_of_unknown (df_grouped : list order_row) resp :
  (dict_get resp "id" = None ∨
   ∃ order_id, dict_get resp "id" = Some order_id ∧ hashable order_id = true ∧
               ¬ submitted (build_orders df_grouped) order_id) →
  order_id_of resp = None ∨
  ∃ order_id, order_id_of resp = Some order_id ∧
              lookup_order (order_ids df_grouped) order_id = Ok None.
Proof.
  unfold order_id_of. intros [->|(order_id & -> & Hh & Hs)]; [by left|].
  pose proof (proj2 (lookup_order_none df_grouped order_id Hh) Hs) as Hl.
  destruct order_id; first [by left|right; eexists; split; [reflexivity|exact Hl]].
Qed.

(** C10 (counterexample): an entry whose id is a list equals the id of
    no submitted order, yet it is not skipped: the membership test on
    it raises, which ends the assembly; the submission returns the
    failure of the top-level handler and the plan is never sent. *)
Lemma C10_unhashable_id_counterexample :
  dict_get entry_with_list_id "id" = Some (JList [JInt 7]) ∧
  ¬ submitted (build_orders two_customers) (JList [JInt 7]) ∧
  add_order flat_leg sample_net 101 1700000000 two_customers (order_ids two_customers)
            (coord_map_of two_customers) sample_state entry_with_list_id []
    = (Raise (TypeError "unhashable type"), []) ∧
  (send_orders_and_create_route flat_distance keep_order flat_leg 1700000300
     unhashable_net "token" 9 101 "KBX 123Z-TRUCK" two_customers
     1700000000 1700040000).1
    = failure (JInt 1) (UnexpectedError (TypeError "unhashable type")) ∧
  existsb is_update
    (send_orders_and_create_route flat_distance keep_order flat_leg 1700000300
       unhashable_net "token" 9 101 "KBX 123Z-TRUCK" two_customers
       1700000000 1700040000).2 = false.
Proof.
  split; [reflexivity|]. split; [by intros (o & _ & [=])|].
  repeat split; vm_compute; reflexivity.
Qed.

(** C10 (amended): a turn of the loop on an entry that has no id
    member, or whose id is null or a number, text or truth value equal
    to the id of no submitted order, returns the state it was given and
    calls nothing, so that the loop goes on with the next entry; an
    entry whose id is a list or an object makes the turn raise; a plan
    that [build_route] returns is the start depot, one customer stop for
    each recognized entry of the answer, with the id of that entry and
    in the order of the answer, and the end depot; the recognized
    entries are those whose id equals the id of a submitted order. *)
Theorem C10_unrecognized_entries_skipped :
  ∀ calc_dist net unit_id tf (df_grouped : list order_row),
    (∀ st resp t,
       (dict_get resp "id" = None ∨
        ∃ order_id, dict_get resp "id" = Some order_id ∧ hashable order_id = true ∧
                    ¬ submitted (build_orders df_grouped) order_id) →
       add_order calc_dist net unit_id tf df_grouped (order_ids df_grouped)
                 (coord_map_of df_grouped) st resp t = (Ok st, t)) ∧
    (∀ st resp t order_id,
       dict_get resp "id" = Some order_id → hashable order_id = false →
       add_order calc_dist net unit_id tf df_grouped (order_ids df_grouped)
                 (coord_map_of df_grouped) st resp t
         = (Raise (TypeError "unhashable type"), t)) ∧
    (∀ entries end_rp t plan t',
       build_route calc_dist net unit_id tf df_grouped entries end_rp t = (Ok plan, t') →
       ∃ start cs fin,
         plan = (start :: cs ++ [fin])%list ∧ s_f start = 260 ∧ s_f fin = 264 ∧
         Forall (λ c, s_f c = 0) cs ∧
         Some ∘ s_id <$> cs
           = (λ e, dict_get e "id")
               <$> filter (λ e, recognized (order_ids df_grouped) e = true) entries) ∧
    (∀ resp,
       recognized (order_ids df_grouped) resp = true ↔
       ∃ order_id, dict_get resp "id" = Some order_id ∧ hashable order_id = true ∧
                   submitted (build_orders df_grouped) order_id).
Proof.
  intros calc_dist net unit_id tf df_grouped. split; [|split; [|split]].
  - intros st resp t H. by apply add_order_skip, order_id_of_unknown.
  - intros st resp t order_id Hid Hh. unfold add_order, order_id_of, lookup_order.
    rewrite Hid. destruct order_id; try done.
  - intros entries end_rp t plan t' (cs & fin & -> & Hf & Hfin & _)%build_route_ok.
    eexists _, cs, fin. split; [reflexivity|]. split; [done|]. split; [done|].
    split; [by eapply follows_flags|].
    rewrite <- (follows_ids _ _ _ _ _ Hf). apply list_fmap_ext.
    intros i e [He _]%list_elem_of_lookup_2%list_elem_of_filter.
    rewrite recognized_lookup in He. unfold order_id_of in *.
    by destruct (dict_get e "id") as [[]|].
  - apply recognized_submitted.
Qed.

Lemma C10_unrecognized_entries_skipped_witness :
  add_order flat_leg sample_net 101 1700000000 two_customers (order_ids two_customers)
            (coord_map_of two_customers) sample_state (JDict [("id", JInt 5)]) []
    = (Ok sample_state, []) ∧
  ∃ start cs fin,
    sample_plan = (start :: cs ++ [fin])%list ∧ s_f start = 260 ∧ s_f fin = 264 ∧
    Forall (λ c, s_f c = 0) cs ∧
    Some ∘ s_id <$> cs = [Some (JInt 2); Some (JInt 1)].
Proof.
  pose proof (C10_unrecognized_entries_skipped flat_leg sample_net 101 1700000000
                two_customers) as (Hskip & _ & Hplan & _).
  split.
  - apply Hskip. right. exists (JInt 5). split; [reflexivity|]. split; [reflexivity|].
    intros (o & Ho & Hv). vm_compute in Ho.
    repeat (apply elem_of_cons in Ho as [->|Ho]; [discriminate Hv|]).
    by apply elem_of_nil in Ho.
  - apply (Hplan sample_entries (Some (JStr "ab_c")) [] sample_plan sample_calls).
    vm_compute. reflexivity.
Defined.

(** ** The calls of [send_orders_and_create_route] *)

Lemma osrm_not_update ext c : forallb is_osrm ext = true → c ∈ ext → is_update c = false.
Proof.
  induction ext as [|c' ext IH]; simpl; [by intros _ ?%elem_of_nil|].
  intros [Hc Hext]%andb_prop [->|Hin]%elem_of_cons; [by destruct c'|by apply IH].
Qed.

Ltac no_update H :=
  exfalso;
  repeat (apply elem_of_cons in H as [H|H]; [discriminate H|]);
  by apply elem_of_nil in H.

Ltac io_step :=
  unfold mbind at 1; unfold io_bind, request, lift; simpl.

Lemma send_orders_body_update calculate_distance sort_values calc_dist now net
    token resource_id unit_id vehicle_name df_grouped tf tt item plan uid sum :
  RouteUpdate item plan uid sum ∈
    (send_orders_body calculate_distance sort_values calc_dist now net
       token resource_id unit_id vehicle_name df_grouped tf tt []).2 →
  ∃ df' entries end_rp t t',
    build_route calc_dist net unit_id tf df' entries end_rp t = (Ok plan, t').
Proof.
  unfold send_orders_body. io_step.
  destruct (login_response net) as [login_result|e]; simpl; [|intros H; no_update H].
  destruct (dict_get login_result "eid") as [session_id|]; simpl; [|intros H; no_update H].
  io_step.
  destruct (sorted_by_distance _ _ _) as [df'|e]; simpl; [|intros H; no_update H].
  io_step.
  destruct (optimize_response net) as [optimize_result|e]; simpl; [|intros H; no_update H].
  destruct (is_dict optimize_result && _); simpl; [intros H; no_update H|].
  io_step.
  destruct (read_optimize_result unit_id optimize_result) as [[[orders rs] end_rp]|e];
    simpl; [|intros H; no_update H].
  destruct (truthy orders); simpl; [|intros H; no_update H].
  io_step.
  destruct (iterate orders) as [entries|e]; simpl; [|intros H; no_update H].
  io_step.
  match goal with |- context [build_route _ _ _ _ _ _ _ ?t] => set (t0 := t) end.
  destruct (only_osrm_build_route calc_dist net unit_id tf df' entries end_rp t0)
    as (ext & Hext & Hosrm).
  destruct (build_route calc_dist net unit_id tf df' entries end_rp t0)
    as [[plan'|e] t1] eqn:Hb; simpl in Hext; subst t1; simpl.
  - io_step. assert (∀ (r : exn json) c, c ∈ (r, (t0 ++ ext ++ [RouteUpdate resource_id plan' now
                 (summarize plan' rs)])%list).2 → is_update c = true →
               c = RouteUpdate resource_id plan' now (summarize plan' rs)) as Hlast.
    { intros r c [H|[H|H]%elem_of_app]%elem_of_app Hc; simpl in *.
      - unfold t0 in H. exfalso.
        repeat (apply elem_of_cons in H as [->|H]; [discriminate Hc|]).
        by apply elem_of_nil in H.
      - apply (osrm_not_update _ _ Hosrm) in H. congruence.
      - by apply list_elem_of_singleton in H. }
    intros H. assert (RouteUpdate item plan uid sum
                      = RouteUpdate resource_id plan' now (summarize plan' rs)) as Heq.
    { apply (Hlast (route_response net)); [|done]. simpl. unfold t0.
      destruct (route_response net); simpl in *; exact H. }
    injection Heq as _ -> _ _. eauto 10.
  - intros H. unfold t0 in H. simpl in H.
    repeat (apply elem_of_cons in H as [H|H]; [discriminate H|]).
    by apply (osrm_not_update _ _ Hosrm) in H.
Qed.

(** ** The shape of the plan *)

Lemma filter_flag (cs : list stop) n :
  Forall (λ c, s_f c = 0) cs → n ≠ 0 → filter (λ s, s_f s = n) cs = [].
Proof.
  intros Hcs Hn. apply filter_none. intros c Hc.
  rewrite Forall_forall in Hcs. rewrite (Hcs c Hc). congruence.
Qed.

Lemma indices_seqZ (l : list Z) : ∀ m,
  (∀ k z, l !! k = Some z → z = m + Z.of_nat k) → l = seqZ m (Z.of_nat (length l)).
Proof.
  induction l as [|z l IH]; intros m Hl; [done|].
  simpl length. rewrite Nat2Z.inj_succ, seqZ_cons by lia.
  rewrite (Hl 0%nat z eq_refl), Z.add_0_r. f_equal.
  replace (Z.pred (Z.succ (Z.of_nat (length l)))) with (Z.of_nat (length l)) by lia.
  apply IH. intros k z' Hk. rewrite (Hl (S k) z' Hk). lia.
Qed.

Lemma build_route_shape calc_dist net unit_id tf df_grouped entries end_rp t plan t' :
  build_route calc_dist net unit_id tf df_grouped entries end_rp t = (Ok plan, t') →
  ∃ start customers finish,
    plan = (start :: customers ++ [finish])%list ∧
    s_f start = 260 ∧ s_i start = 0 ∧ s_f finish = 264 ∧
    Forall (λ c, s_f c = 0) customers ∧
    filter (λ s, s_f s = 260) plan = [start] ∧
    filter (λ s, s_f s = 264) plan = [finish] ∧
    length plan = (length customers + 2)%nat ∧
    s_i <$> plan = seqZ 0 (Z.of_nat (length customers) + 2).
Proof.
  intros (cs & fin & -> & Hf & Hfin & _ & Hi)%build_route_ok.
  pose proof (follows_flags _ _ _ _ _ Hf) as Hflags.
  destruct (follows_index _ _ _ _ _ Hf) as [Hk He].
  eexists _, cs, fin. split; [reflexivity|].
  split; [done|]. split; [done|]. split; [done|]. split; [done|].
  split; [|split; [|split]].
  - rewrite filter_cons_True by done. rewrite filter_app, filter_flag by done.
    by rewrite filter_cons_False by (rewrite Hfin; done).
  - rewrite filter_cons_False by done. rewrite filter_app, filter_flag by done.
    by rewrite filter_cons_True.
  - simpl. rewrite length_app. simpl. lia.
  - replace (Z.of_nat (length cs) + 2) with
      (Z.of_nat (length (s_i <$> depot_stop unit_id (JInt 0) 260 tf 0 0 None :: cs ++ [fin])%list)).
    2: { rewrite length_fmap. simpl. rewrite length_app. simpl. lia. }
    apply indices_seqZ. intros k z. rewrite list_lookup_fmap.
    destruct k as [|k]; simpl; [by intros [= <-]|].
    destruct (decide (k < length cs)%nat) as [Hlt|Hge].
    + rewrite lookup_app_l by done.
      destruct (cs !! k) as [c|] eqn:Hc; simpl; [|done].
      intros [= <-]. rewrite (Hk k c Hc). lia.
    + destruct (decide (k = length cs)) as [->|Hne].
      * rewrite list_lookup_middle by done. simpl. intros [= <-]. rewrite Hi, He. lia.
      * rewrite lookup_ge_None_2; [done|]. rewrite length_app. simpl. lia.
Qed.

(** C1: every plan that [send_orders_and_create_route] sends to be
    saved is a start depot (flag 260) with index 0, then customer stops
    (flag 0), then an end depot (flag 264); no other stop carries either
    depot flag; with n customer stops it has n + 2 stops, whose indices
    are 0, 1, ..., n + 1.  For the two deliveries of the sample workbook
    the plan sent has 4 stops with the indices 0 to 3 and the total
    weight 3000. *)
Theorem C1_plan_bracketed_by_depots :
  (∀ calculate_distance sort_values calc_dist now net token resource_id unit_id
     vehicle_name df_grouped tf tt item plan uid sum,
     RouteUpdate item plan uid sum ∈
       (send_orders_and_create_route calculate_distance sort_values calc_dist now net
          token resource_id unit_id vehicle_name df_grouped tf tt).2 →
     ∃ start customers finish,
       plan = (start :: customers ++ [finish])%list ∧
       s_f start = 260 ∧ s_i start = 0 ∧ s_f finish = 264 ∧
       Forall (λ c, s_f c = 0) customers ∧
       filter (λ s, s_f s = 260) plan = [start] ∧
       filter (λ s, s_f s = 264) plan = [finish] ∧
       length plan = (length customers + 2)%nat ∧
       s_i <$> plan = seqZ 0 (Z.of_nat (length customers) + 2)) ∧
  (∃ plan sum,
     RouteUpdate 9 plan 1700000300 sum ∈
       (run_wialon_uploader flat_distance keep_order flat_leg 1700000300 sample_net
          [sheet_two_customers] (Some assets_sample) "token" "9"
          1700000000 1700040000).2 ∧
     s_f <$> plan = [260; 0; 0; 264] ∧ s_i <$> plan = [0; 1; 2; 3] ∧ weight sum = 3000).
Proof.
  split.
  - intros calculate_distance sort_values calc_dist now net token resource_id unit_id
           vehicle_name df_grouped tf tt item plan uid sum Hin.
    assert (RouteUpdate item plan uid sum ∈
              (send_orders_body calculate_distance sort_values calc_dist now net
                 token resource_id unit_id vehicle_name df_grouped tf tt []).2) as Hbody.
    { unfold send_orders_and_create_route in Hin.
      by destruct (send_orders_body _ _ _ _ _ _ _ _ _ _ _ _ _) as [[r|e] calls]. }
    apply send_orders_body_update in Hbody as (df' & entries & end_rp & t & t' & Hb).
    by eapply build_route_shape.
  - eexists _, _. split; [vm_compute; repeat constructor|]. by vm_compute.
Qed.

Lemma C1_plan_bracketed_by_depots_witness :
  ∃ start customers finish,
    sample_plan = (start :: customers ++ [finish])%list ∧
    s_f start = 260 ∧ s_i start = 0 ∧ s_f finish = 264 ∧
    Forall (λ c, s_f c = 0) customers ∧
    filter (λ s, s_f s = 260) sample_plan = [start] ∧
    filter (λ s, s_f s = 264) sample_plan = [finish] ∧
    length sample_plan = (length customers + 2)%nat ∧
    s_i <$> sample_plan = seqZ 0 (Z.of_nat (length customers) + 2).
Proof.
  eapply (proj1 C1_plan_bracketed_by_depots flat_distance keep_order flat_leg 1700000300
            sample_net "token" 9 101 "KBX 123Z-TRUCK" two_customers
            1700000000 1700040000 9 sample_plan 1700000300).
  vm_compute. repeat constructor.
Defined.

(** ** Failures of the optimizer *)

Lemma read_optimize_result_empty unit_id optimize_result :
  orders_missing_or_empty unit_id optimize_result = true →
  match read_optimize_result unit_id optimize_result with
  | Ok (orders, _, _) =>
      truthy orders = false ∧ entry_readable unit_id optimize_result = true
  | Raise _ => entry_readable unit_id optimize_result = false
  end.
Proof.
  unfold orders_missing_or_empty, entry_readable, read_optimize_result.
  destruct (dict_get optimize_result (pretty unit_id)) as [unit_obj|]; [|done].
  destruct unit_obj as [| | | | | |d]; try done. simpl.
  intros Ho%negb_true_iff.
  assert (truthy (default (JList []) (assoc "orders" d)) = false) as Hf
    by (by destruct (assoc "orders" d)).
  rewrite Hf. destruct (assoc "routes" d) as [routes|]; simpl; [|done].
  destruct (truthy routes); simpl; [|done].
  by destruct (first_item routes).
Qed.

(** C7 (counterexample): the answer of the optimizer reports no error
    and holds no order list for the unit, once because the entry of the
    unit is null and once because the entry has an empty list and a
    number for its routes; in both cases reading the entry raises, and
    what is returned is the failure of the top-level handler, not "No
    optimized orders in response". *)
Lemma C7_unreadable_entry_counterexample :
  orders_missing_or_empty 101 null_entry = true ∧
  (send_orders_and_create_route flat_distance keep_order flat_leg 1700000300
     (answering null_entry) "token" 9 101 "KBX 123Z-TRUCK" two_customers
     1700000000 1700040000).1
    = failure (JInt 1) (UnexpectedError (AttributeError "object has no attribute 'get'")) ∧
  orders_missing_or_empty 101 odd_routes = true ∧
  (send_orders_and_create_route flat_distance keep_order flat_leg 1700000300
     (answering odd_routes) "token" 9 101 "KBX 123Z-TRUCK" two_customers
     1700000000 1700040000).1
    = failure (JInt 1) (UnexpectedError (TypeError "object is not subscriptable")).
Proof. repeat split; vm_compute; reflexivity. Qed.

(** C7 (amended): once the optimize call has been made and answered, a
    nonzero error code in the answer makes [send_orders_and_create_route]
    return the failure with that code and the reason given with it (or
    the text that stands for a missing reason), and no route update is
    called; when the answer reports no error and the order list of the
    unit is missing or empty, no route update is called either; the
    failure returned is then "No optimized orders in response" if the
    entry of the unit can be read (there is none, or it is an object
    whose routes, if they count as true, can be indexed), and the
    failure of the top-level handler if it cannot. *)
Theorem C7_optimize_failure_stops_before_batch :
  ∀ calculate_distance sort_values calc_dist now net token resource_id unit_id
    vehicle_name df_grouped tf tt optimize_result,
    let run := send_orders_and_create_route calculate_distance sort_values calc_dist
                 now net token resource_id unit_id vehicle_name df_grouped tf tt in
    optimize_response net = Ok optimize_result →
    existsb is_optimize run.2 = true →
    (∀ code,
       dict_get optimize_result "error" = Some code → eq_int code 0 = false →
       run.1 = failure code (Reason (default (JStr "Optimization failed")
                                             (dict_get optimize_result "reason"))) ∧
       existsb is_update run.2 = false) ∧
    ((∀ code, dict_get optimize_result "error" = Some code → eq_int code 0 = true) →
     orders_missing_or_empty unit_id optimize_result = true →
     existsb is_update run.2 = false ∧
     (entry_readable unit_id optimize_result = true →
      run.1 = failure (JInt 1) (Text "No optimized orders in response")) ∧
     (entry_readable unit_id optimize_result = false →
      ∃ e, run.1 = failure (JInt 1) (UnexpectedError e))).
Proof.
  intros calculate_distance sort_values calc_dist now net token resource_id unit_id
         vehicle_name df_grouped tf tt optimize_result run Hopt.
  assert (run = send_orders_and_create_route calculate_distance sort_values calc_dist
                  now net token resource_id unit_id vehicle_name df_grouped tf tt)
    as Hrun by reflexivity.
  clearbody run. revert Hrun.
  unfold send_orders_and_create_route, send_orders_body. io_step.
  destruct (login_response net) as [login_result|e]; simpl; [|by intros ->].
  destruct (dict_get login_result "eid") as [session_id|]; simpl; [|by intros ->].
  io_step.
  destruct (sorted_by_distance _ _ _) as [df'|e]; simpl; [|by intros ->].
  io_step. rewrite Hopt. simpl. intros Hrun _. split.
  - intros code Hcode Hnz. revert Hrun.
    destruct optimize_result as [| | | | | |d]; try done. simpl in *.
    rewrite Hcode. simpl. rewrite Hnz. simpl. by intros ->.
  - intros Hzero Hempty. revert Hrun.
    match goal with |- context [if ?c then _ else _] =>
      assert (c = false) as -> end.
    { destruct optimize_result as [| | | | | |d]; try done. simpl in *.
      destruct (assoc "error" d) as [code|] eqn:Hcode; simpl; [|done].
      by rewrite (Hzero code eq_refl). }
    io_step. pose proof (read_optimize_result_empty _ _ Hempty) as Hread.
    destruct (read_optimize_result unit_id optimize_result) as [[[orders rs] end_rp]|e];
      simpl.
    + destruct Hread as [Hread Hok]. rewrite Hread. simpl. intros ->.
      split; [done|]. split; [done|]. congruence.
    + intros ->. split; [done|]. split; [congruence|]. eauto.
Qed.

Lemma C7_optimize_failure_stops_before_batch_witness :
  (let run := send_orders_and_create_route flat_distance keep_order flat_leg 1700000300
                refusing_net "token" 9 101 "KBX 123Z-TRUCK" two_customers
                1700000000 1700040000 in
   run.1 = failure (JInt 4) (Reason (JStr "VALIDATE_PARAMS_ERROR")) ∧
   existsb is_update run.2 = false) ∧
  (let run := send_orders_and_create_route flat_distance keep_order flat_leg 1700000300
                (answering no_orders) "token" 9 101 "KBX 123Z-TRUCK" two_customers
                1700000000 1700040000 in
   existsb is_update run.2 = false ∧
   run.1 = failure (JInt 1) (Text "No optimized orders in response")).
Proof.
  cbv zeta. split.
  - refine (proj1 (C7_optimize_failure_stops_before_batch flat_distance keep_order flat_leg
                     1700000300 refusing_net "token" 9 101 "KBX 123Z-TRUCK" two_customers
                     1700000000 1700040000
                     (JDict [("error", JInt 4); ("reason", JStr "VALIDATE_PARAMS_ERROR")])
                     _ _) (JInt 4) _ _).
    + reflexivity.
    + vm_compute. reflexivity.
    + reflexivity.
    + reflexivity.
  - destruct (proj2 (C7_optimize_failure_stops_before_batch flat_distance keep_order
                       flat_leg 1700000300 (answering no_orders) "token" 9 101
                       "KBX 123Z-TRUCK" two_customers 1700000000 1700040000 no_orders
                       eq_refl eq_refl))
      as (Hnone & Hmsg & _).
    + intros code Hcode. discriminate Hcode.
    + reflexivity.
    + split; [exact Hnone|]. apply Hmsg. reflexivity.
Defined.

(** * Further properties *)

(** ** More on texts *)

Lemma eqc_eq a b : Py.eqc a b = true → a = b.
Proof.
  unfold Py.eqc, Py.code. intros H%N.eqb_eq.
  by rewrite <- (ascii_N_embedding a), <- (ascii_N_embedding b), H.
Qed.

Lemma startswith_inv t : ∀ s, Py.startswith t s = true → ∃ post, s = t ++ post.
Proof.
  induction t as [|c t IH]; intros s; [by exists s|].
  destruct s as [|c' s]; simpl; [done|].
  intros [->%eqc_eq [post ->]%IH]%andb_prop. by exists post.
Qed.

Lemma contains_inv t : ∀ s, Py.contains t s = true → ∃ pre post, s = pre ++ t ++ post.
Proof.
  induction s as [|c s IH]; simpl.
  - rewrite orb_false_r. intros [post ->]%startswith_inv. by exists "", post.
  - intros [[post ->]%startswith_inv|[pre [post ->]]%IH]%orb_prop.
    + by exists "", post.
    + by exists (String c pre), post.
Qed.

Lemma contains_trans a b c :
  Py.contains a b = true → Py.contains b c = true → Py.contains a c = true.
Proof.
  intros Hab (pre & post & ->)%contains_inv. by apply contains_app_r, contains_app_l.
Qed.

(** ** Normalized plates *)

Lemma plate_symbol_upper c : plate_symbol c = true → Py.upper_char c = c.
Proof. destruct c as [[] [] [] [] [] [] [] []]; vm_compute; congruence. Qed.

Lemma upper_lower_char c : Py.upper_char (Py.lower_char c) = Py.upper_char c.
Proof. destruct c as [[] [] [] [] [] [] [] []]; vm_compute; congruence. Qed.

Lemma filter_str_all p s : Py.all_str p (Py.filter_str p s) = true.
Proof.
  induction s as [|c s IH]; simpl; [done|].
  destruct (p c) eqn:Hc; simpl; [by rewrite Hc|done].
Qed.

Lemma filter_str_id p s : Py.all_str p s = true → Py.filter_str p s = s.
Proof.
  induction s as [|c s IH]; simpl; [done|].
  intros [-> Hs]%andb_prop. by rewrite IH.
Qed.

Lemma map_str_id f p s :
  (∀ c, p c = true → f c = c) → Py.all_str p s = true → Py.map_str f s = s.
Proof.
  intros Hf. induction s as [|c s IH]; simpl; [done|].
  intros [Hc Hs]%andb_prop. by rewrite (Hf c Hc), IH.
Qed.

Lemma map_str_app f a b : Py.map_str f (a ++ b) = Py.map_str f a ++ Py.map_str f b.
Proof. induction a as [|c a IH]; [done|]. rewrite !append_cons. simpl. by rewrite IH. Qed.

Lemma filter_str_app p a b : Py.filter_str p (a ++ b) = Py.filter_str p a ++ Py.filter_str p b.
Proof.
  induction a as [|c a IH]; [done|]. rewrite append_cons. simpl.
  destruct (p c); [rewrite append_cons|]; by rewrite IH.
Qed.

Lemma normalize_plate_symbols s : Py.all_str plate_symbol (normalize_plate s) = true.
Proof. apply filter_str_all. Qed.

Lemma normalize_plate_fixed s : Py.all_str plate_symbol s = true → normalize_plate s = s.
Proof.
  intros Hs. unfold normalize_plate, Py.upper.
  rewrite (map_str_id _ plate_symbol) by (done || apply plate_symbol_upper).
  by apply filter_str_id.
Qed.

(** X1: a normalized plate consists of the characters A-Z and 0-9 only,
    and these are exactly the texts that [normalize_plate] leaves as
    they are, so that normalizing twice is normalizing once;
    [normalize_plate] does not see the case of the letters; and the
    normalized form of a text made of two parts is made of the
    normalized forms of the parts. *)
Theorem X1_normalize_plate_canonical :
  ∀ s t : string,
    Py.all_str plate_symbol (normalize_plate s) = true ∧
    (normalize_plate s = s ↔ Py.all_str plate_symbol s = true) ∧
    normalize_plate (normalize_plate s) = normalize_plate s ∧
    normalize_plate (Py.lower s) = normalize_plate s ∧
    normalize_plate (s ++ t) = normalize_plate s ++ normalize_plate t.
Proof.
  intros s t. split; [apply normalize_plate_symbols|]. split; [|split; [|split]].
  - split; [|apply normalize_plate_fixed].
    intros <-. apply normalize_plate_symbols.
  - apply normalize_plate_fixed, normalize_plate_symbols.
  - unfold normalize_plate, Py.upper, Py.lower. f_equal.
    induction s as [|c s IH]; simpl; [done|].
    by rewrite upper_lower_char, IH.
  - unfold normalize_plate, Py.upper. by rewrite map_str_app, filter_str_app.
Qed.

(** *** Texts without a truck number *)

Lemma rep_none (P : string → Prop) p :
  (∀ c s, P (String c s) → P s) →
  ∀ s lo hi prev k,
    P s → (∀ prev' s', P s' → k prev' s' = None) → rep p lo hi prev s k = None.
Proof.
  intros HP. induction s as [|c s IH]; intros lo hi prev k Hs Hk; simpl.
  - destruct lo; [by apply Hk|done].
  - rewrite (IH _ _ _ _ (HP _ _ Hs) Hk).
    destruct (p c && may_take hi); destruct lo; try done; by apply Hk.
Qed.

Lemma run_none (P : string → Prop) :
  (∀ c s, P (String c s) → P s) →
  ∀ r prev s g k,
    P s → (∀ prev' s' g', P s' → k prev' s' g' = None) → run r prev s g k = None.
Proof.
  intros HP. induction r as [p|r1 IH1 r2 IH2|r1 IH1 r2 IH2|r IH|p lo hi|r IH|];
    intros prev s g k Hs Hk; simpl.
  - destruct s as [|c s]; [done|]. destruct (p c); [|done]. eapply Hk, HP, Hs.
  - apply IH1; [done|]. intros prev' s' g' Hs'. by apply IH2.
  - rewrite IH1 by done. by apply IH2.
  - rewrite IH by done. by apply Hk.
  - apply (rep_none P); [done..|]. intros prev' s' Hs'. by apply Hk.
  - apply IH; [done|]. intros prev' s' _ Hs'. by apply Hk.
  - destruct (xorb _ _); [by apply Hk|done].
Qed.

Lemma search_from_none (P : string → Prop) r :
  (∀ c s, P (String c s) → P s) →
  (∀ prev s g k, P s → run r prev s g k = None) →
  ∀ s prev, P s → search_from r prev s = None.
Proof.
  intros HP Hr. induction s as [|c s IH]; intros prev Hs; simpl; rewrite Hr by done; [done|].
  eapply IH, HP, Hs.
Qed.

Lemma eqc_sym a b : Py.eqc a b = Py.eqc b a.
Proof. unfold Py.eqc. apply N.eqb_sym. Qed.

(** A literal word does not match where the text, in upper case, does
    not start with the word in upper case. *)
Lemma lit_from_none w : ∀ c prev s g k,
  Py.startswith (Py.upper (String c w)) (Py.upper s) = false →
  run (lit_from c w) prev s g k = None.
Proof.
  induction w as [|c' w IH]; intros c prev [|x s] g k; simpl; try done.
  - rewrite andb_true_r, eqc_sym. by intros ->.
  - rewrite (eqc_sym (Py.upper_char c)). destruct (Py.eqc _ _); [|done]. simpl. apply IH.
Qed.

Lemma no_truck_word_tail c s : no_truck_word (String c s) → no_truck_word s.
Proof. unfold no_truck_word. simpl. by intros [_ ?]%orb_false_elim. Qed.

Lemma labelled_none text : no_truck_word text → search labelled_pattern text = None.
Proof.
  apply (search_from_none no_truck_word); [apply no_truck_word_tail|].
  intros prev s g k Hs. unfold labelled_pattern.
  change (run (Seq (lit "Truck") ?r) prev s g k)
    with (run (lit "Truck") prev s g (λ prev' s' g', run r prev' s' g' k)).
  apply lit_from_none. unfold no_truck_word in Hs.
  destruct s as [|c s]; [done|]. simpl in Hs. by apply orb_false_elim in Hs as [? _].
Qed.

Lemma all_str_tail p c s : Py.all_str p (String c s) = true → Py.all_str p s = true.
Proof. simpl. by intros [_ ?]%andb_prop. Qed.

Lemma rep_needs_one p lo hi prev s k :
  Py.all_str (λ c, negb (p c)) s = true → rep p (S lo) hi prev s k = None.
Proof. destruct s as [|c s]; simpl; [done|]. intros [->%negb_true_iff _]%andb_prop. done. Qed.

Lemma bare_none text :
  Py.all_str (λ c, negb (Py.is_digit c)) text = true ∨
  Py.all_str (λ c, negb (Py.is_alpha c)) text = true →
  search bare_pattern text = None.
Proof.
  intros [Hd|Ha].
  - revert Hd. apply (search_from_none (λ s, Py.all_str (λ c, negb (Py.is_digit c)) s = true));
      [apply all_str_tail|].
    intros prev s g k Hs. unfold bare_pattern. simpl run.
    destruct (xorb _ _); [|done].
    apply (rep_none (λ s, Py.all_str (λ c, negb (Py.is_digit c)) s = true));
      [apply all_str_tail|done|].
    intros prev1 s1 Hs1. unfold ws. simpl run.
    apply (rep_none (λ s, Py.all_str (λ c, negb (Py.is_digit c)) s = true));
      [apply all_str_tail|done|].
    intros prev2 s2 Hs2. by apply rep_needs_one.
  - revert Ha. apply (search_from_none (λ s, Py.all_str (λ c, negb (Py.is_alpha c)) s = true));
      [apply all_str_tail|].
    intros prev s g k Hs. unfold bare_pattern. simpl run.
    destruct (xorb _ _); [|done]. by apply rep_needs_one.
Qed.

(** X2: whatever [extract_truck_number_from_text] returns is in
    normalized form: it consists of the characters A-Z and 0-9 only and
    [normalize_plate] leaves it as it is. *)
Theorem X2_extracted_number_is_normalized :
  ∀ text t : string,
    extract_truck_number_from_text text = Some t →
    Py.all_str plate_symbol t = true ∧ normalize_plate t = t.
Proof.
  intros text t. unfold extract_truck_number_from_text.
  assert (∀ g, Py.all_str plate_symbol (normalized_group g) = true) as Hg.
  { intros [x|]; [apply normalize_plate_symbols|done]. }
  generalize patterns. intros pats.
  induction pats as [|pat pats IH]; simpl; [done|].
  destruct (search pat text) as [g|]; [|done].
  intros [= <-]. split; [done|]. by apply normalize_plate_fixed.
Qed.

Lemma X2_extracted_number_is_normalized_witness :
  Py.all_str plate_symbol "KBX123Z" = true ∧ normalize_plate "KBX123Z" = "KBX123Z".
Proof.
  apply (X2_extracted_number_is_normalized "Truck: kbx-123 z" "KBX123Z").
  vm_compute. reflexivity.
Defined.

(** X3: a text in which the word TRUCK does not occur, in whatever
    case, and which has no digit or has no letter yields no truck
    number: neither pattern matches it. *)
Theorem X3_no_truck_number_in_plain_text :
  ∀ text : string,
    Py.contains "TRUCK" (Py.upper text) = false →
    Py.all_str (λ c, negb (Py.is_digit c)) text = true ∨
    Py.all_str (λ c, negb (Py.is_alpha c)) text = true →
    extract_truck_number_from_text text = None.
Proof.
  intros text Ht Hc.
  unfold extract_truck_number_from_text, patterns, first_match.
  by rewrite (labelled_none text Ht), (bare_none text Hc).
Qed.

Lemma X3_no_truck_number_in_plain_text_witness :
  extract_truck_number_from_text "DISPATCH SHEET" = None ∧
  extract_truck_number_from_text "12345" = None.
Proof.
  split; apply X3_no_truck_number_in_plain_text;
    first [ vm_compute; reflexivity | left; vm_compute; reflexivity | right; vm_compute; reflexivity ].
Defined.

(** ** Bare plates and labels *)

(** *** Bare plates *)

Lemma count_alpha_app a b : count_alpha (a ++ b) = (count_alpha a + count_alpha b)%nat.
Proof. induction a as [|c a IH]; [done|]. rewrite append_cons. simpl. rewrite IH. lia. Qed.

Lemma count_alpha_all s : Py.all_str Py.is_alpha s = true → count_alpha s = String.length s.
Proof.
  induction s as [|c s IH]; simpl; [done|]. intros [-> Hs]%andb_prop. by rewrite IH.
Qed.

Lemma count_alpha_none p s :
  (∀ c, p c = true → Py.is_alpha c = false) → Py.all_str p s = true → count_alpha s = 0%nat.
Proof.
  intros Hp. induction s as [|c s IH]; simpl; [done|].
  intros [Hc Hs]%andb_prop. by rewrite (Hp c Hc), IH.
Qed.

Lemma ci_alpha (x c : ascii) :
  Py.is_alpha c = true → Py.eqc c (Py.upper_char x) = true → Py.is_alpha x = true.
Proof.
  intros Hc ->%eqc_eq. revert Hc.
  destruct x as [[] [] [] [] [] [] [] []]; vm_compute; congruence.
Qed.

(** The word TRUCK needs five letters. *)
Lemma truck_word_letters s :
  Py.startswith "TRUCK" (Py.upper s) = true → (5 ≤ count_alpha s)%nat.
Proof.
  destruct s as [|c1 [|c2 [|c3 [|c4 [|c5 s]]]]]; simpl; try done;
    rewrite ?andb_false_r; try done.
  intros [H1 [H2 [H3 [H4 [H5 _]%andb_prop]%andb_prop]%andb_prop]%andb_prop]%andb_prop.
  apply ci_alpha in H1, H2, H3, H4, H5; try done.
  rewrite H1, H2, H3, H4, H5. lia.
Qed.

Lemma few_letters_no_truck text : (count_alpha text ≤ 4)%nat → no_truck_word text.
Proof.
  unfold no_truck_word. induction text as [|c text IH]; [done|]. intros Hc.
  change (Py.upper (String c text)) with (String (Py.upper_char c) (Py.upper text)).
  cbn [Py.contains]. apply orb_false_intro.
  - destruct (Py.startswith "TRUCK" (String (Py.upper_char c) (Py.upper text))) eqn:Hs; [|done].
    apply (truck_word_letters (String c text)) in Hs. lia.
  - apply IH. simpl in Hc. lia.
Qed.

(** A repetition takes a whole run of its class when what follows is
    not of the class, or when the run is as long as the repetition may
    be. *)
Lemma rep_take p u : ∀ lo hi prev rest k o,
  Py.all_str p u = true → (lo ≤ String.length u)%nat →
  match hi with Some h => (String.length u ≤ h)%nat | None => True end →
  head_is p rest = false ∨ hi = Some (String.length u) →
  k (last_char prev u) rest = Some o →
  rep p lo hi prev (u ++ rest) k = Some o.
Proof.
  induction u as [|c u IH]; intros lo hi prev rest k o Hall Hlo Hhi Hstop Hk.
  - rewrite append_nil. simpl in *. assert (lo = 0%nat) as -> by lia.
    destruct rest as [|c rest]; simpl; [done|].
    destruct Hstop as [Hc| ->]; [simpl in Hc; by rewrite Hc|].
    by rewrite andb_false_r.
  - rewrite append_cons. simpl in *. apply andb_prop in Hall as [Hc Hall].
    rewrite Hc. assert (may_take hi = true) as ->.
    { destruct hi as [[|h]|]; simpl in *; [lia|done|done]. }
    simpl. rewrite (IH (Nat.pred lo) (Nat.pred <$> hi) (Some c) rest k o); try done.
    + lia.
    + destruct hi as [h|]; simpl in *; [lia|done].
    + destruct Hstop as [?| ->]; [by left|by right].
Qed.

Lemma head_is_app p q u rest :
  (∀ c, q c = true → p c = false) → Py.all_str q u = true →
  head_is p rest = false → head_is p (u ++ rest) = false.
Proof.
  intros Hq Hu Hrest. destruct u as [|c u]; [done|].
  rewrite append_cons. simpl in *. apply andb_prop in Hu as [Hc _]. by apply Hq.
Qed.

Lemma space_not_alpha c : Py.is_space c = true → Py.is_alpha c = false.
Proof. destruct c as [[] [] [] [] [] [] [] []]; vm_compute; congruence. Qed.

Lemma digit_not_alpha c : Py.is_digit c = true → Py.is_alpha c = false.
Proof. destruct c as [[] [] [] [] [] [] [] []]; vm_compute; congruence. Qed.

Lemma digit_not_space c : Py.is_digit c = true → Py.is_space c = false.
Proof. destruct c as [[] [] [] [] [] [] [] []]; vm_compute; congruence. Qed.

Lemma space_not_digit c : Py.is_space c = true → Py.is_digit c = false.
Proof. destruct c as [[] [] [] [] [] [] [] []]; vm_compute; congruence. Qed.

Lemma alpha_not_digit c : Py.is_alpha c = true → Py.is_digit c = false.
Proof. destruct c as [[] [] [] [] [] [] [] []]; vm_compute; congruence. Qed.

Lemma alpha_not_space c : Py.is_alpha c = true → Py.is_space c = false.
Proof. destruct c as [[] [] [] [] [] [] [] []]; vm_compute; congruence. Qed.

Lemma alpha_is_word c : Py.is_alpha c = true → Py.is_word c = true.
Proof. destruct c as [[] [] [] [] [] [] [] []]; vm_compute; congruence. Qed.

Lemma last_char_app prev a b : last_char prev (a ++ b) = last_char (last_char prev a) b.
Proof. revert prev. induction a as [|c a IH]; intros prev; [done|]. rewrite append_cons. apply IH. Qed.

Lemma bare_match (l g1 d g2 : string) (c : ascii) :
  Py.all_str Py.is_alpha l = true → (2 ≤ String.length l ≤ 3)%nat →
  Py.all_str Py.is_space g1 = true →
  Py.all_str Py.is_digit d = true → (3 ≤ String.length d ≤ 4)%nat →
  Py.all_str Py.is_space g2 = true →
  Py.is_alpha c = true →
  let text := l ++ g1 ++ d ++ g2 ++ String c "" in
  search bare_pattern text = Some (Some text).
Proof.
  intros Hl Hll Hg1 Hd Hdl Hg2 Hc text. unfold search. apply search_hit.
  unfold bare_pattern. apply seq_ok.
  assert (word_after text = true) as Hwa.
  { unfold text. destruct l as [|c1 l]; [simpl in Hll; lia|].
    rewrite append_cons. simpl in *. apply andb_prop in Hl as [H1 _]. by apply alpha_is_word. }
  cbn [run]. cbn [word_before]. rewrite Hwa. cbn [xorb].
  unfold ws. unfold text at 1.
  assert (head_is Py.is_space (String c "") = false) as H5
    by (simpl; by apply alpha_not_space).
  assert (head_is Py.is_digit (g2 ++ String c "") = false) as H4.
  { apply (head_is_app _ Py.is_space); [apply space_not_digit|done|].
    simpl. by apply alpha_not_digit. }
  assert (head_is Py.is_space (d ++ g2 ++ String c "") = false) as H3.
  { destruct d as [|d1 d]; [simpl in Hdl; lia|]. rewrite append_cons. simpl in *.
    apply andb_prop in Hd as [? _]. by apply digit_not_space. }
  assert (head_is Py.is_alpha (g1 ++ d ++ g2 ++ String c "") = false) as H2.
  { apply (head_is_app _ Py.is_space); [apply space_not_alpha|done|].
    destruct d as [|d1 d]; [simpl in Hdl; lia|]. rewrite append_cons. simpl in *.
    apply andb_prop in Hd as [? _]. by apply digit_not_alpha. }
  apply rep_take; [done|lia|lia|by left|].
  apply rep_take; [done|lia|done|by left|].
  apply rep_take; [done|lia|lia|by left|].
  apply rep_take; [done|lia|done|by left|].
  rewrite Hc. cbn [word_before word_after]. rewrite (alpha_is_word c Hc). cbn [xorb].
  by rewrite consumed_all.
Qed.

Lemma normalize_plate_app a b :
  normalize_plate (a ++ b) = normalize_plate a ++ normalize_plate b.
Proof. unfold normalize_plate, Py.upper. by rewrite map_str_app, filter_str_app. Qed.

Lemma normalize_plate_letters l :
  Py.all_str Py.is_alpha l = true → normalize_plate l = Py.upper l.
Proof.
  intros Hl. unfold normalize_plate. apply filter_str_id. unfold Py.upper.
  induction l as [|c l IH]; simpl in *; [done|].
  apply andb_prop in Hl as [Hc Hl]. rewrite (IH Hl), andb_true_r.
  revert Hc. destruct c as [[] [] [] [] [] [] [] []]; vm_compute; congruence.
Qed.

Lemma normalize_plate_digits d :
  Py.all_str Py.is_digit d = true → normalize_plate d = d.
Proof.
  intros Hd. apply normalize_plate_fixed.
  induction d as [|c d IH]; simpl in *; [done|].
  apply andb_prop in Hd as [Hc Hd]. rewrite (IH Hd), andb_true_r.
  unfold plate_symbol. rewrite Hc. apply orb_true_r.
Qed.

Lemma normalize_plate_spaces g :
  Py.all_str Py.is_space g = true → normalize_plate g = "".
Proof.
  intros Hg. unfold normalize_plate, Py.upper.
  induction g as [|c g IH]; simpl in *; [done|].
  apply andb_prop in Hg as [Hc Hg]. rewrite (IH Hg).
  replace (Py.is_upper (Py.upper_char c) || Py.is_digit (Py.upper_char c)) with false; [done|].
  revert Hc. destruct c as [[] [] [] [] [] [] [] []]; vm_compute; congruence.
Qed.

(** X4: a text that is a plate written bare, two or three letters,
    three or four digits and a letter, with white space or nothing
    between the letters and the digits and between the digits and the
    last letter, yields the letters and digits of the plate in upper
    case. *)
Theorem X4_bare_plate_extracted :
  ∀ (l g1 d g2 : string) (c : ascii),
    Py.all_str Py.is_alpha l = true → (2 ≤ String.length l ≤ 3)%nat →
    Py.all_str Py.is_space g1 = true →
    Py.all_str Py.is_digit d = true → (3 ≤ String.length d ≤ 4)%nat →
    Py.all_str Py.is_space g2 = true →
    Py.is_alpha c = true →
    extract_truck_number_from_text (l ++ g1 ++ d ++ g2 ++ String c "")
    = Some (Py.upper l ++ d ++ String (Py.upper_char c) "").
Proof.
  intros l g1 d g2 c Hl Hll Hg1 Hd Hdl Hg2 Hc.
  unfold extract_truck_number_from_text, patterns, first_match.
  rewrite labelled_none.
  - rewrite bare_match by done. cbn [normalized_group]. f_equal.
    rewrite !normalize_plate_app, (normalize_plate_letters l), (normalize_plate_spaces g1),
            (normalize_plate_spaces g2), (normalize_plate_digits d), !append_nil by done.
    do 2 f_equal. apply (normalize_plate_letters (String c "")). simpl. by rewrite Hc.
  - apply few_letters_no_truck. rewrite !count_alpha_app.
    rewrite (count_alpha_all l), (count_alpha_none Py.is_space g1),
            (count_alpha_none Py.is_digit d), (count_alpha_none Py.is_space g2)
      by (done || apply space_not_alpha || apply digit_not_alpha).
    simpl. rewrite Hc. lia.
Qed.

Lemma X4_bare_plate_extracted_witness :
  extract_truck_number_from_text ("kbx" ++ " " ++ "123" ++ "" ++ String "z" "")
  = Some (Py.upper "kbx" ++ "123" ++ String (Py.upper_char "z") "").
Proof.
  apply (X4_bare_plate_extracted "kbx" " " "123" "" "z");
    first [ vm_compute; reflexivity | simpl; lia ].
Defined.

(** *** The label *)

(** A literal word matches a text that equals it up to case. *)
Lemma lit_from_ok w : ∀ c prev lbl rest g k o,
  Py.upper lbl = Py.upper (String c w) →
  k (last_char prev lbl) rest g = Some o →
  run (lit_from c w) prev (lbl ++ rest) g k = Some o.
Proof.
  induction w as [|c' w IH]; intros c prev lbl rest g k o Hl Hk.
  - destruct lbl as [|x [|x' lbl]]; try done. injection Hl as Hx.
    rewrite append_cons, append_nil. apply chr_ok; [|done].
    rewrite Hx. unfold Py.eqc. apply N.eqb_refl.
  - destruct lbl as [|x lbl]; [done|]. injection Hl as Hx Hl.
    rewrite append_cons. cbn [lit_from]. apply seq_ok, chr_ok.
    + rewrite Hx. unfold Py.eqc. apply N.eqb_refl.
    + by apply IH.
Qed.

Lemma ws_run prev u rest g k o :
  Py.all_str Py.is_space u = true → head_is Py.is_space rest = false →
  k (last_char prev u) rest g = Some o →
  run ws prev (u ++ rest) g k = Some o.
Proof.
  intros Hu Hrest Hk. unfold ws. cbn [run].
  apply rep_take; [done|lia|done|by left|done].
Qed.

Lemma upper_head_not_space (n : string) c w rest :
  Py.upper n = String c w → Py.is_space c = false → head_is Py.is_space (n ++ rest) = false.
Proof.
  destruct n as [|x n]; [done|]. intros [= Hx _] Hc. rewrite append_cons. simpl.
  revert Hc. rewrite <- Hx. destruct x as [[] [] [] [] [] [] [] []]; vm_compute; congruence.
Qed.

(** X5: the label before a plate may be written in any case and with
    any white space between its parts: a text made of the word truck,
    the word number, a colon or a hyphen and a plate, with white space or
    nothing between them, yields the plate in normalized form. *)
Theorem X5_label_case_and_spacing :
  ∀ (t g1 n g2 g3 d : string) (sep : ascii),
    Py.upper t = "TRUCK" → Py.upper n = "NUMBER" →
    Py.all_str Py.is_space g1 = true → Py.all_str Py.is_space g2 = true →
    Py.all_str Py.is_space g3 = true →
    Py.eqc sep ":" || Py.eqc sep "-" = true →
    plate_body d = true →
    extract_truck_number_from_text (t ++ g1 ++ n ++ g2 ++ String sep (g3 ++ d))
    = Some (normalize_plate d).
Proof.
  intros t g1 n g2 g3 d sep Ht Hn Hg1 Hg2 Hg3 Hsep (Hsp & Hcol & Hall & Hlen)%plate_body_inv.
  unfold extract_truck_number_from_text, patterns, first_match, search.
  rewrite (search_hit _ _ _ (Some d)); [reflexivity|].
  unfold labelled_pattern. apply seq_ok.
  change (lit "Truck") with (lit_from "T" "ruck"). apply lit_from_ok; [done|].
  apply seq_ok, ws_run; [done|by eapply upper_head_not_space|].
  apply seq_ok, opt_take, alt_left.
  change (lit "Number") with (lit_from "N" "umber"). apply lit_from_ok; [done|].
  apply seq_ok, ws_run; [done| |].
  { simpl. apply orb_prop in Hsep as [->%eqc_eq| ->%eqc_eq]; reflexivity. }
  apply seq_ok, opt_take, chr_ok; [done|].
  apply seq_ok, ws_run; [done..|].
  by apply grp_rest.
Qed.

Lemma X5_label_case_and_spacing_witness :
  extract_truck_number_from_text ("TRUCK" ++ "  " ++ "Number" ++ "" ++ String ":" (" " ++ "kbx-123 z"))
  = Some (normalize_plate "kbx-123 z").
Proof.
  apply (X5_label_case_and_spacing "TRUCK" "  " "Number" "" " " "kbx-123 z" ":");
    vm_compute; reflexivity.
Defined.

(** ** Coordinates between the markers *)

Lemma eqc_colon_sym c : negb (Py.eqc c ":") = true → Py.eqc ":" c = false.
Proof. intros ?%negb_true_iff. unfold Py.eqc in *. by rewrite N.eqb_sym. Qed.

Ltac marker_step :=
  rewrite ?append_cons, ?append_nil; simpl;
  repeat match goal with H : Py.eqc ":" _ = false |- _ => rewrite H end;
  rewrite ?andb_false_r; try done.

Lemma no_marker_start (sep : string) v rest :
  sep = "LONG:" ∨ sep = "LAT:" →
  no_colon v = true → v ≠ "" → starts_L rest →
  Py.startswith sep (v ++ rest) = false.
Proof.
  intros Hsep Hv Hne Hrest. unfold no_colon in Hv.
  assert (rest = "" ∨ ∃ r, rest = String "L" r) as Hr.
  { destruct rest as [|c r]; [by left|right]. simpl in Hrest. subst c. by exists r. }
  destruct v as [|c1 v]; [done|]. apply andb_prop in Hv as [H1%eqc_colon_sym Hv].
  destruct v as [|c2 v].
  { destruct Hr as [->|[r ->]], Hsep as [->| ->]; marker_step. }
  apply andb_prop in Hv as [H2%eqc_colon_sym Hv].
  destruct v as [|c3 v].
  { destruct Hr as [->|[r ->]], Hsep as [->| ->]; marker_step. }
  apply andb_prop in Hv as [H3%eqc_colon_sym Hv].
  destruct v as [|c4 v].
  { destruct Hr as [->|[r ->]], Hsep as [->| ->]; marker_step. }
  apply andb_prop in Hv as [H4%eqc_colon_sym Hv].
  destruct v as [|c5 v].
  { destruct Hr as [->|[r ->]], Hsep as [->| ->]; marker_step. }
  apply andb_prop in Hv as [H5%eqc_colon_sym Hv].
  destruct Hsep as [->| ->]; marker_step.
Qed.

Lemma split_go_miss sep c s :
  Py.startswith sep (String c s) = false →
  Py.split_go sep 0 (String c s)
  = (String c (Py.split_go sep 0 s).1, (Py.split_go sep 0 s).2).
Proof. cbn [Py.split_go]. intros ->. by destruct (Py.split_go sep 0 s). Qed.

Lemma split_go_hit sep c s :
  Py.startswith sep (String c s) = true →
  Py.split_go sep 0 (String c s)
  = ("", (Py.split_go sep (Nat.pred (String.length sep)) s).1
         :: (Py.split_go sep (Nat.pred (String.length sep)) s).2).
Proof. cbn [Py.split_go]. intros ->. by destruct (Py.split_go sep _ s). Qed.

Lemma split_go_skip sep k c s : Py.split_go sep (S k) (String c s) = Py.split_go sep k s.
Proof. reflexivity. Qed.

Lemma replace_go_miss old new c s :
  Py.startswith old (String c s) = false →
  Py.replace_go old new 0 (String c s) = String c (Py.replace_go old new 0 s).
Proof. cbn [Py.replace_go]. by intros ->. Qed.

Lemma replace_go_hit old new c s :
  Py.startswith old (String c s) = true →
  Py.replace_go old new 0 (String c s)
  = new ++ Py.replace_go old new (Nat.pred (String.length old)) s.
Proof. cbn [Py.replace_go]. by intros ->. Qed.

Lemma replace_go_skip old new k c s :
  Py.replace_go old new (S k) (String c s) = Py.replace_go old new k s.
Proof. reflexivity. Qed.

(** Text without a colon runs into the first piece of a split. *)
Lemma split_go_no_colon v : ∀ rest,
  no_colon v = true → starts_L rest →
  Py.split_go "LONG:" 0 (v ++ rest)
  = ((v ++ (Py.split_go "LONG:" 0 rest).1), (Py.split_go "LONG:" 0 rest).2).
Proof.
  induction v as [|c v IH]; intros rest Hv Hrest.
  - rewrite !append_nil. by destruct (Py.split_go _ _ rest).
  - pose proof (no_marker_start "LONG:" (String c v) rest (or_introl eq_refl) Hv) as Hs.
    rewrite !append_cons in *. rewrite split_go_miss by auto.
    apply andb_prop in Hv as [_ Hv]. by rewrite (IH rest Hv Hrest).
Qed.

(** Text without a colon is left as it is by the removal of [LAT:]. *)
Lemma replace_go_no_colon v : ∀ rest,
  no_colon v = true → starts_L rest →
  Py.replace_go "LAT:" "" 0 (v ++ rest) = v ++ Py.replace_go "LAT:" "" 0 rest.
Proof.
  induction v as [|c v IH]; intros rest Hv Hrest.
  - by rewrite !append_nil.
  - pose proof (no_marker_start "LAT:" (String c v) rest (or_intror eq_refl) Hv) as Hs.
    rewrite !append_cons in *. rewrite replace_go_miss by auto.
    apply andb_prop in Hv as [_ Hv]. by rewrite (IH rest Hv Hrest).
Qed.

Lemma append_empty_r s : s ++ "" = s.
Proof. induction s as [|c s IH]; [done|]. by rewrite append_cons, IH. Qed.

Lemma split_markers pre a b :
  no_colon pre = true → no_colon a = true → no_colon b = true →
  Py.split "LONG:" (pre ++ "LAT:" ++ a ++ "LONG:" ++ b) = [pre ++ "LAT:" ++ a; b].
Proof.
  intros Hpre Ha Hb. unfold Py.split.
  rewrite (split_go_no_colon pre) by done.
  assert (Py.split_go "LONG:" 0 ("LAT:" ++ a ++ "LONG:" ++ b) = ("LAT:" ++ a, [b])) as ->; [|done].
  rewrite !append_cons, !append_nil.
  do 4 rewrite split_go_miss by reflexivity.
  rewrite (split_go_no_colon a) by done.
  rewrite split_go_hit by reflexivity. cbn [String.length Nat.pred].
  rewrite !split_go_skip.
  pose proof (split_go_no_colon b "" Hb I) as Hbb. rewrite append_empty_r in Hbb.
  rewrite Hbb. cbn [Py.split_go fst snd]. by rewrite !append_empty_r.
Qed.

Lemma replace_marker pre a :
  no_colon pre = true → no_colon a = true →
  Py.replace "LAT:" "" (pre ++ "LAT:" ++ a) = pre ++ a.
Proof.
  intros Hpre Ha. unfold Py.replace.
  rewrite (replace_go_no_colon pre) by done. f_equal.
  rewrite !append_cons, !append_nil.
  rewrite replace_go_hit by reflexivity. cbn [String.length Nat.pred].
  rewrite !replace_go_skip, append_nil.
  pose proof (replace_go_no_colon a "" Ha I) as Haa. rewrite append_empty_r in Haa.
  rewrite Haa. cbn [Py.replace_go]. by rewrite append_empty_r.
Qed.

Lemma startswith_app_self t b : Py.startswith t (t ++ b) = true.
Proof. apply startswith_app, startswith_refl. Qed.

Lemma contains_here t b : Py.contains t (t ++ b) = true.
Proof. apply contains_app_l, contains_refl. Qed.

(** X6: in a text made of a part, [LAT:], a part, [LONG:] and a part,
    the parts without a colon, [extract_coordinates] reads the latitude
    from the first two parts put together and the longitude from the
    third, each with its surrounding white space and its spaces removed;
    it returns the pair when both read as numbers and [(None, None)]
    otherwise. *)
Theorem X6_coordinates_between_markers :
  ∀ pre a b : string,
    no_colon pre = true → no_colon a = true → no_colon b = true →
    extract_coordinates (Some (pre ++ "LAT:" ++ a ++ "LONG:" ++ b))
    = match float_of_str (coordinate_text (pre ++ a)), float_of_str (coordinate_text b) with
      | Some latitude, Some longitude => (Some latitude, Some longitude)
      | _, _ => (None, None)
      end.
Proof.
  intros pre a b Hpre Ha Hb. unfold extract_coordinates.
  rewrite (contains_app_r "LAT:" pre) by apply contains_here.
  rewrite (contains_app_r "LONG:" pre)
    by (do 2 apply contains_app_r; apply contains_here).
  rewrite split_markers by done. cbn [andb lookup list_lookup].
  by rewrite replace_marker.
Qed.

Lemma X6_coordinates_between_markers_witness :
  extract_coordinates (Some (" " ++ "LAT:" ++ " -0.3031 " ++ "LONG:" ++ " 36.08 "))
  = (Some (PFin (-3031 # 10000)), Some (PFin (902 # 25))).
Proof.
  rewrite (X6_coordinates_between_markers " " " -0.3031 " " 36.08 ")
    by (vm_compute; reflexivity).
  vm_compute. reflexivity.
Defined.

(** ** The order workbook *)

(** *** The header row *)

Lemma find_header_row_None raw :
  find_header_row raw = None ↔ Forall (λ row, is_header_row row = false) raw.
Proof.
  induction raw as [|row raw IH]; simpl; [by split|].
  destruct (is_header_row row) eqn:Hrow.
  - split; [done|]. intros [? _]%Forall_cons. congruence.
  - rewrite IH. split; [by constructor|by intros [_ ?]%Forall_cons].
Qed.

(** What is raised once the header row has been found is not the
    failure for a missing header row. *)
Lemma filter_columns_raise df e :
  filter_columns df = Raise e →
  e ≠ ValueError "Could not locate header row (cell 'NO.' not found).".
Proof.
  unfold filter_columns, column.
  repeat case_match; simpl; by intros [= <-].
Qed.

Lemma groupby_agg_raise df rows e :
  groupby_agg df rows = Raise e →
  e ≠ ValueError "Could not locate header row (cell 'NO.' not found).".
Proof.
  unfold groupby_agg, grouping_labels, get_grouper, column.
  repeat case_match; simpl; by intros [= <-].
Qed.

(** X7: [read_excel_to_df] raises the failure for a missing header row
    exactly when no row of the sheet has a cell that reads NO. once its
    surrounding white space is removed and it is put in upper case; an
    empty sheet is such a sheet. *)
Theorem X7_header_row_required :
  ∀ raw : sheet,
    read_excel_to_df raw
      = Raise (ValueError "Could not locate header row (cell 'NO.' not found).")
    ↔ Forall (λ row, is_header_row row = false) raw.
Proof.
  intros raw. rewrite <- find_header_row_None. unfold read_excel_to_df.
  destruct (find_header_row raw) as [[header body]|]; simpl; [|done].
  split; [|done].
  case_bool_decide; simpl; [|by intros [=]].
  destruct (filter_columns _) as [[]|e] eqn:Hf; simpl;
    [|intros [= ->]; by apply filter_columns_raise in Hf].
  destruct (groupby_agg _ _) as [grouped|e] eqn:Hg; simpl;
    [|intros [= ->]; by apply groupby_agg_raise in Hg].
  by case_bool_decide.
Qed.

Lemma contains_set_repr (l : list string) c :
  c ∈ l → Py.contains c (set_repr l) = true.
Proof.
  intros Hc. unfold set_repr. apply contains_app_r, contains_app_l.
  apply (contains_trans _ ("'" ++ c ++ "'")).
  - apply contains_app_r, contains_app_l, contains_refl.
  - apply contains_join, list_elem_of_fmap. by exists c.
Qed.

(** X8: when the header row lacks one of the columns CUSTOMER ID,
    CUSTOMER NAME, LOCATION and LOCATION COORDINATES,
    [read_excel_to_df] raises a [ValueError] whose message starts with
    "Missing required columns in orders Excel: " and names the column;
    this comes before anything is looked up in the optional columns. *)
Theorem X8_missing_required_column :
  ∀ (raw : sheet) (header : list cell) (body : sheet) (col : string),
    find_header_row raw = Some (header, body) →
    col ∈ required_cols →
    has_col (labelled_frame header body) col = false →
    ∃ m, read_excel_to_df raw = Raise (ValueError m) ∧
         Py.startswith "Missing required columns in orders Excel: " m = true ∧
         Py.contains col m = true.
Proof.
  intros raw header body col Hh Hreq Hcol.
  set (missing := filter (λ c, negb (has_col (labelled_frame header body) c)) required_cols).
  assert (col ∈ missing) as Hin.
  { apply list_elem_of_filter. by rewrite Hcol. }
  exists ("Missing required columns in orders Excel: " ++ set_repr missing).
  split; [|split].
  - unfold read_excel_to_df. rewrite Hh. simpl. fold missing.
    rewrite bool_decide_eq_false_2; [done|].
    intros Hm. rewrite Hm in Hin. by apply elem_of_nil in Hin.
  - apply startswith_app, startswith_refl.
  - by apply contains_app_r, contains_set_repr.
Qed.

Lemma X8_missing_required_column_witness :
  ∃ m, read_excel_to_df [ [Some "NO."; Some "CUSTOMER ID"; Some "LOCATION"] ]
         = Raise (ValueError m) ∧
       Py.startswith "Missing required columns in orders Excel: " m = true ∧
       Py.contains "CUSTOMER NAME" m = true.
Proof.
  apply (X8_missing_required_column
           [ [Some "NO."; Some "CUSTOMER ID"; Some "LOCATION"] ]
           [Some "NO."; Some "CUSTOMER ID"; Some "LOCATION"] [] "CUSTOMER NAME").
  - reflexivity.
  - vm_compute. by repeat constructor.
  - vm_compute. reflexivity.
Defined.

(** *** Which rows reach the table *)

Lemma with_coordinates_invoice g r :
  with_coordinates g = Some r → INVOICE_NO r = g_invoice_no g.
Proof.
  unfold with_coordinates, present.
  destruct (extract_coordinates _) as [[la|] [lo|]]; simpl; try done.
  - destruct (pf_is_nan la); simpl; [done|]. destruct (pf_is_nan lo); simpl; [done|].
    by intros [= <-].
  - by destruct (pf_is_nan la).
Qed.

(** X9: the table that [read_excel_to_df] returns has a row for a
    grouping tuple exactly when the coordinate text of the tuple reads as
    a latitude and a longitude and some row below the header has that
    tuple in its five key cells, none of them empty, and is kept by the
    filter (it has a customer id and its customer name does not contain
    TOTAL). *)
Theorem X9_groups_of_the_table :
  ∀ (raw : sheet) (header : list cell) (body : sheet) rows truck,
    find_header_row raw = Some (header, body) →
    read_excel_to_df raw = Ok (rows, truck) →
    let df := labelled_frame header body in
    ∀ k : group_key,
      k ∈ (order_key <$> rows) ↔
      located (k_coordinates k) = true ∧
      ∃ row, row ∈ body ∧ keep_row df row = true ∧ row_key df row = Some k.
Proof.
  intros raw header body rows truck Hh
         (header' & body' & grouped & Hh' & Hg & ->)%read_excel_to_df_ok df k.
  rewrite Hh in Hh'. injection Hh' as <- <-. fold df in Hg.
  apply groupby_agg_spec in Hg as (_ & Hkeys & _).
  rewrite list_elem_of_fmap. split.
  - intros (r & -> & (g & Hin & Hr)%list_elem_of_omap).
    pose proof (with_coordinates_some _ _ Hr) as [Hk _]. rewrite Hk. split.
    + apply with_coordinates_is_Some. eauto.
    + destruct (proj1 (Hkeys (g_key g))) as (row & [Hrow Hkeep]%elem_of_filtered & Hrk).
      { apply list_elem_of_fmap. eauto. }
      eauto.
  - intros (Hloc & row & Hrow & Hkeep & Hrk).
    assert (k ∈ g_key <$> grouped) as (g & -> & Hin)%list_elem_of_fmap.
    { apply Hkeys. exists row. split; [|done]. by apply elem_of_filtered. }
    apply with_coordinates_is_Some in Hloc as [r Hr].
    exists r. split.
    + symmetry. by apply with_coordinates_some in Hr as [? _].
    + apply list_elem_of_omap. eauto.
Qed.

Lemma X9_groups_of_the_table_witness :
  located "LAT:-0.33LONG:35.94" = true ∧
  ∃ row, row ∈ skip_sheet 2 sheet_two_customers ∧
         keep_row (labelled_frame full_header (skip_sheet 2 sheet_two_customers)) row = true ∧
         row_key (labelled_frame full_header (skip_sheet 2 sheet_two_customers)) row
           = Some {| k_customer_id := "C002"; k_customer_name := "Beta Mart";
                     k_location := "Njoro"; k_coordinates := "LAT:-0.33LONG:35.94";
                     k_rep := "Jane" |}.
Proof.
  refine (proj1 (X9_groups_of_the_table sheet_two_customers full_header
                   (skip_sheet 2 sheet_two_customers) two_customers (Some "KBX123Z") _ _
                   {| k_customer_id := "C002"; k_customer_name := "Beta Mart";
                      k_location := "Njoro"; k_coordinates := "LAT:-0.33LONG:35.94";
                      k_rep := "Jane" |}) _).
  - reflexivity.
  - vm_compute. reflexivity.
  - vm_compute. right. left.
Defined.

(** X10: the invoice text of a row of the table is made of the invoice
    numbers of the kept rows of its grouping tuple, in their order and
    joined by a comma and a space, the empty cells left out; so every
    invoice number of such a row occurs in it. *)
Theorem X10_invoice_numbers_joined :
  ∀ (raw : sheet) (header : list cell) (body : sheet) rows truck,
    find_header_row raw = Some (header, body) →
    read_excel_to_df raw = Ok (rows, truck) →
    let df := labelled_frame header body in
    ∀ r, r ∈ rows →
      INVOICE_NO r = Py.join ", " (omap (at_col df "INVOICE NO") (rows_of df r)) ∧
      ∀ row inv,
        row ∈ body → keep_row df row = true → row_key df row = Some (order_key r) →
        at_col df "INVOICE NO" row = Some inv →
        Py.contains inv (INVOICE_NO r) = true.
Proof.
  intros raw header body rows truck Hh
         (header' & body' & grouped & Hh' & Hg & ->)%read_excel_to_df_ok df r.
  rewrite Hh in Hh'. injection Hh' as <- <-. fold df in Hg.
  apply groupby_agg_ok in Hg as ->.
  intros (g & (k & -> & Hk)%list_elem_of_fmap & Hr)%list_elem_of_omap.
  pose proof (with_coordinates_invoice _ _ Hr) as Hinv.
  apply with_coordinates_some in Hr as [Hkey _]. simpl in Hkey, Hinv.
  rewrite <- members_rows_of, Hinv, Hkey. split; [done|].
  intros row inv Hrow Hkeep Hrk Hcell.
  apply contains_join, list_elem_of_omap. exists row. split; [|done].
  unfold members. apply list_elem_of_filter. split; [done|]. by apply elem_of_filtered.
Qed.

Lemma X10_invoice_numbers_joined_witness :
  ∃ r, read_excel_to_df sheet_same_customer = Ok ([r], Some "KBX123Z") ∧
       INVOICE_NO r = "INV-1, INV-2".
Proof.
  eexists. split; [vm_compute; reflexivity|].
  refine (eq_trans (proj1 (X10_invoice_numbers_joined sheet_same_customer full_header
                             (skip_sheet 3 sheet_same_customer) _ (Some "KBX123Z") _ _ _ _)) _).
  - reflexivity.
  - vm_compute. reflexivity.
  - left.
  - vm_compute. reflexivity.
Defined.

(** *** Rows that the filter drops *)

Lemma groupby_agg_columns df df' rows :
  columns df = columns df' → groupby_agg df rows = groupby_agg df' rows.
Proof. destruct df as [c d], df' as [c' d']. simpl. intros ->. reflexivity. Qed.

Lemma filter_columns_columns df df' :
  columns df = columns df' → filter_columns df = filter_columns df'.
Proof. destruct df as [c d], df' as [c' d']. simpl. intros ->. reflexivity. Qed.

Lemma keep_row_columns df df' row :
  columns df = columns df' → keep_row df row = keep_row df' row.
Proof. destruct df as [c d], df' as [c' d']. simpl. intros ->. reflexivity. Qed.

Lemma has_col_columns (df df' : frame string) col :
  columns df = columns df' → has_col df col = has_col df' col.
Proof. destruct df as [c d], df' as [c' d']. simpl. intros ->. reflexivity. Qed.

Lemma filtered_unkept header b1 b2 extra :
  keep_row (labelled_frame header (b1 ++ b2)%list) extra = false →
  filtered (labelled_frame header (b1 ++ extra :: b2)%list)
  = filtered (labelled_frame header (b1 ++ b2)%list).
Proof.
  intros Hx. unfold filtered. cbn [data labelled_frame].
  rewrite !filter_app, filter_cons_False.
  - f_equal; apply list_filter_iff; intros row;
      by rewrite (keep_row_columns _ (labelled_frame header (b1 ++ b2)%list)).
  - rewrite (keep_row_columns _ (labelled_frame header (b1 ++ b2)%list)) by done. by rewrite Hx.
Qed.

(** X11: a row below the header that the filter drops, such as a row
    of totals or a row without a customer id, changes nothing in the
    table: the sheet with the row and the sheet without it give the same
    table, or the same failure. *)
Theorem X11_dropped_rows_do_not_count :
  ∀ (raw raw' : sheet) (header : list cell) (b1 b2 : sheet) (extra : list cell),
    find_header_row raw = Some (header, (b1 ++ b2)%list) →
    find_header_row raw' = Some (header, (b1 ++ extra :: b2)%list) →
    keep_row (labelled_frame header (b1 ++ b2)%list) extra = false →
    fst <$> read_excel_to_df raw' = fst <$> read_excel_to_df raw.
Proof.
  intros raw raw' header b1 b2 extra Hraw Hraw' Hx.
  unfold read_excel_to_df. rewrite Hraw, Hraw'. cbn [mbind exn_bind].
  set (df := labelled_frame header (b1 ++ b2)%list).
  set (df' := labelled_frame header (b1 ++ extra :: b2)%list).
  assert (columns df' = columns df) as Hc by reflexivity.
  assert (filter (λ c, negb (has_col df' c)) required_cols
          = filter (λ c, negb (has_col df c)) required_cols) as ->.
  { apply list_filter_iff. intros c. by rewrite (has_col_columns df' df). }
  case_bool_decide; cbn [negb]; [|done].
  rewrite (filter_columns_columns df' df) by done.
  destruct (filter_columns df) as [[]|]; [|done]. cbn [mbind exn_bind].
  unfold df', df. rewrite filtered_unkept by done. fold df df'.
  rewrite (groupby_agg_columns df' df) by done.
  destruct (groupby_agg df (filtered df)) as [grouped|]; [|done]. cbn [mbind exn_bind].
  by case_bool_decide.
Qed.

Lemma X11_dropped_rows_do_not_count_witness :
  fst <$> read_excel_to_df sheet_same_customer
  = fst <$> read_excel_to_df (take 5 sheet_same_customer).
Proof.
  apply (X11_dropped_rows_do_not_count (take 5 sheet_same_customer) sheet_same_customer
           full_header (skip_sheet 3 (take 5 sheet_same_customer)) []
           [None; None; Some "Total"; None; None; None; Some "5.5"; Some "3,500.50"; None]).
  - reflexivity.
  - reflexivity.
  - vm_compute. reflexivity.
Defined.

(** *** The truck line *)

Lemma read_excel_to_df_truck raw rows truck :
  read_excel_to_df raw = Ok (rows, truck) →
  truck = scan_truck_number None ((λ r, str_of_cell (nth_cell r 0)) <$> raw).
Proof.
  unfold read_excel_to_df.
  destruct (find_header_row raw) as [[header body]|]; simpl; [|done].
  case_bool_decide; simpl; [|done].
  destruct (filter_columns _) as [[]|]; simpl; [|done].
  destruct (groupby_agg _ _) as [grouped|]; simpl; [|done].
  case_bool_decide; [done|]. by intros [= _ <-].
Qed.

Lemma scan_truck_number_first (pre post : sheet) row : ∀ last,
  Forall (λ r, ¬ truthy_str (truck_of_row r) = true) pre →
  truthy_str (truck_of_row row) = true →
  scan_truck_number last ((λ r, str_of_cell (nth_cell r 0)) <$> (pre ++ row :: post)%list)
  = truck_of_row row.
Proof.
  induction pre as [|r pre IH]; intros last Hpre Hrow; simpl.
  - fold (truck_of_row row). by rewrite Hrow.
  - apply Forall_cons in Hpre as [Hr Hpre]. fold (truck_of_row r).
    apply not_true_is_false in Hr. rewrite Hr. by apply IH.
Qed.

Lemma scan_truck_number_none (raw : sheet) : ∀ last,
  truthy_str last = false →
  (∀ r, r ∈ raw → truthy_str (truck_of_row r) = false) →
  truthy_str (scan_truck_number last ((λ r, str_of_cell (nth_cell r 0)) <$> raw)) = false.
Proof.
  induction raw as [|r raw IH]; intros last Hlast Hraw; simpl; [done|].
  fold (truck_of_row r). rewrite (Hraw r) by left.
  apply IH; [apply Hraw; left|]. intros r' Hr'. apply Hraw. by right.
Qed.

(** X12: the truck number that [read_excel_to_df] returns is read from
    the first column of the sheet, whichever row it stands in: it is what
    the first cell of that column with a non-empty extraction yields; and
    when no cell of the column yields one, what is returned counts as no
    truck number. *)
Theorem X12_truck_number_from_first_column :
  ∀ (raw : sheet) rows truck,
    read_excel_to_df raw = Ok (rows, truck) →
    (∀ row, first_such (λ r, truthy_str (truck_of_row r) = true) raw row →
            truck = truck_of_row row ∧ truthy_str truck = true) ∧
    ((∀ row, row ∈ raw → truthy_str (truck_of_row row) = false) →
     truthy_str truck = false).
Proof.
  intros raw rows truck ->%read_excel_to_df_truck. split.
  - intros row (pre & post & -> & Hrow & Hpre).
    rewrite scan_truck_number_first by done. done.
  - intros Hnone. by apply scan_truck_number_none.
Qed.

Lemma X12_truck_number_from_first_column_witness :
  Some "KBX123Z" = truck_of_row [Some "Truck No. KBX-123 Z"] ∧
  truthy_str (Some "KBX123Z") = true.
Proof.
  refine (proj1 (X12_truck_number_from_first_column sheet_same_customer
                   [ {| CUSTOMER_ID := "C001"; CUSTOMER_NAME := "Alpha Stores";
                        LOCATION := "Nakuru";
                        LOCATION_COORDINATES := "LAT:-0.3031LONG:36.0800"; REP := "Jane";
                        TONNAGE := PFin (11 # 2); AMOUNT := PFin (7001 # 2);
                        INVOICE_NO := "INV-1, INV-2";
                        LAT := PFin (-3031 # 10000); LONG := PFin (902 # 25) |} ]
                   (Some "KBX123Z") _) [Some "Truck No. KBX-123 Z"] _).
  - vm_compute. reflexivity.
  - exists [[Some "DISPATCH SHEET"]], (skip_sheet 2 sheet_same_customer).
    split; [reflexivity|]. split; [vm_compute; reflexivity|].
    repeat constructor. vm_compute. discriminate.
Defined.

(** *** Rows above the header *)

Lemma find_header_row_app (pre raw : sheet) :
  Forall (λ row, is_header_row row = false) pre →
  find_header_row (pre ++ raw)%list = find_header_row raw.
Proof.
  induction pre as [|row pre IH]; [done|]. intros [Hrow Hpre]%Forall_cons.
  simpl. rewrite Hrow. by apply IH.
Qed.

(** X13: rows above the header row, such as titles and the truck
    line, play no part in the table: with them or without them the sheet
    gives the same table, or the same failure. *)
Theorem X13_rows_above_the_header :
  ∀ pre raw : sheet,
    Forall (λ row, is_header_row row = false) pre →
    fst <$> read_excel_to_df (pre ++ raw)%list = fst <$> read_excel_to_df raw.
Proof.
  intros pre raw Hpre. unfold read_excel_to_df. rewrite find_header_row_app by done.
  destruct (find_header_row raw) as [[header body]|]; [|done]. cbn [mbind exn_bind].
  case_bool_decide; cbn [negb]; [|done].
  destruct (filter_columns _) as [[]|]; [|done]. cbn [mbind exn_bind].
  destruct (groupby_agg _ _) as [grouped|]; [|done]. cbn [mbind exn_bind].
  by case_bool_decide.
Qed.

Lemma X13_rows_above_the_header_witness :
  fst <$> read_excel_to_df ([[Some "DISPATCH SHEET"]; [Some "Truck No. KBX-123 Z"]]
                            ++ skip_sheet 2 sheet_same_customer)%list
  = fst <$> read_excel_to_df (skip_sheet 2 sheet_same_customer).
Proof.
  apply (X13_rows_above_the_header [[Some "DISPATCH SHEET"]; [Some "Truck No. KBX-123 Z"]]
           (skip_sheet 2 sheet_same_customer)).
  repeat constructor.
Defined.

(** *** The case of the header *)

Lemma is_space_lower c : Py.is_space (Py.lower_char c) = Py.is_space c.
Proof. destruct c as [[] [] [] [] [] [] [] []]; vm_compute; congruence. Qed.

Lemma lower_space c : Py.is_space c = true → Py.lower_char c = c.
Proof. destruct c as [[] [] [] [] [] [] [] []]; vm_compute; congruence. Qed.

Lemma collapse_ws_lower s : ∀ b, collapse_ws b (Py.lower s) = Py.lower (collapse_ws b s).
Proof.
  unfold Py.lower. induction s as [|c s IH]; intros b; simpl; [done|].
  rewrite is_space_lower. destruct (Py.is_space c); [destruct b|]; simpl; by rewrite IH.
Qed.

Lemma lstrip_lower s : Py.lstrip (Py.lower s) = Py.lower (Py.lstrip s).
Proof.
  unfold Py.lower. induction s as [|c s IH]; simpl; [done|].
  rewrite is_space_lower. by destruct (Py.is_space c).
Qed.

Lemma rstrip_lower s : Py.rstrip (Py.lower s) = Py.lower (Py.rstrip s).
Proof.
  unfold Py.lower. induction s as [|c s IH]; simpl; [done|].
  rewrite IH, is_space_lower.
  destruct (Py.rstrip s) as [|c' r]; simpl; [|done].
  by destruct (Py.is_space c).
Qed.

Lemma strip_lower s : Py.strip (Py.lower s) = Py.lower (Py.strip s).
Proof. unfold Py.strip. by rewrite lstrip_lower, rstrip_lower. Qed.

Lemma upper_lower s : Py.upper (Py.lower s) = Py.upper s.
Proof.
  unfold Py.upper, Py.lower. induction s as [|c s IH]; simpl; [done|].
  by rewrite upper_lower_char, IH.
Qed.

Lemma normalize_header_lower label : normalize_header (Py.lower label) = normalize_header label.
Proof. unfold normalize_header. by rewrite collapse_ws_lower, strip_lower, upper_lower. Qed.

Lemma is_header_row_lower (row : list cell) :
  is_header_row (lower_row row) = is_header_row row.
Proof.
  unfold is_header_row, lower_row. induction row as [|c row IH]; [done|].
  rewrite fmap_cons. simpl.
  rewrite IH. f_equal. destruct c as [t|]; simpl; [|done].
  by rewrite strip_lower, upper_lower.
Qed.

Lemma rstrip_cons c s : Py.is_space c = false → Py.rstrip (String c s) = String c (Py.rstrip s).
Proof. intros Hc. simpl. rewrite Hc. by destruct (Py.rstrip s). Qed.

(** A name that [read_excel] gives to a blank header cell is dropped. *)
Lemma unnamed_dropped r :
  Py.startswith "UNNAMED" (normalize_header ("Unnamed: " ++ r)) = true.
Proof.
  unfold normalize_header, Py.strip.
  change (collapse_ws false ("Unnamed: " ++ r))
    with ("Unnamed:" ++ String " " (collapse_ws true r)).
  change (Py.lstrip ("Unnamed:" ++ String " " (collapse_ws true r)))
    with ("Unnamed:" ++ String " " (collapse_ws true r)).
  change ("Unnamed:" ++ String " " (collapse_ws true r))
    with (String "U" (String "n" (String "n" (String "a" (String "m" (String "e"
           (String "d" (String ":" (String " " (collapse_ws true r)))))))))).
  rewrite !rstrip_cons by reflexivity. reflexivity.
Qed.

Lemma lower_not_unnamed t r : Py.lower t ≠ "Unnamed: " ++ r.
Proof.
  destruct t as [|c t]; [done|]. simpl. intros [= H _]. revert H.
  destruct c as [[] [] [] [] [] [] [] []]; vm_compute; congruence.
Qed.

Lemma mangled_unnamed seen r :
  Py.startswith "UNNAMED"
    (normalize_header (match length (filter (λ x, x = "Unnamed: " ++ r) seen) with
                       | O => "Unnamed: " ++ r
                       | k => ("Unnamed: " ++ r) ++ "." ++ pretty k
                       end)) = true.
Proof.
  destruct (length _); [apply unnamed_dropped|].
  change (("Unnamed: " ++ r) ++ "." ++ pretty (S n))
    with ("Unnamed: " ++ (r ++ "." ++ pretty (S n))).
  apply unnamed_dropped.
Qed.

Lemma mangled_fresh (seen : list string) n :
  n ∉ seen →
  match length (filter (λ x, x = n) seen) with
  | O => n
  | k => n ++ "." ++ pretty k
  end = n.
Proof.
  intros Hn. replace (filter (λ x, x = n) seen) with (@nil string); [done|].
  symmetry. apply filter_none. intros x Hx ->. done.
Qed.

Lemma mangle_lower (rest : list cell) : ∀ (n : nat) (seen seen' texts : list string),
  (∀ x, x ∈ seen → x ∈ texts ∨ ∃ r, x = "Unnamed: " ++ r) →
  (∀ x, x ∈ seen' → x ∈ (Py.lower <$> texts) ∨ ∃ r, x = "Unnamed: " ++ r) →
  NoDup (Py.lower <$> (texts ++ omap id rest)%list) →
  Forall2 same_label
    (mangle_dupe_cols seen (imap (λ i, header_label (n + i)) rest))
    (mangle_dupe_cols seen' (imap (λ i, header_label (n + i)) (lower_row rest))).
Proof.
  induction rest as [|c rest IH]; intros n seen seen' texts Hs Hs' Hnd; [constructor|].
  unfold lower_row. rewrite fmap_cons. cbn [imap mangle_dupe_cols].
  rewrite Nat.add_0_r.
  assert (∀ (l : list cell),
            imap ((λ i, header_label (n + i)) ∘ S) l = imap (λ i, header_label (S n + i)) l) as Hshift.
  { intros l. apply imap_ext. intros i x _. simpl. f_equal. lia. }
  rewrite !Hshift.
  destruct c as [t|]; simpl.
  - assert (Py.lower t ∉ Py.lower <$> texts) as Hfresh.
    { rewrite fmap_app in Hnd. simpl in Hnd. apply NoDup_app in Hnd as (_ & Hnd & _).
      intros Hin. apply (Hnd _ Hin). left. }
    assert (Py.lower t ∉ seen') as Hfresh'.
    { intros [Hin|[r Hr]]%Hs'; [done|]. by apply lower_not_unnamed in Hr. }
    rewrite (mangled_fresh seen' _ Hfresh'). constructor.
    + destruct (decide (t ∈ seen)) as [[Hin|[r ->]]%Hs|Hout].
      * exfalso. apply Hfresh, list_elem_of_fmap. eauto.
      * right. split; [apply mangled_unnamed|].
        rewrite normalize_header_lower. apply unnamed_dropped.
      * left. rewrite (mangled_fresh seen _ Hout). by rewrite normalize_header_lower.
    + apply (IH (S n) (t :: seen) (Py.lower t :: seen') (texts ++ [t])%list).
      * intros x [->|Hx]%elem_of_cons.
        -- left. apply elem_of_app. right. left.
        -- destruct (Hs x Hx) as [?|?]; [left; apply elem_of_app; by left|by right].
      * intros x [->|Hx]%elem_of_cons.
        -- left. rewrite fmap_app. apply elem_of_app. right. left.
        -- destruct (Hs' x Hx) as [?|?]; [left; rewrite fmap_app; apply elem_of_app; by left|by right].
      * by rewrite <- app_assoc.
  - constructor.
    + right. split; apply mangled_unnamed.
    + apply (IH (S n) (_ :: seen) (_ :: seen') texts).
      * intros x [->|Hx]%elem_of_cons; [right; eauto|by apply Hs].
      * intros x [->|Hx]%elem_of_cons; [right; eauto|by apply Hs'].
      * done.
Qed.

Lemma columns_agree (l l' : list string) : ∀ n,
  Forall2 same_label l l' →
  filter (λ c, negb (Py.startswith "UNNAMED" c.1))
         (imap (λ i name, (normalize_header name, (n + i)%nat)) l)
  = filter (λ c : string * nat, negb (Py.startswith "UNNAMED" c.1))
           (imap (λ i name, (normalize_header name, (n + i)%nat)) l').
Proof.
  intros n H. revert n. induction H as [|a b l l' Hab _ IH]; intros n; [done|].
  cbn [imap].
  assert (∀ (l : list string),
            imap ((λ i name, (normalize_header name, (n + i)%nat)) ∘ S) l
            = imap (λ i name, (normalize_header name, (S n + i)%nat)) l) as Hshift.
  { intros k. apply imap_ext. intros i x _. simpl. f_equal. lia. }
  rewrite !Hshift. destruct Hab as [Hab|[Ha Hb]].
  - rewrite Hab. destruct (Py.startswith "UNNAMED" (normalize_header b)) eqn:Hb.
    + rewrite !filter_cons_False by (cbn [fst]; rewrite Hb; by intros []). apply IH.
    + rewrite !filter_cons_True by (cbn [fst]; by rewrite Hb). f_equal. apply IH.
  - rewrite filter_cons_False by (cbn [fst]; rewrite Ha; by intros []).
    rewrite filter_cons_False by (cbn [fst]; rewrite Hb; by intros []). apply IH.
Qed.

Lemma labelled_frame_lower (header : list cell) (body : sheet) :
  NoDup (Py.lower <$> omap id header) →
  columns (labelled_frame (lower_row header) body) = columns (labelled_frame header body).
Proof.
  intros Hnd. unfold labelled_frame, column_names. cbn [columns].
  symmetry. apply (columns_agree _ _ 0).
  apply (mangle_lower header 0 [] [] []); [by intros ? ?%elem_of_nil..|done].
Qed.

(** X14: when no two labels of the header row are the same once case
    is ignored, the case in which the labels are written plays no part
    in the table: the sheet with the labels of its header row in lower
    case gives the same table, or the same failure. *)
Theorem X14_header_labels_in_any_case :
  ∀ (pre : sheet) (header : list cell) (body : sheet),
    Forall (λ row, is_header_row row = false) pre →
    NoDup (Py.lower <$> omap id header) →
    fst <$> read_excel_to_df (pre ++ (lower_row header) :: body)%list
    = fst <$> read_excel_to_df (pre ++ header :: body)%list.
Proof.
  intros pre header body Hpre Hnd. unfold read_excel_to_df.
  rewrite !find_header_row_app by done. cbn [find_header_row].
  rewrite is_header_row_lower. destruct (is_header_row header).
  - cbn [mbind exn_bind].
    set (df := labelled_frame header body).
    set (df' := labelled_frame (lower_row header) body).
    assert (columns df' = columns df) as Hc by by apply labelled_frame_lower.
    assert (filter (λ c, negb (has_col df' c)) required_cols
            = filter (λ c, negb (has_col df c)) required_cols) as ->.
    { apply list_filter_iff. intros c. by rewrite (has_col_columns df' df). }
    case_bool_decide; cbn [negb]; [|done].
    rewrite (filter_columns_columns df' df) by done.
    destruct (filter_columns df) as [[]|]; [|done]. cbn [mbind exn_bind].
    assert (filtered df' = filtered df) as ->.
    { unfold filtered. apply list_filter_iff. intros row.
      by rewrite (keep_row_columns df' df). }
    rewrite (groupby_agg_columns df' df) by done.
    destruct (groupby_agg df (filtered df)) as [grouped|]; [|done]. cbn [mbind exn_bind].
    by case_bool_decide.
  - destruct (find_header_row body) as [[h b]|]; [|done]. cbn [mbind exn_bind].
    case_bool_decide; cbn [negb]; [|done].
    destruct (filter_columns _) as [[]|]; [|done]. cbn [mbind exn_bind].
    destruct (groupby_agg _ _) as [grouped|]; [|done]. cbn [mbind exn_bind].
    by case_bool_decide.
Qed.

Lemma X14_header_labels_in_any_case_witness :
  fst <$> read_excel_to_df ([[Some "Truck No. KBX-123 Z"]]
                            ++ (lower_row full_header)
                               :: skip_sheet 3 sheet_same_customer)%list
  = fst <$> read_excel_to_df ([[Some "Truck No. KBX-123 Z"]]
                              ++ full_header :: skip_sheet 3 sheet_same_customer)%list.
Proof.
  apply (X14_header_labels_in_any_case [[Some "Truck No. KBX-123 Z"]] full_header
           (skip_sheet 3 sheet_same_customer)).
  - repeat constructor.
  - apply (bool_decide_unpack (NoDup _)). vm_compute. exact I.
Defined.

(** ** The asset workbook *)

Lemma find_name_col_None {A} (df : frame A) :
  find_name_col df = None ↔ ∀ c, c ∈ name_candidates → has_col df c = false.
Proof.
  unfold find_name_col. rewrite head_None. split.
  - intros Hf c Hc. destruct (has_col df c) eqn:Hcol; [|done].
    assert (c ∈ filter (λ c, has_col df c = true) name_candidates) as Hin
      by (by apply list_elem_of_filter).
    rewrite Hf in Hin. by apply elem_of_nil in Hin.
  - intros Hnone. apply filter_none. intros c Hc. by rewrite (Hnone c Hc).
Qed.

Lemma find_name_col_Some {A} (df : frame A) name_col :
  find_name_col df = Some name_col →
  name_col ∈ name_candidates ∧ has_col df name_col = true.
Proof.
  unfold find_name_col. intros Hh.
  assert (name_col ∈ filter (λ c, has_col df c = true) name_candidates) as Hin.
  { destruct (filter _ name_candidates) as [|c l]; [done|]. injection Hh as ->. left. }
  apply list_elem_of_filter in Hin. tauto.
Qed.

Lemma int_of_cell_raise c e :
  int_of_cell c = Raise e →
  e ≠ ValueError "Assets Excel must contain columns like 'ReportName' (or 'Name') and 'itemId'.".
Proof.
  unfold int_of_cell, int_of_str.
  repeat case_match; by intros [= <-].
Qed.

(** X15: [read_asset_id_from_excel] raises the failure about the
    columns exactly when the workbook has none of the columns
    reportname, name, unit and unitname (headers compared in lower case,
    surrounding white space removed) or has no column itemid; whether a
    truck number was given plays no part in it. *)
Theorem X15_asset_columns_required :
  ∀ (excel_file : workbook) (truck_number_norm : option string),
    read_asset_id_from_excel excel_file truck_number_norm
      = Raise (ValueError
          "Assets Excel must contain columns like 'ReportName' (or 'Name') and 'itemId'.")
    ↔ (∀ c, c ∈ name_candidates → has_col (asset_frame excel_file) c = false) ∨
      has_col (asset_frame excel_file) "itemid" = false.
Proof.
  intros excel_file truck. rewrite <- find_name_col_None. unfold read_asset_id_from_excel.
  destruct (find_name_col (asset_frame excel_file)) as [name_col|]; [|by split; [left|]].
  destruct (has_col (asset_frame excel_file) "itemid"); cbn [negb]; [|by split; [right|]].
  split; [|by intros [|]].
  intros Hr. exfalso. revert Hr.
  destruct (repeated _ name_col && _); [done|].
  destruct truck as [[|c t]|]; try done.
  set (matched := if bool_decide _ then _ else _).
  destruct matched as [|row rest]; [done|].
  unfold column. destruct (repeated _ "itemid"); [done|]. cbn [mbind exn_bind].
  destruct (int_of_cell _) as [z|e] eqn:Hz; simpl; [done|].
  intros [= He]. by apply int_of_cell_raise in Hz.
Qed.

(** X16: what [read_asset_id_from_excel] returns is a pair of absent
    values or the unit id and the name of a row of the workbook whose
    normalized name contains the truck number, which then is not empty;
    it never returns one of the two without the other, nor an asset whose
    name does not contain the number. *)
Theorem X16_asset_found_contains_number :
  ∀ (excel_file : workbook) (truck_number_norm : option string) unit_id vehicle_name,
    read_asset_id_from_excel excel_file truck_number_norm = Ok (unit_id, vehicle_name) →
    let df := asset_frame excel_file in
    (unit_id = None ∧ vehicle_name = None) ∨
    ∃ truck name_col row itemid,
      truck_number_norm = Some truck ∧ truck ≠ "" ∧
      find_name_col df = Some name_col ∧ row ∈ body excel_file ∧
      Py.contains truck (normalized_name df name_col row) = true ∧
      int_of_cell (at_col df "itemid" row) = Ok itemid ∧
      unit_id = Some itemid ∧ vehicle_name = Some (str_of (at_col df name_col row)).
Proof.
  intros excel_file truck unit_id vehicle_name. unfold read_asset_id_from_excel. cbv zeta.
  set (df := asset_frame excel_file).
  destruct (find_name_col df) as [name_col|] eqn:Hname; [|done].
  destruct (has_col df "itemid"); cbn [negb]; [|done].
  destruct (repeated df name_col && _); [done|].
  destruct truck as [[|c t]|]; try (intros [= <- <-]; by left).
  set (truck := String c t).
  set (exact := filter (λ r, normalized_name df name_col r = truck) (data df)).
  set (inside := filter (λ r, Py.contains truck (normalized_name df name_col r) = true) (data df)).
  assert (∀ row, row ∈ (if bool_decide (exact = []) then inside else exact) →
            row ∈ body excel_file ∧
            Py.contains truck (normalized_name df name_col row) = true) as Hm.
  { intros row. case_bool_decide.
    - by intros [? ?]%list_elem_of_filter.
    - intros [-> ?]%list_elem_of_filter. split; [done|apply contains_refl]. }
  destruct (if bool_decide (exact = []) then inside else exact) as [|row rest];
    [intros [= <- <-]; by left|].
  destruct (Hm row) as [Hrow Hin]; [left|].
  unfold column. destruct (repeated df "itemid"); [done|]. cbn [mbind exn_bind].
  destruct (int_of_cell (at_col df "itemid" row)) as [itemid|] eqn:Hid; simpl; [|done].
  intros [= <- <-]. right. exists truck, name_col, row, itemid. done.
Qed.

Lemma X16_asset_found_contains_number_witness :
  (Some 101 = None ∧ Some "KBX 123Z-TRUCK" = None) ∨
  ∃ truck name_col row itemid,
    Some "KBX123Z" = Some truck ∧ truck ≠ "" ∧
    find_name_col (asset_frame assets_sample) = Some name_col ∧ row ∈ body assets_sample ∧
    Py.contains truck (normalized_name (asset_frame assets_sample) name_col row) = true ∧
    int_of_cell (at_col (asset_frame assets_sample) "itemid" row) = Ok itemid ∧
    Some 101 = Some itemid ∧
    Some "KBX 123Z-TRUCK" = Some (str_of (at_col (asset_frame assets_sample) name_col row)).
Proof.
  apply (X16_asset_found_contains_number assets_sample (Some "KBX123Z")
           (Some 101) (Some "KBX 123Z-TRUCK")).
  vm_compute. reflexivity.
Defined.

(** ** Several workbooks *)

Lemma read_all_first_error (pre post : list sheet) f e : ∀ all_gdfs truck_numbers,
  forallb reads pre = true → read_excel_to_df f = Raise e →
  read_all (pre ++ f :: post) all_gdfs truck_numbers = Raise e.
Proof.
  induction pre as [|g pre IH]; intros all_gdfs truck_numbers Hpre Hf; simpl.
  - by rewrite Hf.
  - simpl in Hpre. apply andb_prop in Hpre as [Hg Hpre]. unfold reads in Hg.
    destruct (read_excel_to_df g) as [[gdf truck]|]; [|done]. simpl. by apply IH.
Qed.

Lemma tables_yields_rows excel_files :
  forallb reads excel_files = true →
  existsb yields_rows excel_files = false ↔ filter (λ l, l ≠ []) (tables excel_files) = [].
Proof.
  induction excel_files as [|f rest IH]; [done|]. simpl.
  intros [Hf Hrest]%andb_prop. unfold reads in Hf. unfold tables, yields_rows at 1. simpl.
  destruct (read_excel_to_df f) as [[[|r gdf] truck]|]; [| |done]; simpl.
  - fold (tables rest). rewrite filter_cons_False by (by intros ?). by apply IH.
  - by rewrite filter_cons_True.
Qed.

(** X17: when a workbook of a submission cannot be read and those
    before it can, [process_multiple_excels] raises what reading that
    workbook raises, whatever the workbooks after it hold. *)
Theorem X17_first_unreadable_workbook :
  ∀ (pre post : list sheet) (f : sheet) (e : exception),
    forallb reads pre = true →
    read_excel_to_df f = Raise e →
    process_multiple_excels (pre ++ f :: post) = Raise e.
Proof.
  intros pre post f e Hpre Hf. unfold process_multiple_excels.
  by rewrite (read_all_first_error pre post f e).
Qed.

Lemma X17_first_unreadable_workbook_witness :
  process_multiple_excels ([sheet_truck_c] ++ sheet_required_only :: [sheet_truck_d])
  = Raise (KeyError "REP").
Proof.
  apply (X17_first_unreadable_workbook [sheet_truck_c] [sheet_truck_d] sheet_required_only).
  - vm_compute. reflexivity.
  - vm_compute. reflexivity.
Defined.

(** X18: when every workbook of a submission is read and none yields a
    row, [process_multiple_excels] raises the failure for missing data,
    however many truck numbers the workbooks name; a submission without
    workbooks is such a submission. *)
Theorem X18_no_rows_is_no_valid_data :
  ∀ excel_files : list sheet,
    forallb reads excel_files = true →
    existsb yields_rows excel_files = false →
    process_multiple_excels excel_files
    = Raise (ValueError "No valid data found in any of the Excel files.").
Proof.
  intros excel_files Hok Hnone. unfold process_multiple_excels.
  rewrite read_all_tables by done. apply tables_yields_rows in Hnone; [|done].
  rewrite Hnone. done.
Qed.

Lemma X18_no_rows_is_no_valid_data_witness :
  process_multiple_excels [sheet_truck_b; sheet_truck_a]
  = Raise (ValueError "No valid data found in any of the Excel files.").
Proof.
  apply (X18_no_rows_is_no_valid_data [sheet_truck_b; sheet_truck_a]);
    vm_compute; reflexivity.
Defined.

(** *** Duplicates across workbooks *)

(** The first row of a key is kept. *)
Lemma drop_duplicates_first (pre post : list order_row) r : ∀ seen,
  duplicate_key r ∉ seen → duplicate_key r ∉ (duplicate_key <$> pre) →
  r ∈ drop_duplicates seen (pre ++ r :: post).
Proof.
  induction pre as [|x pre IH]; intros seen Hs Hpre; simpl.
  - fold (duplicate_key r). rewrite bool_decide_eq_false_2 by done. left.
  - fold (duplicate_key x). rewrite fmap_cons in Hpre. apply not_elem_of_cons in Hpre as [Hx Hpre].
    case_bool_decide; [by apply IH|]. right. apply IH; [|done].
    by apply not_elem_of_cons.
Qed.

(** Rows whose keys have all been met add nothing. *)
Lemma drop_duplicates_app (rows more : list order_row) : ∀ seen,
  (∀ r, r ∈ more → duplicate_key r ∈ seen ∨ duplicate_key r ∈ (duplicate_key <$> rows)) →
  drop_duplicates seen (rows ++ more) = drop_duplicates seen rows.
Proof.
  induction rows as [|x rows IH]; intros seen Hmore.
  - simpl. induction more as [|y more IHm]; [done|]. simpl. fold (duplicate_key y).
    destruct (Hmore y) as [Hy|Hy%elem_of_nil]; [left|rewrite bool_decide_eq_true_2 by done|done].
    apply IHm. intros r Hr. apply Hmore. by right.
  - simpl. fold (duplicate_key x). case_bool_decide as Hx.
    + apply IH. intros r Hr. destruct (Hmore r Hr) as [?|Hk]; [by left|].
      rewrite fmap_cons in Hk. apply elem_of_cons in Hk as [->|?]; [by left|by right].
    + f_equal. apply IH. intros r Hr. destruct (Hmore r Hr) as [?|Hk]; [left; by right|].
      rewrite fmap_cons in Hk. apply elem_of_cons in Hk as [->|?]; [left; left|by right].
Qed.

Lemma drop_duplicates_nonempty rows : rows ≠ [] → drop_duplicates [] rows ≠ [].
Proof.
  destruct rows as [|x rows]; [done|]. intros _. cbn [drop_duplicates].
  case_bool_decide as Hx; [by apply elem_of_nil in Hx|done].
Qed.

Lemma elem_of_tables excel_files rows :
  rows ∈ tables excel_files ↔
  ∃ f truck, f ∈ excel_files ∧ read_excel_to_df f = Ok (rows, truck).
Proof.
  unfold tables. rewrite list_elem_of_omap. split.
  - intros (f & Hf & Hr). destruct (read_excel_to_df f) as [[rs truck]|] eqn:Hread; [|done].
    injection Hr as ->. eauto.
  - intros (f & truck & Hf & Hread). exists f. by rewrite Hread.
Qed.

Lemma elem_of_concat {A} (ls : list (list A)) x :
  x ∈ concat ls ↔ ∃ l, x ∈ l ∧ l ∈ ls.
Proof.
  induction ls as [|l ls IH]; simpl.
  - split; [by intros ?%elem_of_nil|by intros (? & _ & ?%elem_of_nil)].
  - rewrite elem_of_app, IH. split.
    + intros [?|(l' & ? & ?)]; [exists l; split; [done|left]|exists l'; split; [done|by right]].
    + intros (l' & ? & [->|?]%elem_of_cons); [by left|right; eauto].
Qed.

Lemma drop_duplicates_sublist rows : ∀ seen, drop_duplicates seen rows `sublist_of` rows.
Proof.
  induction rows as [|x rows IH]; intros seen; simpl; [constructor|].
  case_bool_decide; [apply sublist_cons|apply sublist_skip]; apply IH.
Qed.

(** X19: the table that [process_multiple_excels] returns is not
    empty; its rows are rows of the tables of the workbooks, unchanged
    and in the order of the workbooks; no two of them have the same
    customer id and location; and every customer id and location of a
    row of a workbook is met in it. *)
Theorem X19_combined_table :
  ∀ (excel_files : list sheet) rows truck,
    process_multiple_excels excel_files = Ok (rows, truck) →
    rows ≠ [] ∧
    rows `sublist_of` concat (tables excel_files) ∧
    NoDup (duplicate_key <$> rows) ∧
    (∀ f table t r,
       f ∈ excel_files → read_excel_to_df f = Ok (table, t) → r ∈ table →
       duplicate_key r ∈ (duplicate_key <$> rows)).
Proof.
  intros excel_files rows truck (_ & Hne & _ & -> & _)%process_multiple_excels_ok.
  split; [by apply drop_duplicates_nonempty|].
  split; [apply drop_duplicates_sublist|].
  split; [apply drop_duplicates_NoDup|].
  intros f table t r Hf Hread Hr.
  destruct (drop_duplicates_keys (concat (tables excel_files)) [] r) as [?%elem_of_nil|?];
    [|done..].
  apply elem_of_concat. exists table. split; [done|]. apply elem_of_tables. eauto.
Qed.

Lemma X19_combined_table_witness :
  two_customers ≠ [] ∧
  two_customers `sublist_of` concat (tables [sheet_two_customers; sheet_two_customers]) ∧
  NoDup (duplicate_key <$> two_customers).
Proof.
  destruct (X19_combined_table [sheet_two_customers; sheet_two_customers] two_customers
              (Some "KBX123Z")) as (H1 & H2 & H3 & _).
  - vm_compute. reflexivity.
  - exact (conj H1 (conj H2 H3)).
Defined.

(** *** The same workbook again *)

Lemma identifiers_app (fs gs : list sheet) :
  identifiers (fs ++ gs) = identifiers fs ∪ identifiers gs.
Proof.
  induction fs as [|f fs IH]; simpl; [by rewrite union_empty_l_L|].
  destruct (read_excel_to_df f) as [[rows [[|c t]|]]|]; try done.
  by rewrite IH, (assoc_L (∪)).
Qed.

Lemma identifiers_subseteq (fs gs : list sheet) :
  (∀ g, g ∈ gs → g ∈ fs) → identifiers gs ⊆ identifiers fs.
Proof.
  assert (∀ (hs : list sheet) t, t ∈ identifiers hs ↔
            ∃ h rows c t', h ∈ hs ∧ read_excel_to_df h = Ok (rows, Some (String c t')) ∧
                           t = String c t') as Hid.
  { induction hs as [|h hs IH]; intros t; simpl.
    - split; [by intros ?%elem_of_empty|by intros (? & ? & ? & ? & ?%elem_of_nil & _)].
    - assert (t ∈ identifiers hs ↔
              ∃ h0 rows c t', h0 ∈ hs ∧ read_excel_to_df h0 = Ok (rows, Some (String c t')) ∧
                              t = String c t') as IH' by apply IH.
      destruct (read_excel_to_df h) as [[rows [[|c t']|]]|] eqn:Hh.
      1,3,4: rewrite IH'; split;
        [intros (h0 & rs & c0 & t0 & ? & ? & ?); exists h0, rs, c0, t0; split; [by right|done]
        |intros (h0 & rs & c0 & t0 & [->|?]%elem_of_cons & Hr & ?);
           [congruence|exists h0, rs, c0, t0; done]].
      rewrite elem_of_union, elem_of_singleton, IH'. split.
      + intros [->|(h0 & rs & c0 & t0 & ? & ? & ?)].
        * exists h, rows, c, t'. split; [left|done].
        * exists h0, rs, c0, t0. split; [by right|done].
      + intros (h0 & rs & c0 & t0 & [->|?]%elem_of_cons & Hr & ->).
        * left. congruence.
        * right. exists h0, rs, c0, t0. done. }
  intros Hsub t (h & rows & c & t' & Hh & Hr & ->)%Hid.
  apply Hid. exists h, rows, c, t'. split; [by apply Hsub|done].
Qed.

Lemma reads_split (fs : list sheet) :
  forallb reads fs = false →
  ∃ pre f post e, fs = (pre ++ f :: post)%list ∧ forallb reads pre = true ∧
                  read_excel_to_df f = Raise e.
Proof.
  induction fs as [|f fs IH]; simpl; [done|].
  destruct (reads f) eqn:Hf; simpl.
  - intros (pre & g & post & e & -> & Hpre & Hg)%IH.
    exists (f :: pre), g, post, e. simpl. by rewrite Hf, Hpre.
  - intros _. unfold reads in Hf. destruct (read_excel_to_df f) as [|e] eqn:Hr; [done|].
    by exists [], f, fs, e.
Qed.

(** X20: workbooks that are already part of a submission change
    nothing when they are submitted once more after it: the table, the
    truck number or the failure are those of the submission without
    them. *)
Theorem X20_resubmitted_workbooks :
  ∀ excel_files again : list sheet,
    (∀ f, f ∈ again → f ∈ excel_files) →
    process_multiple_excels (excel_files ++ again) = process_multiple_excels excel_files.
Proof.
  intros fs gs Hsub.
  destruct (forallb reads fs) eqn:Hfs.
  - assert (forallb reads gs = true) as Hgs.
    { apply forallb_forall. intros g Hg%list_elem_of_In.
      rewrite forallb_forall in Hfs. apply Hfs, list_elem_of_In, Hsub, Hg. }
    unfold process_multiple_excels.
    rewrite !read_all_tables by (by rewrite ?forallb_app, ?Hfs, ?Hgs).
    cbn [mbind exn_bind app]. rewrite !union_empty_r_L.
    assert (identifiers (fs ++ gs) = identifiers fs) as ->.
    { rewrite identifiers_app, (comm_L (∪)).
      by apply subseteq_union_1_L, identifiers_subseteq. }
    unfold tables. rewrite omap_app. fold (tables fs) (tables gs). rewrite filter_app.
    assert (bool_decide ((filter (λ l, l ≠ []) (tables fs)
                          ++ filter (λ l, l ≠ []) (tables gs))%list = [])
            = bool_decide (filter (λ l, l ≠ []) (tables fs) = [])) as ->.
    { apply bool_decide_ext. split.
      - by intros [? _]%app_eq_nil.
      - intros Hnil. rewrite Hnil. simpl. apply filter_none.
        intros l Hl Hne. apply elem_of_tables in Hl as (g & t & Hg & Hr).
        assert (l ∈ filter (λ l, l ≠ []) (tables fs)) as Hin.
        { apply list_elem_of_filter. split; [done|]. apply elem_of_tables. eauto. }
        rewrite Hnil in Hin. by apply elem_of_nil in Hin. }
    case_bool_decide; [done|]. case_bool_decide; [done|].
    rewrite <- filter_app, !concat_nonempty, concat_app.
    rewrite drop_duplicates_app; [done|].
    intros r (l & Hr & (g & t & Hg & Hread)%elem_of_tables)%elem_of_concat.
    right. apply list_elem_of_fmap. exists r. split; [done|].
    apply elem_of_concat. exists l. split; [done|]. apply elem_of_tables. eauto.
  - apply reads_split in Hfs as (pre & f & post & e & -> & Hpre & Hf).
    rewrite <- app_assoc. simpl.
    unfold process_multiple_excels.
    by rewrite !(read_all_first_error pre _ f e).
Qed.

Lemma X20_resubmitted_workbooks_witness :
  process_multiple_excels ([sheet_two_customers; sheet_truck_a] ++ [sheet_two_customers])
  = process_multiple_excels [sheet_two_customers; sheet_truck_a].
Proof.
  apply (X20_resubmitted_workbooks [sheet_two_customers; sheet_truck_a] [sheet_two_customers]).
  intros f ->%list_elem_of_singleton. left.
Defined.

(** *** The truck of a submission *)

Lemma identifiers_not_empty (fs : list sheet) : "" ∉ identifiers fs.
Proof.
  induction fs as [|f fs IH]; simpl; [apply not_elem_of_empty|].
  destruct (read_excel_to_df f) as [[rows [[|c t]|]]|]; try done.
  by intros [?%elem_of_singleton|?]%elem_of_union.
Qed.

(** X21: the truck number that [process_multiple_excels] returns is
    the one number that the workbooks of the submission name, and it is
    absent exactly when no workbook names one; a number returned is never
    the empty text. *)
Theorem X21_sole_truck :
  ∀ (excel_files : list sheet) rows truck,
    process_multiple_excels excel_files = Ok (rows, truck) →
    match truck with
    | Some t => identifiers excel_files = {[ t ]} ∧ t ≠ ""
    | None => identifiers excel_files = ∅
    end.
Proof.
  intros excel_files rows truck (_ & _ & Hsize & _ & ->)%process_multiple_excels_ok.
  pose proof (identifiers_not_empty excel_files) as Hne.
  destruct (decide (size (identifiers excel_files) = 0%nat)) as [H0|H0].
  - apply size_empty_inv in H0. apply leibniz_equiv in H0. rewrite H0.
    by rewrite elements_empty.
  - assert (size (identifiers excel_files) = 1)%nat as H1 by lia.
    apply size_1_elem_of in H1 as [t Ht]. apply leibniz_equiv in Ht.
    rewrite Ht in *. rewrite elements_singleton. simpl. split; [done|].
    intros ->. apply Hne. by apply elem_of_singleton.
Qed.

Lemma X21_sole_truck_witness :
  identifiers [sheet_two_customers; sheet_truck_a] = {[ "KBX123Z" ]} ∧ "KBX123Z" ≠ "".
Proof.
  apply (X21_sole_truck [sheet_two_customers; sheet_truck_a] two_customers (Some "KBX123Z")).
  vm_compute. reflexivity.
Defined.

(** ** The course of a run *)

Lemma read_route_result_accepted session_id route_result :
  if accepted route_result
  then read_route_result session_id route_result = created session_id
  else failed (read_route_result session_id route_result).
Proof.
  destruct route_result as [| | | | |items|d]; simpl; try done.
  - induction items as [|item items IH]; [done|]. cbn [forallb].
    destruct (item_failed item) eqn:Hitem; cbn [negb andb].
    + rewrite filter_cons_True by done. unfold failed. simpl. split; [|done].
      unfold item_failed in Hitem. apply andb_prop in Hitem as [_ Hnz%negb_true_iff].
      destruct (dict_get item "error") as [code|]; simpl in *; [done|].
      by vm_compute in Hnz.
    + rewrite filter_cons_False by (by rewrite Hitem). exact IH.
  - destruct (eq_int _ 0) eqn:Hz; [done|]. by split.
Qed.

Lemma failure_failed m : failed (failure (JInt 1) m).
Proof. by split. Qed.

(** The course of [send_orders_and_create_route]: the calls it makes
    and, where it stops early, that it reports a failure. *)
Lemma send_orders_run calculate_distance sort_values calc_dist now net
    token resource_id unit_id vehicle_name df_grouped tf tt :
  let run := send_orders_and_create_route calculate_distance sort_values calc_dist now net
               token resource_id unit_id vehicle_name df_grouped tf tt in
  ∃ rest, run.2 = TokenLogin (Py.strip token) :: rest ∧
    ((rest = [] ∧ failed run.1) ∨
     ∃ df' osrm, forallb is_osrm osrm = true ∧
       ((rest = OrderOptimize resource_id (build_orders df') unit_id :: osrm ∧ failed run.1) ∨
        ∃ plan rs,
          rest = (OrderOptimize resource_id (build_orders df') unit_id
                    :: osrm ++ [RouteUpdate resource_id plan now (summarize plan rs)])%list ∧
          (∃ entries end_rp t t',
             build_route calc_dist net unit_id tf df' entries end_rp t = (Ok plan, t')) ∧
          match route_response net with
          | Ok route_result =>
              ∃ login_result session_id,
                login_response net = Ok login_result ∧
                dict_get login_result "eid" = Some session_id ∧
                run.1 = read_route_result session_id route_result
          | Raise _ => failed run.1
          end)).
Proof.
  intros run.
  assert (run = send_orders_and_create_route calculate_distance sort_values calc_dist
                  now net token resource_id unit_id vehicle_name df_grouped tf tt)
    as Hrun by reflexivity.
  clearbody run. revert Hrun.
  unfold send_orders_and_create_route, send_orders_body. io_step.
  destruct (login_response net) as [login_result|e] eqn:Hlogin; simpl;
    [|intros ->; eexists; split; [reflexivity|left; split; [done|apply failure_failed]]].
  destruct (dict_get login_result "eid") as [session_id|] eqn:Heid; simpl;
    [|intros ->; eexists; split; [reflexivity|left; split; [done|apply failure_failed]]].
  io_step.
  destruct (sorted_by_distance _ _ _) as [df'|e]; simpl;
    [|intros ->; eexists; split; [reflexivity|left; split; [done|apply failure_failed]]].
  io_step.
  assert (∀ (r : result * list call) (Q : list call → list order_row → list call → Prop),
            r.2 = [TokenLogin (Py.strip token);
                   OrderOptimize resource_id (build_orders df') unit_id] →
            failed r.1 →
            ∃ rest, r.2 = TokenLogin (Py.strip token) :: rest ∧
              ((rest = [] ∧ failed r.1) ∨
               ∃ df' osrm, forallb is_osrm osrm = true ∧
                 ((rest = OrderOptimize resource_id (build_orders df') unit_id :: osrm
                   ∧ failed r.1) ∨ Q rest df' osrm))) as Hstop.
  { intros r Q Hr Hf. eexists. split; [exact Hr|]. right. exists df', []. split; [done|].
    left. done. }
  destruct (optimize_response net) as [optimize_result|e]; simpl;
    [|intros ->; apply Hstop; [done|apply failure_failed]].
  destruct (is_dict optimize_result && _) eqn:Herr; simpl.
  { intros ->. apply Hstop; [done|]. split; [|done]. simpl.
    apply andb_prop in Herr as [_ Hnz%negb_true_iff].
    destruct (dict_get optimize_result "error") as [code|]; simpl in *; [done|].
    by vm_compute in Hnz. }
  io_step.
  destruct (read_optimize_result unit_id optimize_result) as [[[orders rs] end_rp]|e];
    simpl; [|intros ->; apply Hstop; [done|apply failure_failed]].
  destruct (truthy orders); simpl; [|intros ->; apply Hstop; [done|apply failure_failed]].
  io_step.
  destruct (iterate orders) as [entries|e]; simpl;
    [|intros ->; apply Hstop; [done|apply failure_failed]].
  io_step.
  match goal with |- context [build_route _ _ _ _ _ _ _ ?t] => set (t0 := t) end.
  destruct (only_osrm_build_route calc_dist net unit_id tf df' entries end_rp t0)
    as (ext & Hext & Hosrm).
  destruct (build_route calc_dist net unit_id tf df' entries end_rp t0)
    as [[plan|e] t1] eqn:Hb; simpl in Hext; subst t1; simpl.
  - io_step. intros Hrun. eexists. split.
    { rewrite Hrun. destruct (route_response net); reflexivity. }
    right. exists df', ext. split; [done|]. right. exists plan, rs. split; [done|].
    split; [eauto|]. rewrite Hrun. destruct (route_response net) as [route_result|e]; simpl.
    + by exists login_result, session_id.
    + apply failure_failed.
  - intros ->. eexists. split; [reflexivity|]. right. exists df', ext. split; [done|].
    left. split; [done|apply failure_failed].
Qed.

(** X22: the calls of [send_orders_and_create_route] come in one
    order: first the login with the token stripped of surrounding white
    space, then at most one optimize call for the resource and the unit,
    then calls to the road-routing service only, then at most one route
    update for the resource; without the optimize call nothing follows
    the login. *)
Theorem X22_order_of_the_calls :
  ∀ calculate_distance sort_values calc_dist now net token resource_id unit_id
    vehicle_name df_grouped tf tt,
    ∃ optimize osrm update,
      (send_orders_and_create_route calculate_distance sort_values calc_dist now net
         token resource_id unit_id vehicle_name df_grouped tf tt).2
      = (TokenLogin (Py.strip token) :: optimize ++ osrm ++ update)%list ∧
      (optimize = [] ∨ ∃ orders, optimize = [OrderOptimize resource_id orders unit_id]) ∧
      forallb is_osrm osrm = true ∧
      (update = [] ∨ ∃ plan sum, update = [RouteUpdate resource_id plan now sum]) ∧
      (optimize = [] → osrm = [] ∧ update = []).
Proof.
  intros.
  destruct (send_orders_run calculate_distance sort_values calc_dist now net token
              resource_id unit_id vehicle_name df_grouped tf tt)
    as (rest & -> & [[-> _]|(df' & osrm & Hosrm & [[-> _]|(plan & rs & -> & _ & _)])]).
  - exists [], [], []. repeat split; auto.
  - exists [OrderOptimize resource_id (build_orders df') unit_id], osrm, [].
    rewrite app_nil_r. repeat split; eauto. all: done.
  - exists [OrderOptimize resource_id (build_orders df') unit_id], osrm,
           [RouteUpdate resource_id plan now (summarize plan rs)].
    repeat split; eauto. all: done.
Qed.

Lemma osrm_no_update (osrm : list call) :
  forallb is_osrm osrm = true → existsb is_update osrm = false.
Proof.
  induction osrm as [|c osrm IH]; simpl; [done|].
  intros [Hc ?]%andb_prop. rewrite IH by done. by destruct c.
Qed.

(** Success is reported only for an update that was made and accepted. *)
Lemma success_needs_update calculate_distance sort_values calc_dist now net
    token resource_id unit_id vehicle_name df_grouped tf tt :
  let run := send_orders_and_create_route calculate_distance sort_values calc_dist now net
               token resource_id unit_id vehicle_name df_grouped tf tt in
  eq_int (error run.1) 0 = true →
  existsb is_update run.2 = true ∧
  (∃ route_result, route_response net = Ok route_result ∧ accepted route_result = true) ∧
  msg run.1 = Text "Route created successfully" ∧ is_Some (planning_url run.1) ∧
  (∃ login_result, login_response net = Ok login_result ∧
                   planning_url run.1 = dict_get login_result "eid").
Proof.
  intros run.
  destruct (send_orders_run calculate_distance sort_values calc_dist now net token
              resource_id unit_id vehicle_name df_grouped tf tt)
    as (rest & Hcalls & Hcases).
  fold run in Hcalls, Hcases. rewrite Hcalls. clear Hcalls. intros Hzero.
  destruct Hcases as [[-> [Hf _]]|(df' & osrm & Hosrm & [[-> [Hf _]]|(plan & rs & -> & _ & Hr)])];
    [congruence..|].
  split; [simpl; rewrite existsb_app; simpl; apply orb_true_r|].
  destruct (route_response net) as [route_result|e]; [|destruct Hr as [Hf _]; congruence].
  destruct Hr as (login_result & session_id & Hlogin & Heid & Hr).
  pose proof (read_route_result_accepted session_id route_result) as Ha.
  destruct (accepted route_result) eqn:Hacc.
  - rewrite Hr, Ha. simpl. split; [eauto|]. split; [done|]. split; [eauto|].
    exists login_result. by rewrite Heid.
  - rewrite <- Hr in Ha. destruct Ha as [Hf _]. congruence.
Qed.

(** X23: [send_orders_and_create_route] returns the error code zero
    exactly when it has made the route update call and the answer to
    that call reports no error; the result then carries the message of
    success and the link, and a result with another error code carries
    no link. *)
Theorem X23_success_is_an_accepted_update :
  ∀ calculate_distance sort_values calc_dist now net token resource_id unit_id
    vehicle_name df_grouped tf tt,
    let run := send_orders_and_create_route calculate_distance sort_values calc_dist now net
                 token resource_id unit_id vehicle_name df_grouped tf tt in
    (eq_int (error run.1) 0 = true ↔
       existsb is_update run.2 = true ∧
       ∃ route_result, route_response net = Ok route_result ∧ accepted route_result = true) ∧
    (eq_int (error run.1) 0 = true →
       msg run.1 = Text "Route created successfully" ∧ is_Some (planning_url run.1)) ∧
    (eq_int (error run.1) 0 = false → planning_url run.1 = None).
Proof.
  intros calculate_distance sort_values calc_dist now net token resource_id unit_id
         vehicle_name df_grouped tf tt run.
  destruct (send_orders_run calculate_distance sort_values calc_dist now net token
              resource_id unit_id vehicle_name df_grouped tf tt)
    as (rest & Hcalls & Hcases).
  fold run in Hcalls, Hcases. rewrite Hcalls. clear Hcalls.
  assert (failed run.1 →
          (eq_int (error run.1) 0 = true →
             msg run.1 = Text "Route created successfully" ∧ is_Some (planning_url run.1)) ∧
          (eq_int (error run.1) 0 = false → planning_url run.1 = None)) as Hfailed.
  { intros [Hf Hu]. split; [congruence|done]. }
  destruct Hcases as [[-> Hf]|(df' & osrm & Hosrm & [[-> Hf]|(plan & rs & -> & _ & Hr)])].
  - split; [|by apply Hfailed]. destruct Hf as [Hf _]. rewrite Hf. simpl. by split; [|intros [? _]].
  - split; [|by apply Hfailed]. destruct Hf as [Hf _]. rewrite Hf. simpl.
    rewrite osrm_no_update by done. by split; [|intros [? _]].
  - assert (existsb is_update
              (TokenLogin (Py.strip token) :: OrderOptimize resource_id (build_orders df') unit_id
               :: osrm ++ [RouteUpdate resource_id plan now (summarize plan rs)]) = true) as ->.
    { simpl. rewrite existsb_app. simpl. apply orb_true_r. }
    destruct (route_response net) as [route_result|e].
    + destruct Hr as (login_result & session_id & _ & _ & Hr).
      pose proof (read_route_result_accepted session_id route_result) as Ha.
      destruct (accepted route_result) eqn:Hacc.
      * rewrite Hr, Ha. simpl. split; [split; [eauto|done]|]. split; [eauto|done].
      * rewrite <- Hr in Ha. split; [|by apply Hfailed]. destruct Ha as [Ha _]. rewrite Ha.
        split; [done|]. intros [_ (rr & [= <-] & ?)]. congruence.
    + split; [|by apply Hfailed]. destruct Hr as [Hf _]. rewrite Hf.
      split; [done|]. by intros [_ (rr & [=] & _)].
Qed.

(** ** The stops of the plan *)

Lemma named_snoc name (df : list order_row) row :
  named name (df ++ [row])
  = (named name df ++ if decide (CUSTOMER_NAME row = name) then [row] else [])%list.
Proof.
  unfold named. by rewrite filter_app.
Qed.

Lemma coord_map_rows (df : list order_row) name :
  foldl (λ (m : gmap string coords) row,
           <[CUSTOMER_NAME row := {| y := LAT row; x := LONG row |}]> m) ∅ df !! name
  = coords_of <$> last (named name df).
Proof.
  induction df as [|row df IH] using rev_ind; [done|].
  rewrite foldl_app, named_snoc. simpl. destruct (decide (CUSTOMER_NAME row = name)) as [<-|Hne].
  - by rewrite lookup_insert_eq, last_snoc.
  - by rewrite lookup_insert_ne, app_nil_r.
Qed.

Lemma coord_map_of_lookup (df : list order_row) name :
  coord_map_of df !! name
  = if decide (name = "MORL") then Some morl else coords_of <$> last (named name df).
Proof.
  unfold coord_map_of. destruct (decide (name = "MORL")) as [->|Hne].
  - by rewrite lookup_insert_eq.
  - rewrite lookup_insert_ne by done. apply coord_map_rows.
Qed.

Lemma named_occurs (df : list order_row) idx row :
  df !! idx = Some row →
  ∃ first final, head (named (CUSTOMER_NAME row) df) = Some first ∧
                 last (named (CUSTOMER_NAME row) df) = Some final.
Proof.
  intros Hrow.
  assert (row ∈ named (CUSTOMER_NAME row) df) as Hin.
  { apply list_elem_of_filter. split; [done|]. by eapply list_elem_of_lookup_2. }
  destruct (named (CUSTOMER_NAME row) df) as [|first l] eqn:Hn; [by apply elem_of_nil in Hin|].
  exists first. destruct (last (first :: l)) as [final|] eqn:Hl; [eauto|].
  by apply last_None in Hl.
Qed.

Lemma lookup_order_ok (df : list order_row) order_id name :
  lookup_order (order_ids df) order_id = Ok (Some name) →
  ∃ idx row, df !! idx = Some row ∧ int_value order_id = Some (Z.of_nat idx + 1) ∧
             name = CUSTOMER_NAME row.
Proof.
  unfold lookup_order. destruct (hashable order_id); [|done].
  destruct (int_value order_id) as [z|]; simpl; [|done].
  intros [= (idx & row & ? & -> & ?)%order_ids_lookup]. eauto.
Qed.

(** A turn of the loop that does not raise leaves the stops as they
    are or appends one stop, built from the rows of its customer. *)
Lemma add_order_carries calc_dist net unit_id tf (df : list order_row) st resp t st' t' :
  add_order calc_dist net unit_id tf df (order_ids df) (coord_map_of df) st resp t
    = (Ok st', t') →
  st' = st ∨ ∃ s, route_orders st' = (route_orders st ++ [s])%list ∧ carries df s.
Proof.
  unfold add_order.
  destruct (order_id_of resp) as [order_id|]; [|intros [-> _]%mret_ok; by left].
  intros (found & t1 & [Hl ->]%lift_ok & H)%io_bind_ok.
  destruct found as [order_name|]; [|apply mret_ok in H as [-> _]; by left].
  right. apply lookup_order_ok in Hl as (idx & row & Hrow & Hid & ->).
  destruct (named_occurs df idx row Hrow) as (first & final & Hfirst & Hfinal).
  fold (named (CUSTOMER_NAME row) df) in H.
  apply io_bind_ok in H as (w & t2 & [Hw ->]%lift_ok & H).
  apply io_bind_ok in H as (m & t3 & _ & H).
  apply io_bind_ok in H as (rp & t4 & _ & H).
  apply io_bind_ok in H as (c & t5 & [Hc ->]%lift_ok & H).
  apply mret_ok in H as [-> _]. simpl. eexists. split; [reflexivity|].
  exists idx, row, first, final. simpl.
  destruct (named (CUSTOMER_NAME row) df) as [|r l] eqn:Hn; [done|].
  injection Hfirst as ->.
  repeat split; try done.
  rewrite coord_map_of_lookup, Hn, Hfinal. by destruct (decide _).
Qed.

Lemma foldM_add_order_carries calc_dist net unit_id tf (df : list order_row) entries :
  ∀ st t st' t',
    foldM (add_order calc_dist net unit_id tf df (order_ids df) (coord_map_of df))
          st entries t = (Ok st', t') →
    ∃ cs, route_orders st' = (route_orders st ++ cs)%list ∧ Forall (carries df) cs.
Proof.
  induction entries as [|e entries IH]; intros st t st' t'; simpl.
  - intros [-> _]%mret_ok. exists []. by rewrite app_nil_r.
  - intros (st1 & t1 & H1 & (cs & Hro & Hcs)%IH)%io_bind_ok.
    apply add_order_carries in H1 as [->|(s & Hs & Hc)]; [by exists cs|].
    exists (s :: cs). rewrite Hro, Hs, <- app_assoc. split; [done|]. by constructor.
Qed.

(** A plan that [build_route] returns: the start, the customer stops
    with the rows they are built from, and the end with its id. *)
Lemma build_route_carries calc_dist net unit_id tf (df : list order_row) entries end_rp
    t plan t' :
  build_route calc_dist net unit_id tf df entries end_rp t = (Ok plan, t') →
  ∃ cs fin,
    plan = (depot_stop unit_id (JInt 0) 260 tf 0 0 None :: cs ++ [fin])%list ∧
    Forall (carries df) cs ∧ s_f fin = 264 ∧
    s_id fin = succ_id (max_id (s_id <$> depot_stop unit_id (JInt 0) 260 tf 0 0 None :: cs)) ∧
    s_w fin = 0 ∧ s_c fin = 0.
Proof.
  unfold build_route.
  intros (st & t1 & (cs & Hro & Hcs)%foldM_add_order_carries & H)%io_bind_ok.
  apply io_bind_ok in H as (m & t2 & _ & H).
  apply io_bind_ok in H as (rp & t3 & _ & H).
  apply mret_ok in H as [-> _]. simpl in Hro.
  exists cs. eexists. rewrite Hro. split; [reflexivity|]. done.
Qed.

Lemma named_unique (df : list order_row) idx row :
  NoDup (CUSTOMER_NAME <$> df) → df !! idx = Some row → named (CUSTOMER_NAME row) df = [row].
Proof.
  revert idx. induction df as [|r df IH]; intros idx; [done|].
  rewrite fmap_cons. intros [Hr Hnd]%NoDup_cons. unfold named. destruct idx as [|idx]; simpl.
  - intros [= ->]. rewrite filter_cons_True by done. f_equal.
    apply filter_none. intros r' Hin Heq. apply Hr, list_elem_of_fmap. eauto.
  - intros Hrow. rewrite filter_cons_False.
    + by apply (IH idx).
    + intros Heq. apply Hr, list_elem_of_fmap. exists row.
      split; [done|]. by eapply list_elem_of_lookup_2.
Qed.

(** X24: every customer stop of a plan that [build_route] returns is
    built from the table: its id is the number of a row, counted from 1,
    and its name the customer name of that row; its weight and cost are
    those of the first row of that name and its coordinates those of the
    last row of that name, or of the warehouse when the name is MORL.
    When no two rows have the same customer name, weight, cost and (for
    a name other than MORL) coordinates are those of the row of its
    id. *)
Theorem X24_stop_built_from_rows :
  ∀ calc_dist net unit_id tf (df_grouped : list order_row) entries end_rp t plan t',
    build_route calc_dist net unit_id tf df_grouped entries end_rp t = (Ok plan, t') →
    ∀ s, s ∈ plan → s_f s = 0 →
      carries df_grouped s ∧
      (NoDup (CUSTOMER_NAME <$> df_grouped) →
       ∃ (idx : nat) row,
         df_grouped !! idx = Some row ∧ int_value (s_id s) = Some (Z.of_nat idx + 1) ∧
         s_n s = CUSTOMER_NAME row ∧
         kilograms (TONNAGE row) = Ok (s_w s) ∧ int_of_float (AMOUNT row) = Ok (s_c s) ∧
         (s_n s ≠ "MORL" → s_y s = LAT row ∧ s_x s = LONG row)).
Proof.
  intros calc_dist net unit_id tf df entries end_rp t plan t'
         (cs & fin & -> & Hcs & Hfin & _ & _)%build_route_carries s Hs Hf.
  assert (carries df s) as Hc.
  { rewrite Forall_forall in Hcs. apply Hcs.
    apply elem_of_cons in Hs as [->|[?| ->%list_elem_of_singleton]%elem_of_app];
      [done|done|congruence]. }
  split; [done|]. intros Hnd.
  destruct Hc as (idx & row & first & final & Hrow & Hid & _ & Hn & Hfirst & Hfinal
                  & Hw & Hcost & Hxy).
  rewrite Hn, (named_unique df idx row Hnd Hrow) in Hfirst, Hfinal.
  injection Hfirst as <-. injection Hfinal as <-.
  exists idx, row. do 5 (split; [done|]).
  intros Hne. rewrite decide_False in Hxy by done. by injection Hxy as -> ->.
Qed.

Lemma X24_stop_built_from_rows_witness :
  Forall (λ s, s_f s = 0 → carries two_customers s) sample_plan.
Proof.
  apply Forall_forall. intros s Hs Hf.
  apply (X24_stop_built_from_rows flat_leg sample_net 101 1700000000 two_customers
           sample_entries (Some (JStr "ab_c")) [] sample_plan sample_calls);
    [vm_compute; reflexivity|done..].
Defined.

(** ** The id of the end depot *)

Lemma int_value_integral q z :
  int_value (JFloat (PFin q)) = Some z → Qnum q = z * Z.pos (Qden q).
Proof.
  simpl. destruct (Z.eqb_spec (Z.rem (Qnum q) (Z.pos (Qden q))) 0) as [Hr|]; [|done].
  intros [= <-]. pose proof (Z.quot_rem' (Qnum q) (Z.pos (Qden q))) as H. lia.
Qed.

Lemma integral_int_value q z :
  Qnum q = z * Z.pos (Qden q) → int_value (JFloat (PFin q)) = Some z.
Proof.
  intros H. simpl. rewrite H, Z.rem_mul by lia. simpl. by rewrite Z.quot_mul by lia.
Qed.

Lemma int_value_succ_id v z : int_value v = Some z → int_value (succ_id v) = Some (z + 1).
Proof.
  destruct v as [|b|n|[q| |]|s|l|d]; try done.
  - intros Hv. unfold succ_id. rewrite Hv. done.
  - intros Hv. unfold succ_id. rewrite Hv. done.
  - intros Hq%int_value_integral. unfold succ_id. apply integral_int_value.
    pose proof (Qred_correct (q + 1)) as Hred. unfold Qeq in Hred. simpl in Hred.
    nia.
Qed.

Lemma max_from_spec (ids : list json) : ∀ best,
  max_from best ids ∈ best :: ids ∧
  default 0 (int_value best) ≤ default 0 (int_value (max_from best ids)) ∧
  ∀ j, j ∈ ids → default 0 (int_value j) ≤ default 0 (int_value (max_from best ids)).
Proof.
  induction ids as [|j ids IH]; intros best; simpl.
  - split; [left|]. split; [lia|]. by intros ? ?%elem_of_nil.
  - destruct (Z.ltb_spec (default 0 (int_value best)) (default 0 (int_value j))) as [Hlt|Hge].
    + destruct (IH j) as (Hin & Hb & Hall). split; [by right|]. split; [lia|].
      intros j' [->|?]%elem_of_cons; [done|by apply Hall].
    + destruct (IH best) as (Hin & Hb & Hall). split.
      { apply elem_of_cons in Hin as [->|?]; [left|right; by right]. }
      split; [done|]. intros j' [->|?]%elem_of_cons; [lia|by apply Hall].
Qed.

(** X25: in a plan that [build_route] returns, the id of the end depot
    is one more than the greatest id of the stops before it, so that it
    is greater than the id of every other stop of the plan. *)
Theorem X25_end_depot_id :
  ∀ calc_dist net unit_id tf (df_grouped : list order_row) entries end_rp t plan t',
    build_route calc_dist net unit_id tf df_grouped entries end_rp t = (Ok plan, t') →
    ∃ before fin,
      plan = (before ++ [fin])%list ∧ s_f fin = 264 ∧
      (∀ s, s ∈ before → id_of s < id_of fin) ∧
      (∃ s, s ∈ before ∧ id_of fin = id_of s + 1).
Proof.
  intros calc_dist net unit_id tf df entries end_rp t plan t'
         (cs & fin & -> & Hcs & Hfin & Hid & _)%build_route_carries.
  set (start := depot_stop unit_id (JInt 0) 260 tf 0 0 None) in *.
  exists (start :: cs), fin. split; [done|]. split; [done|].
  assert (∀ s, s ∈ start :: cs → ∃ z, int_value (s_id s) = Some z) as Hint.
  { intros s [->|Hs]%elem_of_cons; [by exists 0|].
    rewrite Forall_forall in Hcs. destruct (Hcs s Hs) as (idx & ? & ? & ? & _ & ? & _). eauto. }
  rewrite fmap_cons in Hid. cbn [max_id] in Hid.
  destruct (max_from_spec (s_id <$> cs) (s_id start)) as (Hin & Hb & Hall).
  rewrite <- fmap_cons in Hin. apply list_elem_of_fmap in Hin as (top & Htop & Hin).
  destruct (Hint top Hin) as [z Hz].
  assert (id_of fin = id_of top + 1) as Hfin_id.
  { unfold id_of. rewrite Hid, Htop. by rewrite (int_value_succ_id _ z), Hz. }
  split; [|by exists top].
  intros s Hs. rewrite Hfin_id. unfold id_of. rewrite <- Htop.
  apply elem_of_cons in Hs as [->|Hs]; [lia|].
  specialize (Hall (s_id s)). rewrite list_elem_of_fmap in Hall.
  assert (default 0 (int_value (s_id s))
          ≤ default 0 (int_value (max_from (s_id start) (s_id <$> cs)))) by eauto.
  lia.
Qed.

Lemma X25_end_depot_id_witness :
  ∃ before fin,
    sample_plan = (before ++ [fin])%list ∧ s_f fin = 264 ∧
    (∀ s, s ∈ before → id_of s < id_of fin) ∧
    (∃ s, s ∈ before ∧ id_of fin = id_of s + 1).
Proof.
  apply (X25_end_depot_id flat_leg sample_net 101 1700000000 two_customers
           sample_entries (Some (JStr "ab_c")) [] sample_plan sample_calls).
  vm_compute. reflexivity.
Defined.

(** ** Calls to the road-routing service *)

Lemma osrm_calls_ret {A} (a : A) : osrm_calls 0 (mret a).
Proof. intros t. exists []. by rewrite app_nil_r. Qed.

Lemma osrm_calls_lift {A} (m : exn A) : osrm_calls 0 (lift m).
Proof. intros t. exists []. by rewrite app_nil_r. Qed.

Lemma osrm_calls_le {A} (n n' : nat) (m : io A) :
  (n ≤ n')%nat → osrm_calls n m → osrm_calls n' m.
Proof. intros Hn Hm t. destruct (Hm t) as (ext & ? & ? & ?). exists ext. repeat split; [done..|lia]. Qed.

Lemma osrm_calls_bind {A B} (n1 n2 : nat) (m : io A) (f : A → io B) :
  osrm_calls n1 m → (∀ a, osrm_calls n2 (f a)) → osrm_calls (n1 + n2) (m ≫= f).
Proof.
  intros Hm Hf t. unfold mbind, io_bind.
  destruct (Hm t) as (e1 & H1 & F1 & L1). destruct (m t) as [[a|e] t1]; simpl in H1; subst t1.
  - destruct (Hf a (t ++ e1)%list) as (e2 & H2 & F2 & L2).
    exists (e1 ++ e2)%list. rewrite H2, app_assoc. split; [done|].
    rewrite forallb_app, F1, F2, length_app. split; [done|lia].
  - exists e1. repeat split; [done..|lia].
Qed.

Lemma osrm_calls_resolve net rp src dst :
  osrm_calls (if truthy_opt rp then 0 else 1) (resolve_polyline net rp src dst).
Proof.
  unfold resolve_polyline. destruct (truthy_opt rp); [apply osrm_calls_ret|].
  intros t. exists [OsrmRoute src dst].
  unfold osrm_fallback, swallow, mbind, io_bind, request, lift.
  destruct (osrm_response net src dst) as [osrm_json|e]; [|done].
  by destruct (osrm_geometry osrm_json).
Qed.

Lemma osrm_calls_lift_bind {A B} (n : nat) (m : exn A) (f : A → io B) :
  (∀ a, m = Ok a → osrm_calls n (f a)) → osrm_calls n (lift m ≫= f).
Proof.
  intros Hf t. unfold mbind, io_bind, lift.
  destruct m as [a|e]; [by apply Hf|]. exists []. rewrite app_nil_r. repeat split. simpl. lia.
Qed.

Lemma osrm_calls_add_order calc_dist net unit_id tf df ids cm st resp :
  osrm_calls (if lacks_polyline ids resp then 1 else 0)
             (add_order calc_dist net unit_id tf df ids cm st resp).
Proof.
  unfold lacks_polyline. rewrite recognized_lookup. unfold add_order, supplied.
  destruct (order_id_of resp) as [order_id|]; [|apply osrm_calls_ret].
  apply osrm_calls_lift_bind. intros [order_name|] ->; [|apply osrm_calls_ret].
  apply osrm_calls_lift_bind. intros w _.
  apply osrm_calls_lift_bind. intros m _.
  replace (if true && negb (truthy_opt (or_else (dict_get resp "rp") (dict_get resp "p")))
           then 1%nat else 0%nat)
    with ((if truthy_opt (or_else (dict_get resp "rp") (dict_get resp "p"))
           then 0 else 1) + 0)%nat
    by (by destruct (truthy_opt _)).
  apply osrm_calls_bind; [apply osrm_calls_resolve|]. intros rp.
  apply osrm_calls_lift_bind. intros c _. apply osrm_calls_ret.
Qed.

Lemma osrm_calls_foldM calc_dist net unit_id tf df ids cm entries : ∀ st,
  osrm_calls (length (filter (λ e, lacks_polyline ids e = true) entries))
             (foldM (add_order calc_dist net unit_id tf df ids cm) st entries).
Proof.
  induction entries as [|e entries IH]; intros st; simpl; [apply osrm_calls_ret|].
  pose proof (osrm_calls_add_order calc_dist net unit_id tf df ids cm st e) as He.
  destruct (lacks_polyline ids e) eqn:Hl.
  - rewrite filter_cons_True by done. apply (osrm_calls_bind 1); [done|]. intros st'. apply IH.
  - rewrite filter_cons_False by (by rewrite Hl). apply (osrm_calls_bind 0); [done|].
    intros st'. apply IH.
Qed.

(** X26: while it builds the plan, [build_route] calls nothing but the
    road-routing service, and this at most once for each entry that
    becomes a stop and comes without a polyline, and once more for the
    way back when the answer of the optimizer holds no polyline for it;
    when every polyline is supplied it makes no call at all. *)
Theorem X26_road_routing_calls :
  ∀ calc_dist net unit_id tf (df_grouped : list order_row) entries end_rp t,
    ∃ ext,
      (build_route calc_dist net unit_id tf df_grouped entries end_rp t).2 = (t ++ ext)%list ∧
      forallb is_osrm ext = true ∧
      (length ext
       ≤ length (filter (λ e, lacks_polyline (order_ids df_grouped) e = true) entries)
         + (if truthy_opt end_rp then 0 else 1))%nat ∧
      ((∀ e, e ∈ entries → lacks_polyline (order_ids df_grouped) e = false) →
       truthy_opt end_rp = true → ext = []).
Proof.
  intros calc_dist net unit_id tf df entries end_rp t.
  assert (osrm_calls
            (length (filter (λ e, lacks_polyline (order_ids df) e = true) entries)
             + (if truthy_opt end_rp then 0 else 1))
            (build_route calc_dist net unit_id tf df entries end_rp)) as Hcalls.
  { unfold build_route.
    apply osrm_calls_bind; [apply osrm_calls_foldM|]. intros st.
    apply osrm_calls_lift_bind. intros m _.
    replace (if truthy_opt end_rp then 0%nat else 1%nat)
      with ((if truthy_opt end_rp then 0 else 1) + 0)%nat by lia.
    apply osrm_calls_bind; [apply osrm_calls_resolve|]. intros rp. apply osrm_calls_ret. }
  destruct (Hcalls t) as (ext & Hext & Hosrm & Hlen).
  exists ext. do 3 (split; [done|]).
  intros Hall Hend. rewrite Hend in Hlen.
  rewrite (filter_none (λ e, lacks_polyline (order_ids df) e = true)) in Hlen.
  - destruct ext; [done|]. simpl in Hlen. lia.
  - intros e He. by rewrite (Hall e He).
Qed.

(** ** The summary *)

Lemma carries_flag df s : carries df s → s_f s = 0.
Proof. by intros (? & ? & ? & ? & _ & _ & ? & _). Qed.

Lemma filter_all {A} (P : A → Prop) `{∀ x, Decision (P x)} (l : list A) :
  Forall P l → filter P l = l.
Proof.
  induction 1 as [|x l Hx _ IH]; [done|]. rewrite filter_cons_True by done. by rewrite IH.
Qed.

Lemma sum_Z_app (a b : list Z) : sum_Z (a ++ b) = sum_Z a + sum_Z b.
Proof. unfold sum_Z. induction a as [|z a IH]; simpl; [done|]. rewrite IH. lia. Qed.

(** X27: the route update that [send_orders_and_create_route] makes
    is for the resource it was given and carries the clock as route id;
    its summary counts every stop of the plan, the two depots included,
    and its mileage, weight and price are the totals over the whole
    plan, the depots adding no weight and no cost. *)
Theorem X27_summary_of_the_plan :
  ∀ calculate_distance sort_values calc_dist now net token resource_id unit_id
    vehicle_name df_grouped tf tt item plan uid sum,
    RouteUpdate item plan uid sum ∈
      (send_orders_and_create_route calculate_distance sort_values calc_dist now net
         token resource_id unit_id vehicle_name df_grouped tf tt).2 →
    item = resource_id ∧ uid = now ∧
    countOrders sum = length plan ∧
    mileage sum = sum_Z (s_m <$> plan) ∧
    weight sum = sum_Z (s_w <$> plan) ∧
    priceTotal sum = sum_Z (s_c <$> plan).
Proof.
  intros until sum.
  destruct (send_orders_run calculate_distance sort_values calc_dist now net token
              resource_id unit_id vehicle_name df_grouped tf tt)
    as (rest & -> & [[-> _]|(df' & osrm & Hosrm & [[-> _]|(plan' & rs & -> & Hb & _)])]).
  - intros [[=]|?%elem_of_nil]%elem_of_cons. done.
  - intros [[=]|[[=]|Hin]%elem_of_cons]%elem_of_cons.
    by apply (osrm_not_update _ _ Hosrm) in Hin.
  - intros [[=]|[[=]|[Hin|Hin%list_elem_of_singleton]%elem_of_app]%elem_of_cons]%elem_of_cons.
    { by apply (osrm_not_update _ _ Hosrm) in Hin. }
    injection Hin as -> -> -> ->. split; [done|]. split; [done|].
    destruct Hb as (entries & end_rp & t & t' & Hb).
    apply build_route_carries in Hb as (cs & fin & -> & Hcs & Hfin & _ & Hw & Hc).
    split; [done|]. split; [done|].
    assert (filter (λ o, s_f o = 0) (depot_stop unit_id (JInt 0) 260 tf 0 0 None :: cs ++ [fin])
            = cs) as Hcust.
    { rewrite filter_cons_False by done. rewrite filter_app.
      rewrite filter_cons_False by (rewrite Hfin; done). rewrite app_nil_r.
      apply filter_all. eapply Forall_impl; [exact Hcs|]. apply carries_flag. }
    unfold summarize. cbn [weight priceTotal]. rewrite Hcust.
    change (depot_stop unit_id (JInt 0) 260 tf 0 0 None :: cs ++ [fin])%list
      with ([depot_stop unit_id (JInt 0) 260 tf 0 0 None] ++ cs ++ [fin])%list.
    rewrite !fmap_app, !sum_Z_app. simpl. rewrite Hw, Hc. lia.
Qed.

Lemma X27_summary_of_the_plan_witness :
  ∃ sum,
    RouteUpdate 9 sample_plan 1700000300 sum ∈
      (send_orders_and_create_route flat_distance keep_order flat_leg 1700000300 sample_net
         "token" 9 101 "KBX 123Z-TRUCK" two_customers 1700000000 1700040000).2 ∧
    countOrders sum = length sample_plan ∧ weight sum = sum_Z (s_w <$> sample_plan).
Proof.
  eexists. split; [vm_compute; repeat constructor|].
  destruct (X27_summary_of_the_plan flat_distance keep_order flat_leg 1700000300 sample_net
              "token" 9 101 "KBX 123Z-TRUCK" two_customers 1700000000 1700040000
              9 sample_plan 1700000300
              {| countOrders := 4; duration := JInt 0; mileage := 4500;
                 priceTotal := 1500; weight := 3000 |})
    as (_ & _ & Hn & _ & Hw & _).
  - vm_compute. repeat constructor.
  - split; [exact Hn|exact Hw].
Defined.

(** ** The submission *)

(** X28: whatever is submitted, [run_wialon_uploader] never shows that
    no delivery rows were found: a submission without rows has been
    refused before, as one without valid data. *)
Theorem X28_no_delivery_rows_never_shown :
  ∀ calculate_distance sort_values calc_dist now net
    (excel_files : list sheet) (assets_file : option workbook)
    (token resource_id : string) (tf tt : Z),
    (run_wialon_uploader calculate_distance sort_values calc_dist now net
       excel_files assets_file token resource_id tf tt).1 ≠ NoDeliveryRows.
Proof.
  intros. unfold run_wialon_uploader.
  destruct excel_files as [|f fs]; [done|]. destruct assets_file as [assets|]; [|done].
  destruct token as [|c token]; [done|]. destruct resource_id as [|c' resource_id]; [done|].
  unfold dispatch.
  destruct (process_multiple_excels (f :: fs)) as [[rows truck]|e] eqn:Hp; simpl; [|done].
  apply process_multiple_excels_ok in Hp as (_ & Hne & _ & -> & _).
  pose proof (drop_duplicates_nonempty _ Hne) as Hrows.
  destruct (drop_duplicates [] (concat (tables (f :: fs)))) as [|r rows]; [done|].
  destruct (read_asset_id_from_excel assets truck) as [[unit_id name]|e]; simpl; [|done].
  destruct unit_id as [[|u|u]|]; try done.
  all: destruct (int_of_str _) as [resource|e]; simpl; [|done].
  all: destruct (send_orders_and_create_route _ _ _ _ _ _ _ _ _ _ _ _) as [r' calls].
  all: by destruct (eq_int (error r') 0).
Qed.

(** X29: [run_wialon_uploader] makes remote calls only when the form
    is complete, the workbooks give a table, the asset workbook gives a
    unit id other than zero for their truck number and the resource id
    reads as an integer; the calls are then those of
    [send_orders_and_create_route] for that table, unit and resource. *)
Theorem X29_calls_need_a_resolved_truck :
  ∀ calculate_distance sort_values calc_dist now net
    (excel_files : list sheet) (assets_file : option workbook)
    (token resource_id : string) (tf tt : Z),
    (run_wialon_uploader calculate_distance sort_values calc_dist now net
       excel_files assets_file token resource_id tf tt).2 ≠ [] →
    ∃ assets rows truck unit_id vehicle_name resource,
      assets_file = Some assets ∧ token ≠ "" ∧
      process_multiple_excels excel_files = Ok (rows, truck) ∧
      read_asset_id_from_excel assets truck = Ok (Some unit_id, vehicle_name) ∧
      unit_id ≠ 0 ∧
      int_of_str resource_id = Ok resource ∧
      (run_wialon_uploader calculate_distance sort_values calc_dist now net
         excel_files assets_file token resource_id tf tt).2
      = (send_orders_and_create_route calculate_distance sort_values calc_dist now net
           token resource unit_id (default "" vehicle_name) rows tf tt).2.
Proof.
  intros until tt. unfold run_wialon_uploader.
  destruct excel_files as [|f fs]; [done|]. destruct assets_file as [assets|]; [|done].
  destruct token as [|c token]; [done|]. destruct resource_id as [|c' resource_id]; [done|].
  unfold dispatch.
  destruct (process_multiple_excels (f :: fs)) as [[rows truck]|e] eqn:Hp; simpl; [|done].
  destruct rows as [|r rows]; [done|].
  destruct (read_asset_id_from_excel assets truck) as [[unit_id name]|e] eqn:Ha; simpl; [|done].
  destruct unit_id as [unit_id|]; [|done].
  destruct (decide (unit_id = 0)) as [->|Hunit]; [done|].
  assert (∀ (A : Type) (a b : A),
            match unit_id with 0 => a | _ => b end = b) as Hm by (by destruct unit_id).
  rewrite Hm.
  destruct (int_of_str (String c' resource_id)) as [resource|e] eqn:Hr; simpl; [|done].
  intros _. exists assets, (r :: rows), truck, unit_id, name, resource.
  do 6 (split; [done|]).
  by destruct (send_orders_and_create_route calculate_distance sort_values calc_dist now net
                 (String c token) resource unit_id (default "" name) (r :: rows) tf tt).
Qed.

Lemma X29_calls_need_a_resolved_truck_witness :
  ∃ assets rows truck unit_id vehicle_name resource,
    Some assets_sample = Some assets ∧ "token" ≠ "" ∧
    process_multiple_excels [sheet_two_customers] = Ok (rows, truck) ∧
    read_asset_id_from_excel assets truck = Ok (Some unit_id, vehicle_name) ∧
    unit_id ≠ 0 ∧
    int_of_str "9" = Ok resource ∧
    (run_wialon_uploader flat_distance keep_order flat_leg 1700000300 sample_net
       [sheet_two_customers] (Some assets_sample) "token" "9" 1700000000 1700040000).2
    = (send_orders_and_create_route flat_distance keep_order flat_leg 1700000300 sample_net
         "token" resource unit_id (default "" vehicle_name) rows 1700000000 1700040000).2.
Proof.
  apply (X29_calls_need_a_resolved_truck flat_distance keep_order flat_leg 1700000300
           sample_net [sheet_two_customers] (Some assets_sample) "token" "9"
           1700000000 1700040000).
  vm_compute. discriminate.
Defined.

(** X30: when [run_wialon_uploader] shows that the route was created,
    the route update call has been made and its answer reports no error,
    and the link shown carries the session of the login. *)
Theorem X30_success_shown_for_accepted_update :
  ∀ calculate_distance sort_values calc_dist now net
    (excel_files : list sheet) (assets_file : option workbook)
    (token resource_id : string) (tf tt : Z) url,
    let out := run_wialon_uploader calculate_distance sort_values calc_dist now net
                 excel_files assets_file token resource_id tf tt in
    out.1 = RouteCreated url →
    existsb is_update out.2 = true ∧
    (∃ route_result, route_response net = Ok route_result ∧ accepted route_result = true) ∧
    (∃ login_result, login_response net = Ok login_result ∧
                     url = dict_get login_result "eid" ∧ is_Some url).
Proof.
  intros until url. unfold run_wialon_uploader.
  destruct excel_files as [|f fs]; [done|]. destruct assets_file as [assets|]; [|done].
  destruct token as [|c token]; [done|]. destruct resource_id as [|c' resource_id]; [done|].
  unfold dispatch.
  destruct (process_multiple_excels (f :: fs)) as [[rows truck]|e]; simpl; [|done].
  destruct rows as [|r rows]; [done|].
  destruct (read_asset_id_from_excel assets truck) as [[unit_id name]|e]; simpl; [|done].
  destruct unit_id as [unit_id|]; [|done].
  destruct (decide (unit_id = 0)) as [->|Hunit]; [done|].
  assert (∀ (A : Type) (a b : A),
            match unit_id with 0 => a | _ => b end = b) as Hm by (by destruct unit_id).
  rewrite Hm.
  destruct (int_of_str (String c' resource_id)) as [resource|e]; simpl; [|done].
  pose proof (success_needs_update calculate_distance sort_values calc_dist now net
                (String c token) resource unit_id (default "" name) (r :: rows) tf tt) as Hs.
  cbv zeta in Hs.
  destruct (send_orders_and_create_route calculate_distance sort_values calc_dist now net
              (String c token) resource unit_id (default "" name) (r :: rows) tf tt)
    as [result calls].
  simpl in *. destruct (eq_int (error result) 0); [|done].
  intros [= <-]. destruct (Hs eq_refl) as (Hu & Ha & _ & Hurl & login_result & Hlogin & Heid).
  split; [done|]. split; [done|]. exists login_result. by rewrite <- Heid.
Qed.

Lemma X30_success_shown_for_accepted_update_witness :
  existsb is_update
    (run_wialon_uploader flat_distance keep_order flat_leg 1700000300 sample_net
       [sheet_two_customers] (Some assets_sample) "token" "9" 1700000000 1700040000).2 = true ∧
  (∃ route_result, route_response sample_net = Ok route_result ∧ accepted route_result = true) ∧
  (∃ login_result, login_response sample_net = Ok login_result ∧
                   Some (JStr "5f1c") = dict_get login_result "eid" ∧
                   is_Some (Some (JStr "5f1c"))).
Proof.
  apply (X30_success_shown_for_accepted_update flat_distance keep_order flat_leg 1700000300
           sample_net [sheet_two_customers] (Some assets_sample) "token" "9"
           1700000000 1700040000 (Some (JStr "5f1c"))).
  vm_compute. reflexivity.
Defined.
